(** * igakit.io : the PetIGA binary reader/writer

    A shallow embedding of [src/igakit/io.py] (class [PetIGA]) and the
    properties of its geometry, vector and sparse-matrix codecs.

    Conventions of the embedding.
    - A file is the list of its bytes; an open handle is the list of the
      bytes still to be read (reading) or written so far (writing).
    - An Index value is a signed integer of the codec's index width; the
      arithmetic NumPy performs on such scalars wraps around, and the
      wrap-around is written out ([swrap]).
    - A floating-point element is the pair of the IEEE bit patterns of its
      real and imaginary parts (a real number has imaginary part [0], the
      pattern of [+0.0]).  Conversions that change the floating-point
      precision round and are outside the embedding: arrays are taken to
      hold bit patterns of the codec's own precision.
    - An array is its dtype, its shape and its elements in C order.
    - Memory is not bounded.  [np.fromfile] and [np.empty] allocate the
      array they are asked for before anything is read, and raise
      MemoryError, or ValueError when its size in bytes overflows, if they
      cannot; the embedding is of the calls in which the allocation
      succeeds.  The properties that involve a count stored in a file are
      stated for counts that are the sizes of data held by a file.
    - What [np.empty] returns is not initialised: its content is a
      parameter of the embedding ([stale]).
    - A Python integer stored as an Index is taken representable in the
      Index type: for one that is not, NumPy 2 raises OverflowError and
      earlier versions wrap it around ([py_int] wraps).  The properties of
      what is written carry that hypothesis. *)

From Stdlib Require Import String ZArith Arith PeanoNat Bool List Sorted Lia.
From coqutil Require Import Byte Word.LittleEndianList.
Import ListNotations.

Set Implicit Arguments.

(* ===================================================================== *)
(** ** Multi-dimensional indexing *)
(* ===================================================================== *)

Module Ix.

(** Number of elements of an array of shape [s]. *)
Fixpoint prod (s : list nat) : nat :=
  match s with
  | [] => 1
  | n :: s' => n * prod s'
  end.

(** Offset of a multi-index in C order (last index varies fastest). *)
Fixpoint ravel_c (s idx : list nat) : nat :=
  match s, idx with
  | _ :: s', i :: idx' => i * prod s' + ravel_c s' idx'
  | _, _ => 0
  end.

Fixpoint unravel_c (s : list nat) (j : nat) : list nat :=
  match s with
  | [] => []
  | _ :: s' => (j / prod s') :: unravel_c s' (j mod prod s')
  end.

(** Offset of a multi-index in Fortran order (first index varies fastest). *)
Fixpoint ravel_f (s idx : list nat) : nat :=
  match s, idx with
  | n :: s', i :: idx' => i + n * ravel_f s' idx'
  | _, _ => 0
  end.

Fixpoint unravel_f (s : list nat) (j : nat) : list nat :=
  match s with
  | [] => []
  | n :: s' => (j mod n) :: unravel_f s' (j / n)
  end.

(** [idx] is a valid multi-index of an array of shape [s]. *)
Definition in_range (s idx : list nat) : Prop :=
  Forall2 (fun n i => i < n) s idx.

Fixpoint in_rangeb (s idx : list nat) : bool :=
  match s, idx with
  | [], [] => true
  | n :: s', i :: idx' => (i <? n) && in_rangeb s' idx'
  | _, _ => false
  end.

End Ix.

(* ===================================================================== *)
(** ** Data types *)
(* ===================================================================== *)

Inductive endian := LittleEndian | BigEndian.

Inductive dkind := KInt | KFloat | KComplex.

(** A NumPy dtype: numeric kind, element width in bytes, byte order. *)
Record dtype := mk_dtype {
  kind : dkind;
  itemsize : nat;
  byteorder : endian
}.

(** [dtype.newbyteorder(o)]. *)
Definition newbyteorder (dt : dtype) (o : endian) : dtype :=
  mk_dtype (kind dt) (itemsize dt) o.

(* ===================================================================== *)
(** ** Bytes, byte order and element types *)
(* ===================================================================== *)

Local Open Scope Z_scope.

(** Big-endian counterparts of coqutil's little-endian [le_split] and
    [le_combine]. *)
Definition be_split (n : nat) (z : Z) : list byte := rev (le_split n z).
Definition be_combine (bs : list byte) : Z := le_combine (rev bs).

Definition split (o : endian) (n : nat) (z : Z) : list byte :=
  match o with
  | LittleEndian => le_split n z
  | BigEndian => be_split n z
  end.

Definition combine (o : endian) (bs : list byte) : Z :=
  match o with
  | LittleEndian => le_combine bs
  | BigEndian => be_combine bs
  end.

(** The signed integer of [bits] bits congruent to [z] (two's complement
    wrap-around). *)
Definition swrap (bits : Z) (z : Z) : Z :=
  (z + 2 ^ (bits - 1)) mod 2 ^ bits - 2 ^ (bits - 1).

Definition nbits (d : dtype) : Z := 8 * Z.of_nat (itemsize d).

(** What an element type must provide to be stored in an array and moved
    to and from a byte stream under a dtype. *)
Class Element (A : Type) := {
  zero : A;
  (** the value after conversion to the dtype ([np.asarray(x, dtype)]) *)
  cast : dtype -> A -> A;
  (** the bytes of the element in the layout of the dtype *)
  to_bytes : dtype -> A -> list byte;
  (** the element held by [itemsize] bytes in the layout of the dtype *)
  of_bytes : dtype -> list byte -> A
}.

(** Integers: two's complement of the dtype's width. *)
Definition int_cast (d : dtype) (z : Z) : Z := swrap (nbits d) z.

Definition int_to_bytes (d : dtype) (z : Z) : list byte :=
  split (byteorder d) (itemsize d) z.

Definition int_of_bytes (d : dtype) (bs : list byte) : Z :=
  swrap (nbits d) (combine (byteorder d) bs).

#[export] Instance Element_int : Element Z := {
  zero := 0;
  cast := int_cast;
  to_bytes := int_to_bytes;
  of_bytes := int_of_bytes
}.

(** A floating-point element: the bit patterns of its real and imaginary
    parts.  Under a real dtype only the real part is stored (NumPy discards
    the imaginary part when it converts); under a complex dtype the real
    part comes first, each part in the dtype's byte order. *)
Definition cfloat : Type := Z * Z.

Definition part_size (d : dtype) : nat :=
  match kind d with
  | KComplex => Nat.div (itemsize d) 2
  | _ => itemsize d
  end.

Definition part_bits (d : dtype) : Z := 8 * Z.of_nat (part_size d).

Definition cfloat_cast (d : dtype) (x : cfloat) : cfloat :=
  match kind d with
  | KComplex => (fst x mod 2 ^ part_bits d, snd x mod 2 ^ part_bits d)
  | _ => (fst x mod 2 ^ part_bits d, 0)
  end.

Definition cfloat_to_bytes (d : dtype) (x : cfloat) : list byte :=
  match kind d with
  | KComplex => split (byteorder d) (part_size d) (fst x)
                ++ split (byteorder d) (part_size d) (snd x)
  | _ => split (byteorder d) (part_size d) (fst x)
  end.

Definition cfloat_of_bytes (d : dtype) (bs : list byte) : cfloat :=
  match kind d with
  | KComplex => (combine (byteorder d) (firstn (part_size d) bs),
                 combine (byteorder d) (skipn (part_size d) bs))
  | _ => (combine (byteorder d) bs, 0)
  end.

#[export] Instance Element_cfloat : Element cfloat := {
  zero := (0, 0);
  cast := cfloat_cast;
  to_bytes := cfloat_to_bytes;
  of_bytes := cfloat_of_bytes
}.

(* ===================================================================== *)
(** ** Arrays *)
(* ===================================================================== *)

(** An n-dimensional array: elements are kept in C order. *)
Record ndarray (A : Type) := mk_ndarray {
  dt : dtype;
  shape : list nat;
  data : list A
}.

Arguments mk_ndarray {A} _ _ _.

Section Arrays.
Context {A : Type} {E : Element A}.
Local Open Scope nat_scope.

Definition size (a : ndarray A) : nat := length (data a).

(** The array is well formed: it has as many elements as its shape says. *)
Definition wf (a : ndarray A) : Prop := length (data a) = Ix.prod (shape a).

Definition get (a : ndarray A) (idx : list nat) : A :=
  nth (Ix.ravel_c (shape a) idx) (data a) zero.

(** The array of shape [s] whose element at [idx] is [f idx]. *)
Definition tabulate (d : dtype) (s : list nat) (f : list nat -> A) : ndarray A :=
  mk_ndarray d s (map (fun j => f (Ix.unravel_c s j)) (seq 0 (Ix.prod s))).

(** [np.rollaxis(a, -1)]: the last axis becomes the first. *)
Definition rollaxis_last (a : ndarray A) : ndarray A :=
  tabulate (dt a) (last (shape a) 0%nat :: removelast (shape a))
    (fun idx => match idx with
                | k :: i => get a (i ++ [k])
                | [] => zero
                end).

(** [np.rollaxis(a, 0, a.ndim)]: the first axis becomes the last. *)
Definition rollaxis_first (a : ndarray A) : ndarray A :=
  tabulate (dt a) (tl (shape a) ++ [hd 0%nat (shape a)])
    (fun idx => get a (last idx 0%nat :: removelast idx)).

(** [a.ravel('f')]: the elements in Fortran order, as a 1-D array. *)
Definition ravel_f (a : ndarray A) : ndarray A :=
  mk_ndarray (dt a) [Ix.prod (shape a)]
    (map (fun j => get a (Ix.unravel_f (shape a) j)) (seq 0 (Ix.prod (shape a)))).

(** [a.reshape(s, order='f')] for a 1-D array [a] whose size is [prod s]
    (the size check is made by the caller). *)
Definition unravel_f (a : ndarray A) (s : list nat) : ndarray A :=
  tabulate (dt a) s (fun idx => nth (Ix.ravel_f s idx) (data a) zero).

(** [a[..., idx]] with [idx] a list of positions on the last axis. *)
Definition take_last (a : ndarray A) (idx : list nat) : ndarray A :=
  tabulate (dt a) (removelast (shape a) ++ [length idx])
    (fun i => get a (removelast i ++ [nth (last i 0%nat) idx 0%nat])).

(** [a[..., lo:hi]]. *)
Definition slice_last (a : ndarray A) (lo hi : nat) : ndarray A :=
  tabulate (dt a) (removelast (shape a) ++ [hi - lo])
    (fun i => get a (removelast i ++ [lo + last i 0%nat])).

(** [a[..., k]]: the last axis is dropped. *)
Definition select_last (a : ndarray A) (k : nat) : ndarray A :=
  tabulate (dt a) (removelast (shape a)) (fun i => get a (i ++ [k])).

(** [a[..., k] = b]. *)
Definition set_last (a : ndarray A) (k : nat) (b : ndarray A) : ndarray A :=
  tabulate (dt a) (shape a)
    (fun i => if last i 0%nat =? k then get b (removelast i) else get a i).

(** [a[..., lo:hi] = b]: the channels [lo..hi) of the last axis are
    overwritten with [b], the others are kept. *)
Definition set_last_slice (a : ndarray A) (lo hi : nat) (b : ndarray A) : ndarray A :=
  tabulate (dt a) (shape a)
    (fun i => let k := last i 0%nat in
              if (lo <=? k) && (k <? hi)
              then get b (removelast i ++ [k - lo])
              else get a i).

(** [np.zeros(s, dtype=d)]. *)
Definition zeros (d : dtype) (s : list nat) : ndarray A :=
  mk_ndarray d s (repeat zero (Ix.prod s)).

(** [a.squeeze()]: axes of length one are removed. *)
Definition squeeze (a : ndarray A) : ndarray A :=
  mk_ndarray (dt a) (filter (fun n => negb (n =? 1)) (shape a)) (data a).

(** [np.array_equal]: same shape and same elements. *)
Definition array_equal (a b : ndarray A) : Prop :=
  shape a = shape b /\ data a = data b.

End Arrays.

(* ===================================================================== *)
(** ** Failures, streams and files *)
(* ===================================================================== *)

(** The ways a call can fail.  The assertions of the source carry the names
    the specification gives them; the other constructors are the Python
    exceptions raised by the interpreter or by NumPy. *)
Inductive error :=
| BadMagic              (* assert iga_id == IGA_ID, vec_id/clsid == VEC_ID, clsid == MAT_ID *)
| DimensionOutOfRange   (* assert 1 <= dim <= 3, assert dim <= nsd <= 3 *)
| InvalidDegree         (* assert p >= 1 *)
| InvalidGridSize       (* assert n >= 2 *)
| SizeMismatch          (* assert len(...) == count, assert AI[-1] == nz *)
| NsdWithoutControl     (* assert nsd is None *)
| ShortRead             (* the stream ends inside a header field:
                           IndexError of [...][0], ValueError of the unpacking *)
| IndexError
| TypeError
| ValueError
| IOError.

Inductive result (A : Type) :=
| OK (a : A)
| Err (e : error).

Arguments OK {A} a.
Arguments Err {A} e.

Definition bind {A B : Type} (c : result A) (k : A -> result B) : result B :=
  match c with
  | OK a => k a
  | Err e => Err e
  end.

Declare Scope result_scope.
Delimit Scope result_scope with result.

Notation "x <- c ;; k" := (bind c (fun x => k))
  (at level 100, c at level 99, right associativity) : result_scope.
Notation "' pat <- c ;; k" := (bind c (fun x => match x with pat => k end))
  (at level 100, pat pattern, c at level 99, right associativity) : result_scope.
Notation "'ensure' b 'orelse' e ;; k" := (if b then k else Err e)
  (at level 100, b at level 99, e at level 9, right associativity) : result_scope.

Local Open Scope result_scope.

(** An open file: the bytes still to be read, or the bytes written so far. *)
Definition stream : Type := list byte.

(** The files on disk, by name. *)
Definition filesystem : Type := string -> option (list byte).

Definition fs_put (fs : filesystem) (name : string) (content : list byte) : filesystem :=
  fun n => if String.eqb n name then Some content else fs n.

(** [open(filename, 'rb')]. *)
Definition open_rb (fs : filesystem) (filename : string) : result stream :=
  match fs filename with
  | Some content => OK content
  | None => Err IOError
  end.

(** [open(filename, 'wb')]: the file is created or truncated. *)
Definition open_wb (fs : filesystem) (filename : string) : filesystem * stream :=
  (fs_put fs filename [], []).

(** [fh.close()] of a file opened for writing: what was written is the
    content of the file. *)
Definition close_wb (fs : filesystem) (filename : string) (fh : stream) : filesystem :=
  fs_put fs filename fh.

(* ===================================================================== *)
(** ** NumPy primitives *)
(* ===================================================================== *)

(** [k] consecutive elements of dtype [d] decoded from [bs]. *)
Fixpoint items {A : Type} {E : Element A} (d : dtype) (k : nat) (bs : list byte) : list A :=
  match k with
  | O => []
  | S k' => of_bytes d (firstn (itemsize d) bs) :: items d k' (skipn (itemsize d) bs)
  end.

(** [np.fromfile(fid, dtype, count)]: a negative [count] reads every
    complete element left; when fewer than [count] elements are left the
    array is shorter and the stream is at its end.  The allocation of the
    [count] elements, which NumPy makes first, is taken to succeed. *)
Definition fromfile {A : Type} {E : Element A} (fid : stream) (d : dtype) (count : Z)
  : ndarray A * stream :=
  let avail := Nat.div (length fid) (itemsize d) in
  if count <? 0 then
    (mk_ndarray d [avail] (items d avail fid), skipn (avail * itemsize d) fid)
  else if count <=? Z.of_nat avail then
    let n := Z.to_nat count in
    (mk_ndarray d [n] (items d n fid), skipn (n * itemsize d) fid)
  else
    (mk_ndarray d [avail] (items d avail fid), []).

(** [a.astype(d)]. *)
Definition astype {A : Type} {E : Element A} (a : ndarray A) (d : dtype) : ndarray A :=
  mk_ndarray d (shape a) (map (cast d) (data a)).

(** [np.asarray(a, d)]. *)
Definition asarray {A : Type} {E : Element A} (a : ndarray A) (d : dtype) : ndarray A :=
  astype a d.

(** [a.tofile(fid)]: the elements in C order, in the layout of the array's
    dtype. *)
Definition tofile {A : Type} {E : Element A} (a : ndarray A) (fid : stream) : stream :=
  fid ++ concat (map (to_bytes (dt a)) (data a)).

(** Arithmetic on NumPy integer scalars of dtype [d]: the result is
    truncated to the width of [d]. *)
Definition np_add (d : dtype) (a b : Z) : Z := swrap (nbits d) (a + b).
Definition np_sub (d : dtype) (a b : Z) : Z := swrap (nbits d) (a - b).
Definition np_abs (d : dtype) (a : Z) : Z := swrap (nbits d) (Z.abs a).

(** [np.cumsum(a, out=...)] on integers of dtype [d], started from [acc]. *)
Fixpoint cumsum (d : dtype) (acc : Z) (l : list Z) : list Z :=
  match l with
  | [] => []
  | x :: l' => let acc' := np_add d acc x in acc' :: cumsum d acc' l'
  end.

(** [np.empty(n, dtype=d)]: the elements are whatever the memory holds,
    [stale k] at position [k], as values of the dtype. *)
Definition empty (stale : nat -> Z) (d : dtype) (n : nat) : ndarray Z :=
  mk_ndarray d [n] (map (fun k => cast d (stale k)) (seq 0 n)).

(** [out[0] = v]; the caller has checked that [out] is not empty. *)
Definition set_first (out : ndarray Z) (v : Z) : ndarray Z :=
  mk_ndarray (dt out) (shape out) (v :: tl (data out)).

(** [np.cumsum(a, out=out[1:])] on 1-D integer arrays: the running sums of
    [a] are stored after the first element of [out].  When [a] is empty
    NumPy returns at once: nothing is stored and the size of [out] is not
    checked.  Otherwise the sizes must agree (ValueError). *)
Definition cumsum_into_tail (d : dtype) (a out : ndarray Z) : result (ndarray Z) :=
  match data a with
  | [] => OK out
  | _ :: _ =>
    if Nat.eqb (size a) (size out - 1)
    then OK (mk_ndarray (dt out) (shape out) (firstn 1 (data out) ++ cumsum d 0 (data a)))
    else Err ValueError
  end.

Section NumPyShapes.
Context {A : Type} {E : Element A}.

(** [a.reshape(s, order='f')] of a 1-D array: ValueError unless the sizes
    agree. *)
Definition reshape_f (a : ndarray A) (s : list nat) : result (ndarray A) :=
  if Nat.eqb (size a) (Ix.prod s) then OK (unravel_f a s) else Err ValueError.

(** [a.reshape(s + (-1,))]: the last length is inferred; ValueError when
    the size of [a] is not a multiple of [prod s]. *)
Definition reshape_infer_last (a : ndarray A) (s : list nat) : result (ndarray A) :=
  let p := Ix.prod s in
  if Nat.eqb p 0 then Err ValueError
  else if Nat.eqb (Nat.modulo (size a) p) 0
       then OK (mk_ndarray (dt a) (s ++ [Nat.div (size a) p]) (data a))
       else Err ValueError.

(** [a.reshape((-1,) + s, order='f')] of a 1-D array: the first length is
    inferred. *)
Definition reshape_f_infer_first (a : ndarray A) (s : list nat) : result (ndarray A) :=
  let p := Ix.prod s in
  if Nat.eqb p 0 then Err ValueError
  else if Nat.eqb (Nat.modulo (size a) p) 0
       then OK (unravel_f a (Nat.div (size a) p :: s))
       else Err ValueError.

(** Whether [a[..., idx]] is defined: [a] has a last axis and every
    position of [idx] lies on it (IndexError otherwise). *)
Definition can_take_last (a : ndarray A) (idx : list nat) : bool :=
  match shape a with
  | [] => false
  | _ => forallb (fun k => Nat.ltb k (last (shape a) 0%nat)) idx
  end.

End NumPyShapes.

(* ===================================================================== *)
(** ** The geometry object *)
(* ===================================================================== *)

(** Modelled from the spec: the geometry class [NURBS] of [igakit.nurbs]
    is an external collaborator of the codec.  An object is built by
    [NURBS(knots, control)] from its knot vectors and its optional control
    array of shape [(n_1, ..., n_d, 4)]. *)
Record NURBS := mk_NURBS {
  knots : list (ndarray cfloat);
  control : option (ndarray cfloat)
}.

(** Modelled from the spec: [nurbs.dim], the number of parametric axes. *)
Definition NURBS_dim (nurbs : NURBS) : Z := Z.of_nat (length (knots nurbs)).

(** Modelled from the spec: [nurbs.shape], the logical grid shape
    [(n_1, ..., n_d)], the shape of the control array without its last
    axis. *)
Definition NURBS_shape (nurbs : NURBS) : list nat :=
  match control nurbs with
  | Some c => removelast (shape c)
  | None => []
  end.

(** Modelled from the spec: [nurbs.degree].  The grid size along axis [i]
    is [n_i = m_i - degree_i - 1] with [m_i] the length of knot vector [i];
    the degrees are those of a geometry that has its control array, whose
    shape gives the grid sizes. *)
Definition NURBS_degree (nurbs : NURBS) : list Z :=
  map (fun Un => Z.of_nat (size (fst Un)) - Z.of_nat (snd Un) - 1)
      (List.combine (knots nurbs) (NURBS_shape nurbs)).

(* ===================================================================== *)
(** ** class PetIGA *)
(* ===================================================================== *)

Definition VEC_ID : Z := 1211214.
Definition MAT_ID : Z := 1211216.
Definition IGA_ID : Z := 1211299.

Inductive precision_t := single | double.
Inductive scalar_t := real | complex.
Inductive indices_t := bit32 | bit64.

(** The class attribute [precision]. *)
Definition precision (p : precision_t) (s : scalar_t) : dtype :=
  match p, s with
  | single, real => mk_dtype KFloat 4 BigEndian       (* '>f4' *)
  | single, complex => mk_dtype KComplex 8 BigEndian  (* '>c8' *)
  | double, real => mk_dtype KFloat 8 BigEndian       (* '>f8' *)
  | double, complex => mk_dtype KComplex 16 BigEndian (* '>c16' *)
  end.

(** The class attribute [indices]. *)
Definition indices (i : indices_t) : dtype :=
  match i with
  | bit32 => mk_dtype KInt 4 BigEndian  (* '>i4' *)
  | bit64 => mk_dtype KInt 8 BigEndian  (* '>i8' *)
  end.

Record PetIGA := mk_PetIGA {
  _types : dtype * dtype * dtype
}.

Definition __init__ (precision_ : precision_t) (scalar : scalar_t) (indices_ : indices_t)
  : PetIGA :=
  let I := indices indices_ in
  let R := precision precision_ real in
  let S := precision precision_ scalar in
  mk_PetIGA (I, R, S).

(** The three element types [I, R, S = self._types]. *)
Definition Itype (self : PetIGA) : dtype := fst (fst (_types self)).
Definition Rtype (self : PetIGA) : dtype := snd (fst (_types self)).
Definition Stype (self : PetIGA) : dtype := snd (_types self).

Section Codec.

(** The byte order of the machine the program runs on. *)
Variable host : endian.

(** What the memory handed out by [np.empty] holds, position by position. *)
Variable stale : nat -> Z.

(** A Python integer handed to NumPy.  [np.asarray] of an integer that the
    target dtype cannot hold raises OverflowError in NumPy 2 and wraps
    around in earlier versions; the embedding wraps, and the properties of
    what is written take the integers representable, where the versions
    agree. *)
Definition py_int (v : Z) : ndarray Z := mk_ndarray (mk_dtype KInt 8 host) [] [v].

(** [_write(fid, dtype, array)]. *)
Definition _write {A : Type} {E : Element A} (fid : stream) (d : dtype) (array : ndarray A)
  : stream :=
  tofile (asarray array d) fid.

(** [_read(fid, dtype)], without [count]: one element, as a scalar. *)
Definition _read1 {A : Type} {E : Element A} (fid : stream) (d : dtype)
  : result (A * stream) :=
  let '(array, fid) := fromfile fid d 1 in
  match data array with
  | x :: _ => OK (cast (newbyteorder d host) x, fid)
  | [] => Err ShortRead
  end.

(** [_read(fid, dtype, count)]: an array in host byte order. *)
Definition _read {A : Type} {E : Element A} (fid : stream) (d : dtype) (count : Z)
  : ndarray A * stream :=
  let '(array, fid) := fromfile fid d count in
  (astype array (newbyteorder d host), fid).

(** *** write *)

Definition write (self : PetIGA) (fs : filesystem) (filename : string) (nurbs : NURBS)
  (geometry : bool) (nsd : option Z) : filesystem * result unit :=
  let I := Itype self in
  let R := Rtype self in
  let S := Stype self in
  let dim := NURBS_dim nurbs in
  let knots := knots nurbs in
  let degree := NURBS_degree nurbs in
  let prepared : result (option (Z * ndarray cfloat) * Z) :=
    if geometry then
      let nsd := match nsd with None => dim | Some nsd => nsd end in
      ensure (dim <=? nsd) && (nsd <=? 3) orelse DimensionOutOfRange ;;
      let idx := (seq 0 (Z.to_nat nsd) ++ [3%nat])%list in
      match control nurbs with
      | None => Err TypeError
      | Some c =>
        ensure can_take_last c idx orelse IndexError ;;
        let Cw := take_last c idx in
        let Cw := ravel_f (rollaxis_last Cw) in
        OK (Some (nsd, Cw), 1)
      end
    else
      match nsd with
      | None => OK (None, 0)
      | Some _ => Err NsdWithoutControl
      end in
  match prepared with
  | Err e => (fs, Err e)
  | OK (Cw, descr) =>
    let '(fs, fh) := open_wb fs filename in
    let fh := _write fh I (py_int IGA_ID) in
    let fh := _write fh I (py_int descr) in
    let fh := _write fh I (py_int dim) in
    let fh :=
      fold_left
        (fun fh pU =>
           let '(p, U) := pU in
           let fh := _write fh I (py_int p) in
           let fh := _write fh I (py_int (Z.of_nat (size U))) in
           _write fh R U)
        (List.combine degree knots) fh in
    let fh :=
      match Cw with
      | Some (nsd, Cw) =>
        let fh := _write fh I (py_int nsd) in
        let fh := _write fh I (py_int VEC_ID) in
        let fh := _write fh I (py_int (Z.of_nat (size Cw))) in
        _write fh S Cw
      | None => fh
      end in
    (close_wb fs filename fh, OK tt)
  end.

(** *** read *)

(** The loop [for i in range(dim)] of [read], with [k] iterations left. *)
Fixpoint read_axes (self : PetIGA) (k : nat) (knots : list (ndarray cfloat))
  (sizes : list Z) (fh : stream) : result (list (ndarray cfloat) * list Z * stream) :=
  let I := Itype self in
  let R := Rtype self in
  match k with
  | O => OK (knots, sizes, fh)
  | S k' =>
    ' (p, fh) <- _read1 fh I ;;
    ensure 1 <=? p orelse InvalidDegree ;;
    ' (m, fh) <- _read1 fh I ;;
    let n := np_sub I (np_sub I m p) 1 in
    ensure 2 <=? n orelse InvalidGridSize ;;
    let '(U, fh) := _read fh R m in
    ensure Z.of_nat (size U) =? m orelse SizeMismatch ;;
    read_axes self k' (knots ++ [U]) (sizes ++ [n]) fh
  end.

(** The body of [if geometry:] after the file is closed: the flat values
    [Cw] become the control array of shape [sizes + [4]]. *)
Definition reconstruct (I : dtype) (nsd : Z) (sizes : list Z) (Cw : ndarray cfloat)
  : result (ndarray cfloat) :=
  let shp := np_add I nsd 1 :: sizes in
  Cw <- reshape_f Cw (map Z.to_nat shp) ;;
  let Cw := rollaxis_first Cw in
  let shp := (sizes ++ [4])%list in
  let control := zeros (dt Cw) (map Z.to_nat shp) in
  let c := last (shape Cw) 0%nat in
  let control := set_last_slice control 0 (Z.to_nat nsd) (slice_last Cw 0 (c - 1)) in
  let control := set_last control 3 (select_last Cw (c - 1)) in
  OK control.

Definition read (self : PetIGA) (fs : filesystem) (filename : string) : result NURBS :=
  let I := Itype self in
  let R := Rtype self in
  let S := Stype self in
  fh <- open_rb fs filename ;;
  ' (iga_id, fh) <- _read1 fh I ;;
  ensure iga_id =? IGA_ID orelse BadMagic ;;
  ' (descr, fh) <- _read1 fh I ;;
  ' (dim, fh) <- _read1 fh I ;;
  ensure (1 <=? dim) && (dim <=? 3) orelse DimensionOutOfRange ;;
  ' (knots, sizes, fh) <- read_axes self (Z.to_nat dim) [] [] fh ;;
  let geometry := 1 <=? np_abs I descr in
  Cw <- (if geometry then
           ' (nsd, fh) <- _read1 fh I ;;
           ensure (dim <=? nsd) && (nsd <=? 3) orelse DimensionOutOfRange ;;
           ' (vec_id, fh) <- _read1 fh I ;;
           ensure vec_id =? VEC_ID orelse BadMagic ;;
           ' (n, fh) <- _read1 fh I ;;
           let '(Cw, fh) := _read (A:=cfloat) fh S n in
           ensure Z.of_nat (size Cw) =? n orelse SizeMismatch ;;
           OK (Some (nsd, Cw))
         else OK None) ;;
  control <- match Cw with
             | Some (nsd, Cw) =>
               control <- reconstruct I nsd sizes Cw ;;
               OK (Some control)
             | None => OK None
             end ;;
  OK (mk_NURBS knots control).

(** *** write_vec *)

Definition write_vec (self : PetIGA) (fs : filesystem) (filename : string)
  (array : ndarray cfloat) (nurbs : option NURBS) : filesystem * result unit :=
  let I := Itype self in
  let S := Stype self in
  let A := array in
  let prepared : result (ndarray cfloat) :=
    match nurbs with
    | Some nurbs =>
      let shp := NURBS_shape nurbs in
      A <- reshape_infer_last A shp ;;
      let A := rollaxis_last A in
      let A := ravel_f A in
      OK A
    | None => OK A
    end in
  match prepared with
  | Err e => (fs, Err e)
  | OK A =>
    let '(fs, fh) := open_wb fs filename in
    let fh := _write fh I (py_int VEC_ID) in
    let fh := _write fh I (py_int (Z.of_nat (size A))) in
    let fh := _write fh S A in
    (close_wb fs filename fh, OK tt)
  end.

(** *** read_vec *)

Definition read_vec (self : PetIGA) (fs : filesystem) (filename : string)
  (nurbs : option NURBS) : result (ndarray cfloat) :=
  let I := Itype self in
  let S := Stype self in
  fh <- open_rb fs filename ;;
  ' (clsid, fh) <- _read1 fh I ;;
  ensure clsid =? VEC_ID orelse BadMagic ;;
  ' (n, fh) <- _read1 fh I ;;
  let '(A, fh) := _read (A:=cfloat) fh S n in
  ensure Z.of_nat (size A) =? n orelse SizeMismatch ;;
  match nurbs with
  | Some nurbs =>
    let shp := NURBS_shape nurbs in
    A <- reshape_f_infer_first A shp ;;
    let A := rollaxis_first A in
    let A := squeeze A in
    (* np.ascontiguousarray keeps the shape and the elements of an array
       that has at least one axis, which is the case for every grid of more
       than one point *)
    OK A
  | None => OK A
  end.

(** *** read_mat *)

Definition read_mat (self : PetIGA) (fs : filesystem) (filename : string)
  : result ((Z * Z) * (ndarray Z * ndarray Z * ndarray cfloat)) :=
  let I := Itype self in
  let S := Stype self in
  fh <- open_rb fs filename ;;
  ' (clsid, fh) <- _read1 fh I ;;
  ensure clsid =? MAT_ID orelse BadMagic ;;
  let '(hdr, fh) := _read (A:=Z) fh I 3 in
  match data hdr with
  | [M; N; nz] =>
    let M1 := np_add I M 1 in
    ensure 0 <=? M1 orelse ValueError ;;
    let AI := empty stale (newbyteorder I host) (Z.to_nat M1) in
    ensure negb (M1 =? 0) orelse IndexError ;;
    let AI := set_first AI 0 in
    let '(rownz, fh) := _read (A:=Z) fh I M in
    AI <- cumsum_into_tail I rownz AI ;;
    ensure last (data AI) 0 =? nz orelse SizeMismatch ;;
    let '(AJ, fh) := _read (A:=Z) fh I nz in
    ensure Z.of_nat (size AJ) =? nz orelse SizeMismatch ;;
    let '(AV, fh) := fromfile (A:=cfloat) fh S nz in
    ensure Z.of_nat (size AV) =? nz orelse SizeMismatch ;;
    OK ((M, N), (AI, AJ, AV))
  | _ => Err ShortRead
  end.

End Codec.

(* ===================================================================== *)
(** ** The file formats, as the specification lays them out *)
(* ===================================================================== *)

(** The bytes [_write] emits for the elements [xs] under dtype [d]. *)
Definition encode {A : Type} {E : Element A} (d : dtype) (xs : list A) : list byte :=
  concat (map (to_bytes d) (map (cast d) xs)).

(** One axis of the geometry format: degree, knot count, knots. *)
Definition axis_bytes (self : PetIGA) (pU : Z * ndarray cfloat) : list byte :=
  encode (Itype self) [fst pU]
  ++ encode (Itype self) [Z.of_nat (size (snd pU))]
  ++ encode (Rtype self) (data (snd pU)).

(** The control block of the geometry format: saved spatial dimensions,
    vector magic, element count, values. *)
Definition control_bytes (self : PetIGA) (nsd : Z) (values : list cfloat) : list byte :=
  encode (Itype self) [nsd]
  ++ encode (Itype self) [VEC_ID]
  ++ encode (Itype self) [Z.of_nat (length values)]
  ++ encode (Stype self) values.

(** The geometry format: magic, descriptor, dimension, the axes, and
    whatever follows them. *)
Definition geometry_bytes (self : PetIGA) (magic descr dim : Z)
  (axes : list (Z * ndarray cfloat)) (tail : list byte) : list byte :=
  encode (Itype self) [magic]
  ++ encode (Itype self) [descr]
  ++ encode (Itype self) [dim]
  ++ flat_map (axis_bytes self) axes
  ++ tail.

(** The vector format: magic, element count, values. *)
Definition vector_bytes (self : PetIGA) (values : list cfloat) : list byte :=
  encode (Itype self) [VEC_ID]
  ++ encode (Itype self) [Z.of_nat (length values)]
  ++ encode (Stype self) values.

(** The sparse-matrix format: magic, M, N, nz, row counts, column indices,
    values. *)
Definition matrix_bytes (self : PetIGA) (M N nz : Z) (rownz col : list Z)
  (values : list cfloat) (tail : list byte) : list byte :=
  encode (Itype self) [MAT_ID]
  ++ encode (Itype self) [M; N; nz]
  ++ encode (Itype self) rownz
  ++ encode (Itype self) col
  ++ encode (Stype self) values
  ++ tail.

(* ===================================================================== *)
(** ** Vocabulary of the properties *)
(* ===================================================================== *)

(** A dtype under which an element type is stored faithfully. *)
Record lawful {A : Type} {E : Element A} (d : dtype) : Prop := {
  lawful_pos : (0 < itemsize d)%nat;
  lawful_length : forall x : A, length (to_bytes d x) = itemsize d;
  lawful_of_to : forall x : A, of_bytes d (to_bytes d x) = cast d x;
  lawful_order : forall (x : A) o, cast (newbyteorder d o) x = cast d x;
  lawful_idem : forall x : A, cast d (cast d x) = cast d x;
  lawful_decoded : forall bs, length bs = itemsize d ->
                              cast d (of_bytes d bs : A) = of_bytes d bs;
  lawful_to_of : forall bs, length bs = itemsize d ->
                            to_bytes d (of_bytes d bs : A) = bs
}.

(** The Index type of the codec holds the integers of
    [[-index_bound, index_bound)]. *)
Definition index_bound (self : PetIGA) : Z := 2 ^ (nbits (Itype self) - 1).

Definition representable (self : PetIGA) (z : Z) : Prop :=
  - index_bound self <= z < index_bound self.

(** [x] is a value of the codec's Real type: a bit pattern of the Real
    width, without imaginary part. *)
Definition is_real (self : PetIGA) (x : cfloat) : Prop := cast (Rtype self) x = x.

(** [x] is a value of the codec's Scalar type. *)
Definition is_scalar (self : PetIGA) (x : cfloat) : Prop := cast (Stype self) x = x.

(** The control array [read] rebuilds from the first [nsd] spatial channels
    and the weight channel of [c]: the other spatial channels are zero. *)
Definition pad_channels {A : Type} {E : Element A} (d : dtype) (nsd : nat) (c : ndarray A)
  : ndarray A :=
  tabulate d (shape c)
    (fun idx => let k := last idx 0%nat in
                if (Nat.ltb k nsd) || (Nat.eqb k 3) then get c idx else zero).

(** A geometry the codec is meant for: one to three axes, a well-formed
    control array of shape [(n_1, ..., n_d, 4)] holding Real values, 1-D
    knot vectors holding Real values, degrees at least 1 and grid sizes at
    least 2. *)
Record valid_geometry (self : PetIGA) (g : NURBS) (c : ndarray cfloat) : Prop := {
  vg_control : control g = Some c;
  vg_wf : wf c;
  vg_dim : 1 <= NURBS_dim g <= 3;
  vg_shape : shape c = (NURBS_shape g ++ [4%nat])%list;
  vg_rank : length (NURBS_shape g) = length (knots g);
  vg_knots_1d : Forall (fun U => shape U = [size U]) (knots g);
  vg_degree : Forall (fun p => 1 <= p) (NURBS_degree g);
  vg_sizes : Forall (fun n => (2 <= n)%nat) (NURBS_shape g);
  vg_real_knots : Forall (fun U => Forall (is_real self) (data U)) (knots g);
  vg_real_control : Forall (is_real self) (data c)
}.

(** The counts [write] stores fit the codec's Index type. *)
Record fits_index (self : PetIGA) (g : NURBS) (nsd : Z) : Prop := {
  fi_knots : Forall (fun U => representable self (Z.of_nat (size U))) (knots g);
  fi_control : representable self ((nsd + 1) * Z.of_nat (Ix.prod (NURBS_shape g)))
}.

(** The spatial channels [nsd .. 2] of a control array are zero. *)
Definition flat_beyond {A : Type} {E : Element A} (nsd : nat) (c : ndarray A) : Prop :=
  forall idx, Ix.in_range (shape c) idx ->
              (nsd <= last idx 0%nat < 3)%nat -> get c idx = zero.

(** The values [write] stores for a control array: the first [nsd]
    spatial channels and the weight, channel first, in Fortran order. *)
Definition stored (nsd : Z) (c : ndarray cfloat) : ndarray cfloat :=
  ravel_f (rollaxis_last (take_last c (seq 0 (Z.to_nat nsd) ++ [3%nat]))).

(** A stored axis (degree, knot vector) that [read] accepts. *)
Definition axis_ok (self : PetIGA) (pU : Z * ndarray cfloat) : Prop :=
  1 <= fst pU /\ 2 <= Z.of_nat (size (snd pU)) - fst pU - 1
  /\ representable self (Z.of_nat (size (snd pU))).

(** The knot vector and the grid size [read] gets from a stored axis. *)
Definition knots_read (host : endian) (self : PetIGA) (pU : Z * ndarray cfloat)
  : ndarray cfloat :=
  mk_ndarray (newbyteorder (Rtype self) host) [size (snd pU)]
    (map (cast (Rtype self)) (data (snd pU))).

Definition size_read (pU : Z * ndarray cfloat) : Z :=
  Z.of_nat (size (snd pU)) - fst pU - 1.

(** A knot vector as [read] returns it: 1-D, of dtype [d]. *)
Definition as_read (d : dtype) (U : ndarray cfloat) : ndarray cfloat :=
  mk_ndarray d [size U] (data U).

(** The degrees of a geometry with knot vectors [ks] and grid shape [ns]. *)
Definition degrees (ks : list (ndarray cfloat)) (ns : list nat) : list Z :=
  map (fun Un => Z.of_nat (size (fst Un)) - Z.of_nat (snd Un) - 1) (List.combine ks ns).

(** The [nsd] that [write] uses when control data is included. *)
Definition effective_nsd (nurbs : NURBS) (nsd : option Z) : Z :=
  match nsd with
  | None => NURBS_dim nurbs
  | Some nsd => nsd
  end.

(** Number of bytes an axis with knot vector [U] takes in a geometry file. *)
Definition axis_length (self : PetIGA) (U : ndarray cfloat) : nat :=
  (2 * itemsize (Itype self) + size U * itemsize (Rtype self))%nat.

(** Offsets in a geometry file of the first byte after the knot-count
    field of axis [j], and of the first byte after its knot values. *)
Definition knots_start (self : PetIGA) (g : NURBS) (j : nat) : nat :=
  (3 * itemsize (Itype self)
   + list_sum (map (axis_length self) (firstn j (knots g)))
   + 2 * itemsize (Itype self))%nat.

Definition knots_end (self : PetIGA) (g : NURBS) (j : nat) : nat :=
  (knots_start self g j
   + size (nth j (knots g) (mk_ndarray (Rtype self) [] [])) * itemsize (Rtype self))%nat.


(** The values [write_vec] stores for [A] against the grid shape [shp]:
    degrees of freedom first, in Fortran order. *)
Definition stored_vec (A : ndarray cfloat) (shp : list nat) (dof : nat) : ndarray cfloat :=
  ravel_f (rollaxis_last (mk_ndarray (dt A) (shp ++ [dof]) (data A))).

(* ===================================================================== *)
(** ** Sample data *)
(* ===================================================================== *)

(** The default codec: double precision, real scalars, 32-bit indices. *)
Definition ex_self : PetIGA := __init__ double real bit32.

(** IEEE binary64 bit patterns of 0.0, 0.5 and 1.0. *)
Definition fl_0 : cfloat := (0, 0).
Definition fl_half : cfloat := (4602678819172646912, 0).
Definition fl_1 : cfloat := (4607182418800017408, 0).

Definition f8 : dtype := mk_dtype KFloat 8 LittleEndian.

Definition no_files : filesystem := fun _ => None.

(** A straight line from (0,0) to (1,1): one axis, degree 1, two control
    points, the second with a non-zero y coordinate. *)
Definition ex_line_control : ndarray cfloat :=
  mk_ndarray f8 [2%nat; 4%nat] [fl_0; fl_0; fl_0; fl_1;  fl_1; fl_1; fl_0; fl_1].

Definition ex_line : NURBS :=
  mk_NURBS [mk_ndarray f8 [4%nat] [fl_0; fl_0; fl_1; fl_1]] (Some ex_line_control).

(** The biquadratic unit square of the specification's concrete scenario:
    degree [2,2], knots [0,0,0,1,1,1] on both axes, a 3 x 3 grid of points
    with unit weights. *)
Definition ex_square_control : ndarray cfloat :=
  mk_ndarray f8 [3%nat; 3%nat; 4%nat]
    (flat_map (fun x => flat_map (fun y => [x; y; fl_0; fl_1]) [fl_0; fl_half; fl_1])
       [fl_0; fl_half; fl_1]).

Definition ex_square : NURBS :=
  let U := mk_ndarray f8 [6%nat] [fl_0; fl_0; fl_0; fl_1; fl_1; fl_1] in
  mk_NURBS [U; U] (Some ex_square_control).

(** The name of the file the samples are written to. *)
Definition ex_name : string := "geometry.dat"%string.

(** A file system that holds one file. *)
Definition one_file (name : string) (content : list byte) : filesystem :=
  fs_put no_files name content.

(** The axes of [ex_line] as [write] stores them. *)
Definition ex_line_axes : list (Z * ndarray cfloat) :=
  List.combine (NURBS_degree ex_line) (knots ex_line).

(** The file [write] makes of [ex_line] with its control data. *)
Definition ex_line_file : list byte :=
  match fst (write LittleEndian ex_self no_files ex_name ex_line true None) ex_name with
  | Some content => content
  | None => []
  end.

(** The geometry file of [ex_line], control block included, with the
    descriptor field set to [descr]. *)
Definition ex_line_file_with_descriptor (descr : Z) : list byte :=
  geometry_bytes ex_self IGA_ID descr 1 ex_line_axes
    (control_bytes ex_self 1 (data (stored 1 ex_line_control))).

(** A well-formed 2 x 2 matrix file: the identity. *)
Definition ex_matrix_file : list byte :=
  matrix_bytes ex_self 2 2 2 [1; 1] [0; 1] [fl_1; fl_1] [].



(** A field with two degrees of freedom on the 3 x 3 grid of [ex_square]. *)
Definition ex_field : ndarray cfloat :=
  mk_ndarray f8 [18%nat]
    [fl_0; fl_1; fl_half; fl_1; fl_1; fl_1; fl_0; fl_half; fl_half;
     fl_1; fl_0; fl_0; fl_half; fl_0; fl_1; fl_half; fl_0; fl_1].

(** The file [write_vec] makes of [ex_field] on the grid of [ex_square]. *)
Definition ex_field_file : list byte :=
  match fst (write_vec LittleEndian ex_self no_files ex_name ex_field (Some ex_square))
          ex_name with
  | Some content => content
  | None => []
  end.

(** Offsets in a geometry file: the first byte of axis [j], which is its
    degree word, and the first byte after the axes, where the control
    block, if there is one, starts with its three Index words. *)
Definition axis_start (self : PetIGA) (g : NURBS) (j : nat) : nat :=
  (3 * itemsize (Itype self)
   + list_sum (map (axis_length self) (firstn j (knots g))))%nat.

Definition axes_end (self : PetIGA) (g : NURBS) : nat :=
  (3 * itemsize (Itype self) + list_sum (map (axis_length self) (knots g)))%nat.

(* ===================================================================== *)
(** * Properties *)
(* ===================================================================== *)

Module IxFacts.
Import Ix.
Local Open Scope nat_scope.

Lemma in_range_length s idx : in_range s idx -> length idx = length s.
Proof. intros H. symmetry. eapply Forall2_length; eauto. Qed.

Lemma in_rangeb_spec s idx : in_rangeb s idx = true <-> in_range s idx.
Proof.
  revert idx. induction s as [|n s IH]; intros [|i idx]; simpl; split; intros H;
    try discriminate; try constructor; try solve [inversion H].
  - apply andb_true_iff in H. destruct H as [H1 H2]. now apply Nat.ltb_lt.
  - apply andb_true_iff in H. apply IH, H.
  - inversion H; subst. apply andb_true_iff. split; [now apply Nat.ltb_lt | now apply IH].
Qed.

Lemma ravel_c_lt s idx : in_range s idx -> ravel_c s idx < prod s.
Proof.
  intros H. induction H as [|n i s idx Hi _ IH]; simpl; [lia|]. nia.
Qed.

Lemma unravel_c_ravel_c s idx : in_range s idx -> unravel_c s (ravel_c s idx) = idx.
Proof.
  intros H. induction H as [|n i s idx Hi H IH]; simpl; [reflexivity|].
  pose proof (ravel_c_lt H) as Hlt.
  assert (Hp : prod s <> 0) by lia.
  rewrite Nat.div_add_l, Nat.div_small, Nat.add_0_r by assumption.
  rewrite Nat.add_comm, Nat.Div0.mod_add, Nat.mod_small by assumption.
  now rewrite IH.
Qed.

Lemma unravel_c_in_range s : forall j, j < prod s -> in_range s (unravel_c s j).
Proof.
  induction s as [|n s IH]; simpl; intros j Hj; constructor.
  - assert (prod s <> 0) by (intros E; rewrite E in Hj; lia).
    apply Nat.Div0.div_lt_upper_bound. lia.
  - apply IH. apply Nat.mod_upper_bound. intros E; rewrite E in Hj; lia.
Qed.

Lemma ravel_c_unravel_c s : forall j, j < prod s -> ravel_c s (unravel_c s j) = j.
Proof.
  induction s as [|n s IH]; simpl; intros j Hj; [lia|].
  assert (Hp : prod s <> 0) by (intros E; rewrite E in Hj; lia).
  rewrite IH by (now apply Nat.mod_upper_bound).
  pose proof (Nat.div_mod_eq j (prod s)). lia.
Qed.

Lemma ravel_f_lt s idx : in_range s idx -> ravel_f s idx < prod s.
Proof.
  intros H. induction H as [|n i s idx Hi _ IH]; simpl; [lia|]. nia.
Qed.

Lemma unravel_f_ravel_f s idx : in_range s idx -> unravel_f s (ravel_f s idx) = idx.
Proof.
  intros H. induction H as [|n i s idx Hi H IH]; simpl; [reflexivity|].
  assert (Hn : n <> 0) by lia.
  rewrite (Nat.mul_comm n), Nat.Div0.mod_add, Nat.mod_small by assumption.
  rewrite Nat.div_add, Nat.div_small, Nat.add_0_l by assumption.
  now rewrite IH.
Qed.

Lemma unravel_f_in_range s : forall j, j < prod s -> in_range s (unravel_f s j).
Proof.
  induction s as [|n s IH]; simpl; intros j Hj; constructor.
  - apply Nat.mod_upper_bound. intros E; rewrite E in Hj; lia.
  - apply IH. apply Nat.Div0.div_lt_upper_bound. lia.
Qed.

Lemma ravel_f_unravel_f s : forall j, j < prod s -> ravel_f s (unravel_f s j) = j.
Proof.
  induction s as [|n s IH]; simpl; intros j Hj; [lia|].
  assert (Hn : n <> 0) by (intros E; rewrite E in Hj; lia).
  rewrite IH by (apply Nat.Div0.div_lt_upper_bound; lia).
  pose proof (Nat.div_mod_eq j n). lia.
Qed.

Lemma prod_app s t : prod (s ++ t) = prod s * prod t.
Proof. induction s; simpl; [lia|]. rewrite IHs. lia. Qed.

Lemma in_range_snoc s c idx :
  in_range (s ++ [c]) idx ->
  exists i k, idx = i ++ [k] /\ in_range s i /\ k < c.
Proof.
  revert idx. induction s as [|n s IH]; simpl; intros idx H.
  - inversion H as [|? k ? t Hk Ht]; subst. inversion Ht; subst.
    exists [], k. repeat split; [constructor | assumption].
  - inversion H as [|? j ? t Hj Ht]; subst.
    destruct (IH _ Ht) as (i & k & -> & Hi & Hk).
    exists (j :: i), k. repeat split; [now constructor | assumption].
Qed.

Lemma in_range_app s t i j : in_range s i -> in_range t j -> in_range (s ++ t) (i ++ j).
Proof. intros. now apply Forall2_app. Qed.

End IxFacts.

Import IxFacts.

Section ArrayFacts.
Context {A : Type} {E : Element A}.
Local Open Scope nat_scope.

Lemma nth_map_seq (f : nat -> A) n j d : j < n -> nth j (map f (seq 0 n)) d = f j.
Proof.
  intros Hj. rewrite (nth_indep _ d (f 0)) by (now rewrite length_map, length_seq).
  rewrite (map_nth f (seq 0 n) 0 j), seq_nth by assumption. reflexivity.
Qed.

Lemma map_nth_seq (l : list A) d : map (fun j => nth j l d) (seq 0 (length l)) = l.
Proof.
  apply nth_ext with (d := d) (d' := d).
  - now rewrite length_map, length_seq.
  - intros j Hj. rewrite length_map, length_seq in Hj. now apply nth_map_seq.
Qed.

Lemma map_seq_ext (f g : nat -> A) n :
  (forall j, j < n -> f j = g j) -> map f (seq 0 n) = map g (seq 0 n).
Proof.
  intros H. apply map_ext_in. intros j Hj. apply in_seq in Hj. apply H. lia.
Qed.

Lemma wf_tabulate d s (f : list nat -> A) : wf (tabulate d s f).
Proof. unfold wf, tabulate. simpl. now rewrite length_map, length_seq. Qed.

Lemma get_tabulate d s (f : list nat -> A) idx :
  Ix.in_range s idx -> get (tabulate d s f) idx = f idx.
Proof.
  intros H. unfold get, tabulate. simpl.
  rewrite nth_map_seq by (now apply ravel_c_lt).
  now rewrite unravel_c_ravel_c.
Qed.

Lemma tabulate_ext d s (f g : list nat -> A) :
  (forall idx, Ix.in_range s idx -> f idx = g idx) -> tabulate d s f = tabulate d s g.
Proof.
  intros H. unfold tabulate. f_equal. apply map_seq_ext.
  intros j Hj. apply H. now apply unravel_c_in_range.
Qed.

Lemma tabulate_get_data d s (l : list A) :
  length l = Ix.prod s ->
  tabulate d s (get (mk_ndarray d s l)) = mk_ndarray d s l.
Proof.
  intros Hl. unfold tabulate, get. simpl. f_equal.
  transitivity (map (fun j => nth j l zero) (seq 0 (length l))); [|apply map_nth_seq].
  rewrite Hl. apply map_seq_ext. intros j Hj. now rewrite ravel_c_unravel_c.
Qed.

Lemma tabulate_get (a : ndarray A) : wf a -> tabulate (dt a) (shape a) (get a) = a.
Proof. destruct a as [d s l]. intros H. now apply tabulate_get_data. Qed.

Lemma last_snoc (i : list nat) k d : last (i ++ [k]) d = k.
Proof. apply last_last. Qed.

Lemma removelast_snoc (i : list nat) k : removelast (i ++ [k]) = i.
Proof. apply removelast_last. Qed.

(** Writing moves the channel axis to the front and flattens in Fortran
    order; reading unflattens in Fortran order and moves the channel axis
    back: the two cancel. *)
Lemma layout_roundtrip (b flat : ndarray A) s c :
  shape b = s ++ [c] -> wf b ->
  data flat = data (ravel_f (rollaxis_last b)) ->
  rollaxis_first (unravel_f flat (c :: s)) = mk_ndarray (dt flat) (s ++ [c]) (data b).
Proof.
  intros Hs Hwf Hflat.
  unfold rollaxis_first.
  replace (shape (unravel_f flat (c :: s))) with (c :: s) by reflexivity.
  replace (dt (unravel_f flat (c :: s))) with (dt flat) by reflexivity.
  cbn [hd tl].
  rewrite <- (@tabulate_get_data (dt flat) (s ++ [c]) (data b))
    by (unfold wf in Hwf; now rewrite Hwf, Hs).
  apply tabulate_ext. intros idx Hidx.
  destruct (in_range_snoc _ _ Hidx) as (i & k & -> & Hi & Hk).
  rewrite last_snoc, removelast_snoc.
  assert (Hki : Ix.in_range (c :: s) (k :: i)) by (now constructor).
  unfold unravel_f. rewrite get_tabulate by assumption.
  rewrite Hflat. unfold ravel_f, rollaxis_last.
  rewrite Hs, last_snoc, removelast_snoc. cbn [data shape tabulate].
  rewrite nth_map_seq by (now apply ravel_f_lt).
  rewrite unravel_f_ravel_f by assumption.
  fold (tabulate (dt b) (c :: s)
          (fun idx => match idx with k :: i => get b (i ++ [k]) | [] => zero end)).
  rewrite get_tabulate by assumption.
  unfold get. cbn [shape data]. now rewrite Hs.
Qed.

End ArrayFacts.

Lemma length_split o n z : length (split o n z) = n.
Proof.
  destruct o; unfold split, be_split; [|rewrite length_rev]; apply length_le_split.
Qed.

Lemma combine_split o n z : combine o (split o n z) = z mod 2 ^ (8 * Z.of_nat n).
Proof.
  destruct o; unfold combine, split, be_combine, be_split; rewrite ?rev_involutive;
    rewrite le_combine_split; f_equal; f_equal; lia.
Qed.

Lemma split_combine o bs : split o (length bs) (combine o bs) = bs.
Proof.
  destruct o; unfold combine, split, be_combine, be_split.
  - apply split_le_combine.
  - rewrite <- (length_rev bs), split_le_combine. apply rev_involutive.
Qed.

Lemma combine_bound o bs : 0 <= combine o bs < 2 ^ (8 * Z.of_nat (length bs)).
Proof.
  destruct o; unfold combine, be_combine; [|rewrite <- (length_rev bs)];
    apply le_combine_bound.
Qed.

Lemma swrap_range bits z : 0 < bits -> - 2 ^ (bits - 1) <= swrap bits z < 2 ^ (bits - 1).
Proof.
  intros Hb. unfold swrap.
  assert (H2 : 2 ^ bits = 2 * 2 ^ (bits - 1)).
  { replace bits with (1 + (bits - 1)) at 1 by lia. rewrite Z.pow_add_r by lia. reflexivity. }
  assert (0 < 2 ^ (bits - 1)) by (apply Z.pow_pos_nonneg; lia).
  pose proof (Z.mod_pos_bound (z + 2 ^ (bits - 1)) (2 ^ bits)). lia.
Qed.

Lemma swrap_small bits z :
  0 < bits -> - 2 ^ (bits - 1) <= z < 2 ^ (bits - 1) -> swrap bits z = z.
Proof.
  intros Hb Hz. unfold swrap.
  assert (H2 : 2 ^ bits = 2 * 2 ^ (bits - 1)).
  { replace bits with (1 + (bits - 1)) at 1 by lia. rewrite Z.pow_add_r by lia. reflexivity. }
  rewrite Z.mod_small by lia. lia.
Qed.

Lemma swrap_mod bits z : 0 < bits -> swrap bits (z mod 2 ^ bits) = swrap bits z.
Proof.
  intros Hb. unfold swrap. f_equal.
  rewrite Zplus_mod_idemp_l. reflexivity.
Qed.

Lemma swrap_idem bits z : 0 < bits -> swrap bits (swrap bits z) = swrap bits z.
Proof. intros Hb. apply swrap_small; [assumption | now apply swrap_range]. Qed.

Lemma le_split_mod n z : le_split n (z mod 2 ^ (8 * Z.of_nat n)) = le_split n z.
Proof.
  rewrite <- (length_le_split n z) at 1.
  replace (z mod 2 ^ (8 * Z.of_nat n)) with (le_combine (le_split n z))
    by (rewrite le_combine_split; f_equal; f_equal; lia).
  rewrite split_le_combine. reflexivity.
Qed.

Lemma split_mod o n z : split o n (z mod 2 ^ (8 * Z.of_nat n)) = split o n z.
Proof. destruct o; unfold split, be_split; now rewrite le_split_mod. Qed.

Lemma swrap_congr bits z : 0 < bits -> swrap bits z mod 2 ^ bits = z mod 2 ^ bits.
Proof.
  intros Hb. unfold swrap.
  rewrite Zminus_mod, Zmod_mod, <- Zminus_mod. f_equal. lia.
Qed.

Lemma split_swrap o n z : (0 < n)%nat -> split o n (swrap (8 * Z.of_nat n) z) = split o n z.
Proof.
  intros Hn. rewrite <- (split_mod o n (swrap _ z)), swrap_congr by lia.
  apply split_mod.
Qed.

Lemma nbits_pos d : (0 < itemsize d)%nat -> 0 < nbits d.
Proof. unfold nbits. lia. Qed.

Ltac unfold_element :=
  cbv [cast to_bytes of_bytes zero Element_int Element_cfloat].

Lemma lawful_int d : (0 < itemsize d)%nat -> lawful (A:=Z) d.
Proof.
  intros Hp. pose proof (nbits_pos d Hp) as Hb.
  split; intros; unfold_element; unfold int_cast, int_to_bytes, int_of_bytes; auto.
  - apply length_split.
  - rewrite combine_split. now apply swrap_mod.
  - now apply swrap_idem.
  - now apply swrap_idem.
  - rewrite split_swrap by assumption. rewrite <- H. apply split_combine.
Qed.

Lemma part_size_double d :
  kind d = KComplex -> Nat.even (itemsize d) = true ->
  (part_size d + part_size d = itemsize d)%nat.
Proof.
  intros Hk Hev. unfold part_size. rewrite Hk.
  apply Nat.even_spec in Hev. destruct Hev as [h Hh]. rewrite Hh.
  rewrite Nat.mul_comm, Nat.div_mul by lia. lia.
Qed.

Lemma mod_pow_idem z b : 0 <= b -> (z mod 2 ^ b) mod 2 ^ b = z mod 2 ^ b.
Proof. intros. apply Zmod_mod. Qed.

Lemma lawful_cfloat d :
  (0 < itemsize d)%nat ->
  (kind d = KComplex -> Nat.even (itemsize d) = true) ->
  lawful (A:=cfloat) d.
Proof.
  intros Hp Hev.
  split; intros; unfold_element;
    unfold cfloat_cast, cfloat_to_bytes, cfloat_of_bytes, part_bits; auto.
  - destruct (kind d) eqn:Hk; rewrite ?length_app, !length_split;
      try (unfold part_size; rewrite Hk; reflexivity).
    now apply part_size_double; auto.
  - destruct (kind d) eqn:Hk; rewrite ?combine_split; try reflexivity.
    rewrite firstn_app, skipn_app, !length_split, Nat.sub_diag.
    rewrite firstn_all2 by (rewrite length_split; lia).
    rewrite skipn_all2 by (rewrite length_split; lia).
    cbn [firstn skipn]. rewrite app_nil_r. cbn [app]. rewrite !combine_split. reflexivity.
  - destruct (kind d); cbn [fst snd]; rewrite ?Zmod_mod; reflexivity.
  - assert (Hps : kind d <> KComplex -> part_size d = itemsize d)
      by (unfold part_size; destruct (kind d); congruence).
    destruct (kind d) eqn:Hk; cbn [fst snd].
    + rewrite Z.mod_small; [reflexivity|].
      rewrite Hps by congruence. rewrite <- H. apply combine_bound.
    + rewrite Z.mod_small; [reflexivity|].
      rewrite Hps by congruence. rewrite <- H. apply combine_bound.
    + pose proof (part_size_double d Hk (Hev eq_refl)) as Hd.
      rewrite !Z.mod_small; [reflexivity | |].
      * pose proof (combine_bound (byteorder d) (skipn (part_size d) bs)) as Hb.
        rewrite length_skipn in Hb. replace (length bs - part_size d)%nat with (part_size d) in Hb by lia.
        exact Hb.
      * pose proof (combine_bound (byteorder d) (firstn (part_size d) bs)) as Hb.
        rewrite length_firstn in Hb. replace (Nat.min (part_size d) (length bs)) with (part_size d) in Hb by lia.
        exact Hb.
  - assert (Hps : kind d <> KComplex -> part_size d = itemsize d)
      by (unfold part_size; destruct (kind d); congruence).
    destruct (kind d) eqn:Hk; cbn [fst snd].
    + rewrite Hps by congruence. rewrite <- H. apply split_combine.
    + rewrite Hps by congruence. rewrite <- H. apply split_combine.
    + pose proof (part_size_double d Hk (Hev eq_refl)) as Hd.
      rewrite <- (firstn_skipn (part_size d) bs) at 3. f_equal.
      * rewrite <- (split_combine (byteorder d) (firstn (part_size d) bs)) at 2.
        f_equal. rewrite length_firstn. lia.
      * rewrite <- (split_combine (byteorder d) (skipn (part_size d) bs)) at 2.
        f_equal. rewrite length_skipn. lia.
Qed.

Section StreamFacts.
Context {A : Type} {E : Element A}.
Variable host : endian.
Variable d : dtype.
Hypothesis Hd : lawful (A:=A) d.

Lemma length_concat_to_bytes (xs : list A) :
  length (concat (map (to_bytes d) xs)) = (length xs * itemsize d)%nat.
Proof.
  induction xs as [|x xs IH]; simpl; [reflexivity|].
  now rewrite length_app, IH, (lawful_length Hd).
Qed.

Lemma length_encode (xs : list A) : length (encode d xs) = (length xs * itemsize d)%nat.
Proof. unfold encode. now rewrite length_concat_to_bytes, length_map. Qed.

Lemma encode_app (xs ys : list A) : encode d (xs ++ ys) = encode d xs ++ encode d ys.
Proof. unfold encode. now rewrite !map_app, concat_app. Qed.

Lemma encode_cons (x : A) xs : encode d (x :: xs) = to_bytes d (cast d x) ++ encode d xs.
Proof. reflexivity. Qed.

Lemma items_encode (xs : list A) rest :
  items d (length xs) (encode d xs ++ rest) = map (cast d) xs.
Proof.
  induction xs as [|x xs IH]; [reflexivity|].
  rewrite encode_cons, <- app_assoc. cbn [length items map].
  rewrite firstn_app, skipn_app, (lawful_length Hd), Nat.sub_diag.
  rewrite firstn_all2 by (rewrite (lawful_length Hd); lia).
  rewrite skipn_all2 by (rewrite (lawful_length Hd); lia).
  cbn [firstn skipn app]. rewrite app_nil_r, IH.
  now rewrite (lawful_of_to Hd), (lawful_idem Hd).
Qed.

Lemma skipn_encode (xs : list A) rest :
  skipn (length xs * itemsize d) (encode d xs ++ rest) = rest.
Proof.
  rewrite skipn_app, length_encode, Nat.sub_diag.
  rewrite skipn_all2 by (rewrite length_encode; lia). reflexivity.
Qed.

Lemma avail_encode (xs : list A) rest :
  (length xs <= Nat.div (length (encode d xs ++ rest)) (itemsize d))%nat.
Proof.
  pose proof (lawful_pos Hd).
  rewrite length_app, length_encode.
  rewrite Nat.div_add_l by lia. lia.
Qed.

Lemma fromfile_encode (xs : list A) rest :
  fromfile (encode d xs ++ rest) d (Z.of_nat (length xs))
  = (mk_ndarray d [length xs] (map (cast d) xs), rest).
Proof.
  unfold fromfile.
  destruct (Z.ltb_spec (Z.of_nat (length xs)) 0); [lia|].
  pose proof (avail_encode xs rest).
  destruct (Z.leb_spec (Z.of_nat (length xs))
              (Z.of_nat (Nat.div (length (encode d xs ++ rest)) (itemsize d)))); [|lia].
  rewrite Nat2Z.id, items_encode, skipn_encode. reflexivity.
Qed.

Lemma _write_encode (fh : stream) (a : ndarray A) : _write fh d a = fh ++ encode d (data a).
Proof. reflexivity. Qed.

Lemma _read_encode (xs : list A) rest :
  _read host (encode d xs ++ rest) d (Z.of_nat (length xs))
  = (mk_ndarray (newbyteorder d host) [length xs] (map (cast d) xs), rest).
Proof.
  unfold _read. rewrite fromfile_encode. unfold astype. cbn [shape data].
  rewrite map_map. f_equal. f_equal. apply map_ext. intros x.
  now rewrite (lawful_order Hd), (lawful_idem Hd).
Qed.

Lemma _read1_encode (x : A) rest :
  _read1 host (encode d [x] ++ rest) d = OK (cast d x, rest).
Proof.
  unfold _read1. change 1 with (Z.of_nat (length [x])).
  rewrite fromfile_encode. cbn [data map].
  now rewrite (lawful_order Hd), (lawful_idem Hd).
Qed.

End StreamFacts.

Section ArrayFacts2.
Context {A : Type} {E : Element A}.
Local Open Scope nat_scope.

Lemma get_same_data (a b : ndarray A) idx :
  shape a = shape b -> data a = data b -> get a idx = get b idx.
Proof. intros Hs Hd. unfold get. now rewrite Hs, Hd. Qed.

Lemma get_zeros d s idx : get (zeros (A:=A) d s) idx = zero.
Proof.
  unfold get, zeros. cbn [data shape].
  destruct (Nat.lt_ge_cases (Ix.ravel_c s idx) (Ix.prod s)) as [H|H].
  - apply nth_repeat_lt. exact H.
  - apply nth_overflow. now rewrite repeat_length.
Qed.

Lemma zeros_tabulate d s : zeros (A:=A) d s = tabulate d s (fun _ => zero).
Proof.
  unfold zeros, tabulate. f_equal.
  apply nth_ext with (d := zero) (d' := zero).
  - now rewrite repeat_length, length_map, length_seq.
  - intros j Hj. rewrite repeat_length in Hj.
    rewrite nth_repeat_lt by assumption. now rewrite nth_map_seq.
Qed.

Lemma nth_idx_spatial nsd k : k < nsd -> nth k (seq 0 nsd ++ [3]) 0 = k.
Proof. intros H. rewrite app_nth1 by (now rewrite length_seq). now rewrite seq_nth. Qed.

Lemma nth_idx_weight nsd : nth nsd (seq 0 nsd ++ [3]) 0 = 3.
Proof.
  rewrite app_nth2 by (rewrite length_seq; lia). rewrite length_seq, Nat.sub_diag. reflexivity.
Qed.

Lemma get_take_last (c : ndarray A) s n idxs i k :
  shape c = s ++ [n] -> Ix.in_range s i -> k < length idxs ->
  get (take_last c idxs) (i ++ [k]) = get c (i ++ [nth k idxs 0]).
Proof.
  intros Hs Hi Hk. unfold take_last. rewrite Hs, removelast_snoc.
  rewrite get_tabulate.
  - now rewrite removelast_snoc, last_snoc.
  - apply in_range_app; [assumption|]. apply Forall2_cons; [assumption | constructor].
Qed.

(** What [read] rebuilds from the values [write] stored. *)
Lemma assemble_pad (c b : ndarray A) d sizes nsd :
  shape c = sizes ++ [4] -> nsd <= 3 ->
  shape b = sizes ++ [S nsd] ->
  data b = data (take_last c (seq 0 nsd ++ [3])) ->
  set_last
    (set_last_slice (zeros d (sizes ++ [4])) 0 nsd
       (slice_last b 0 (last (shape b) 0 - 1)))
    3 (select_last b (last (shape b) 0 - 1))
  = pad_channels d nsd c.
Proof.
  intros Hc Hnsd Hb Hdata.
  assert (Hget : forall i k, Ix.in_range sizes i -> k < S nsd ->
            get b (i ++ [k]) = get c (i ++ [nth k (seq 0 nsd ++ [3]) 0])).
  { intros i k Hi Hk.
    rewrite <- (@get_take_last c sizes 4 _ i k Hc Hi)
      by (rewrite length_app, length_seq; simpl; lia).
    apply get_same_data; [|assumption].
    rewrite Hb. unfold take_last. cbn [shape tabulate].
    rewrite Hc, removelast_snoc, length_app, length_seq. simpl. f_equal. f_equal. lia. }
  rewrite Hb, last_snoc. replace (S nsd - 1) with nsd by lia.
  unfold set_last at 1, pad_channels.
  replace (shape (set_last_slice (zeros d (sizes ++ [4])) 0 nsd (slice_last b 0 nsd)))
    with (sizes ++ [4]) by reflexivity.
  replace (dt (set_last_slice (zeros d (sizes ++ [4])) 0 nsd (slice_last b 0 nsd)))
    with d by reflexivity.
  rewrite Hc. apply tabulate_ext. intros idx Hidx.
  destruct (in_range_snoc _ _ Hidx) as (i & k & -> & Hi & Hk).
  rewrite last_snoc, removelast_snoc.
  destruct (Nat.eqb_spec k 3) as [->|Hk3].
  - rewrite orb_true_r. unfold select_last. rewrite Hb, removelast_snoc.
    rewrite get_tabulate by assumption.
    rewrite Hget by (assumption || lia). now rewrite nth_idx_weight.
  - rewrite orb_false_r. unfold set_last_slice.
    replace (shape (zeros d (sizes ++ [4]))) with (sizes ++ [4]) by reflexivity.
    rewrite get_tabulate by assumption.
    cbn zeta. rewrite last_snoc, removelast_snoc. cbn [Nat.leb andb].
    destruct (Nat.ltb_spec k nsd) as [Hlt|Hge].
    + unfold slice_last. rewrite Hb, removelast_snoc, Nat.sub_0_r.
      rewrite get_tabulate
        by (apply in_range_app; [assumption | apply Forall2_cons; [lia | constructor]]).
      rewrite removelast_snoc, last_snoc. cbn [Nat.add].
      rewrite Nat.sub_0_r.
      rewrite Hget by (assumption || lia). now rewrite nth_idx_spatial.
    + apply get_zeros.
Qed.

Lemma pad_flat (c : ndarray A) sizes nsd :
  wf c -> shape c = sizes ++ [4] -> flat_beyond nsd c ->
  pad_channels (dt c) nsd c = c.
Proof.
  intros Hwf Hs Hflat.
  transitivity (tabulate (dt c) (shape c) (get c)); [|now apply tabulate_get].
  unfold pad_channels. apply tabulate_ext. intros idx Hidx. cbn zeta.
  destruct (Nat.ltb_spec (last idx 0) nsd); [reflexivity|].
  destruct (Nat.eqb_spec (last idx 0) 3); [reflexivity|]. cbn [orb].
  symmetry. apply Hflat; [assumption|].
  split; [assumption|].
  rewrite Hs in Hidx. destruct (in_range_snoc _ _ Hidx) as (i & k & -> & Hi & Hk).
  rewrite last_snoc in *. lia.
Qed.

Lemma Forall_get (P : A -> Prop) (a : ndarray A) idx :
  wf a -> Forall P (data a) -> Ix.in_range (shape a) idx -> P (get a idx).
Proof.
  intros Hwf Hall Hidx. unfold get.
  apply Forall_nth; [assumption|]. rewrite Hwf. now apply ravel_c_lt.
Qed.

Lemma Forall_tabulate (P : A -> Prop) d s (f : list nat -> A) :
  (forall idx, Ix.in_range s idx -> P (f idx)) -> Forall P (data (tabulate d s f)).
Proof.
  intros H. unfold tabulate. cbn [data]. apply Forall_map, Forall_forall.
  intros j Hj. apply in_seq in Hj. apply H, unravel_c_in_range. lia.
Qed.

Lemma Forall_ravel_f (P : A -> Prop) (a : ndarray A) :
  (forall idx, Ix.in_range (shape a) idx -> P (get a idx)) -> Forall P (data (ravel_f a)).
Proof.
  intros H. unfold ravel_f. cbn [data]. apply Forall_map, Forall_forall.
  intros j Hj. apply in_seq in Hj. apply H, unravel_f_in_range. lia.
Qed.

(** Every value [write] stores for the control array is a value of the
    control array. *)
Lemma Forall_stored (P : A -> Prop) (c : ndarray A) sizes nsd :
  wf c -> shape c = sizes ++ [4] -> nsd <= 3 -> Forall P (data c) ->
  Forall P (data (ravel_f (rollaxis_last (take_last c (seq 0 nsd ++ [3]))))).
Proof.
  intros Hwf Hs Hnsd Hall.
  assert (Hlen : length (seq 0 nsd ++ [3]) = S nsd)
    by (rewrite length_app, length_seq; simpl; lia).
  apply Forall_ravel_f. intros idx Hidx.
  unfold rollaxis_last in *. cbn [shape tabulate] in Hidx.
  rewrite get_tabulate by assumption.
  unfold take_last in Hidx. cbn [shape tabulate] in Hidx.
  rewrite Hs in Hidx.
  repeat (rewrite removelast_snoc in Hidx || rewrite last_snoc in Hidx).
  rewrite Hlen in Hidx.
  inversion Hidx as [|? k ? i Hk Hi]; subst.
  rewrite (@get_take_last c sizes 4 _ i k Hs Hi) by (rewrite Hlen; lia).
  apply Forall_get; [assumption..|].
  rewrite Hs. apply in_range_app; [assumption|].
  apply Forall2_cons; [|constructor].
  destruct (Nat.eq_dec k nsd) as [->|Hne].
  - rewrite nth_idx_weight. lia.
  - rewrite nth_idx_spatial by lia. lia.
Qed.

Lemma size_stored (c : ndarray A) sizes nsd :
  shape c = sizes ++ [4] ->
  size (ravel_f (rollaxis_last (take_last c (seq 0 nsd ++ [3])))) = S nsd * Ix.prod sizes.
Proof.
  intros Hs. unfold size, ravel_f. cbn [data]. rewrite length_map, length_seq.
  unfold rollaxis_last, take_last. cbn [shape tabulate].
  rewrite Hs, !removelast_snoc, last_snoc, length_app, length_seq.
  cbn [length Ix.prod]. f_equal. lia.
Qed.

End ArrayFacts2.

Section Profile.
Variables (p : precision_t) (s : scalar_t) (i : indices_t).
Local Abbreviation self := (__init__ p s i).

Lemma lawful_I : lawful (A:=Z) (Itype self).
Proof. apply lawful_int. destruct i; simpl; lia. Qed.

Lemma lawful_R : lawful (A:=cfloat) (Rtype self).
Proof. apply lawful_cfloat; destruct p; simpl; try lia; discriminate. Qed.

Lemma lawful_S : lawful (A:=cfloat) (Stype self).
Proof. apply lawful_cfloat; destruct p, s; simpl; try lia; reflexivity || discriminate. Qed.

Lemma nbits_I : nbits (Itype self) = 32 \/ nbits (Itype self) = 64.
Proof. destruct i; [left | right]; reflexivity. Qed.

Lemma index_bound_ge : 2 ^ 31 <= index_bound self.
Proof. unfold index_bound. destruct nbits_I as [-> | ->]; simpl; lia. Qed.

Lemma cast_I v : representable self v -> cast (Itype self) v = v.
Proof.
  intros H. unfold_element. unfold int_cast. apply swrap_small; [|exact H].
  destruct nbits_I as [-> | ->]; lia.
Qed.

Lemma representable_small v : - 2 ^ 31 <= v < 2 ^ 31 -> representable self v.
Proof. pose proof index_bound_ge. unfold representable. lia. Qed.

Lemma part_bits_S : part_bits (Stype self) = part_bits (Rtype self).
Proof. destruct p, s; reflexivity. Qed.

Lemma is_real_is_scalar x : is_real self x -> is_scalar self x.
Proof.
  unfold is_real, is_scalar. unfold_element. unfold cfloat_cast.
  rewrite part_bits_S. destruct x as [re im]. cbn [fst snd].
  replace (kind (Rtype self)) with KFloat by (destruct p; reflexivity).
  intros H. injection H as H1 H2. subst im.
  destruct (kind (Stype self)); rewrite ?H1, ?Zmod_0_l; reflexivity.
Qed.

Lemma np_abs_small a :
  representable self (Z.abs a) -> np_abs (Itype self) a = Z.abs a.
Proof. intros H. unfold np_abs. now apply cast_I. Qed.

Lemma np_sub_small a b :
  representable self (a - b) -> np_sub (Itype self) a b = a - b.
Proof. intros H. unfold np_sub. now apply cast_I. Qed.

Lemma np_add_small a b :
  representable self (a + b) -> np_add (Itype self) a b = a + b.
Proof. intros H. unfold np_add. now apply cast_I. Qed.

End Profile.

Section GeometryFacts.
Variable host : endian.
Variables (p : precision_t) (s : scalar_t) (i : indices_t).
Local Abbreviation self := (__init__ p s i).

Lemma write_axes_fold (axes : list (Z * ndarray cfloat)) (fh : stream) :
  fold_left
    (fun fh pU =>
       let '(p, U) := pU in
       let fh := _write fh (Itype self) (py_int host p) in
       let fh := _write fh (Itype self) (py_int host (Z.of_nat (size U))) in
       _write fh (Rtype self) U)
    axes fh
  = fh ++ flat_map (axis_bytes self) axes.
Proof.
  revert fh. induction axes as [|[q U] axes IH]; intros fh; cbn [fold_left flat_map].
  - now rewrite app_nil_r.
  - rewrite IH. rewrite !_write_encode. unfold axis_bytes. cbn [fst snd py_int data].
    now rewrite <- !app_assoc.
Qed.

Lemma can_take_last_control (c : ndarray cfloat) sizes nsd :
  shape c = (sizes ++ [4%nat])%list -> 0 <= nsd <= 3 ->
  can_take_last c (seq 0 (Z.to_nat nsd) ++ [3%nat]) = true.
Proof.
  intros Hs Hn. unfold can_take_last. rewrite Hs.
  destruct (sizes ++ [4%nat])%list eqn:E; [now destruct sizes|].
  rewrite <- E, last_last. apply forallb_forall. intros k Hk.
  apply Nat.ltb_lt. apply in_app_or in Hk. destruct Hk as [Hk | [<- | []]]; [|lia].
  apply in_seq in Hk. lia.
Qed.

(** What [write] leaves on disk for a geometry with its control array. *)
Lemma write_geometry fs filename g c sizes nsd0 nsd :
  control g = Some c -> shape c = (sizes ++ [4%nat])%list ->
  nsd = match nsd0 with None => NURBS_dim g | Some n => n end ->
  NURBS_dim g <= nsd <= 3 ->
  write host self fs filename g true nsd0
  = (fs_put (fs_put fs filename []) filename
       (geometry_bytes self IGA_ID 1 (NURBS_dim g)
          (List.combine (NURBS_degree g) (knots g))
          (control_bytes self nsd (data (stored nsd c)))),
     OK tt).
Proof.
  intros Hc Hs Hnsd Hr. unfold write. rewrite <- Hnsd.
  destruct (Z.leb_spec (NURBS_dim g) nsd); [|lia].
  destruct (Z.leb_spec nsd 3); [|lia]. cbn [andb].
  rewrite Hc.
  assert (0 <= NURBS_dim g) by (unfold NURBS_dim; lia).
  rewrite (@can_take_last_control c sizes nsd) by (assumption || lia).
  cbv zeta. unfold open_wb, close_wb. rewrite write_axes_fold.
  rewrite !_write_encode. cbn [py_int data app].
  unfold geometry_bytes, control_bytes, stored, size.
  now rewrite <- !app_assoc.
Qed.

Lemma representable_between lo hi v :
  representable self lo -> representable self hi -> lo <= v <= hi -> representable self v.
Proof. unfold representable. lia. Qed.

Lemma read_axes_app (axes : list (Z * ndarray cfloat)) (k : nat) :
  Forall (axis_ok self) axes ->
  forall ks ss rest,
  read_axes host self (length axes + k) ks ss (flat_map (axis_bytes self) axes ++ rest)
  = read_axes host self k (ks ++ map (knots_read host self) axes)%list
      (ss ++ map size_read axes)%list rest.
Proof.
  induction 1 as [|[q U] axes (Hq & Hn & Hm) _ IH]; intros ks ss rest;
    cbn [length read_axes flat_map map Nat.add].
  - now rewrite !app_nil_r.
  - cbn [fst snd] in *.
    pose proof (index_bound_ge p s i) as Hb.
    assert (Hq' : representable self q) by (unfold representable in *; lia).
    unfold axis_bytes at 1. cbn [fst snd]. rewrite <- !app_assoc.
    rewrite (_read1_encode host (lawful_I p s i)). cbn [bind].
    rewrite (cast_I Hq').
    destruct (Z.leb_spec 1 q); [|lia].
    rewrite (_read1_encode host (lawful_I p s i)). cbn [bind].
    rewrite (cast_I Hm).
    rewrite (@np_sub_small p s i (Z.of_nat (size U)) q)
      by (unfold representable in *; lia).
    rewrite np_sub_small by (unfold representable in *; lia).
    destruct (Z.leb_spec 2 (Z.of_nat (size U) - q - 1)); [|lia].
    unfold size at 1. rewrite (_read_encode host (lawful_R p s i)).
    unfold size at 1. cbn [data]. rewrite length_map, Z.eqb_refl.
    rewrite IH. unfold knots_read at 2, size_read at 2. cbn [fst snd].
    now rewrite <- !app_assoc.
Qed.

Lemma read_axes_encode (axes : list (Z * ndarray cfloat)) :
  Forall (axis_ok self) axes ->
  forall ks ss rest,
  read_axes host self (length axes) ks ss (flat_map (axis_bytes self) axes ++ rest)
  = OK ((ks ++ map (knots_read host self) axes)%list, (ss ++ map size_read axes)%list, rest).
Proof.
  intros Hax ks ss rest. rewrite <- (Nat.add_0_r (length axes)).
  now rewrite read_axes_app.
Qed.

End GeometryFacts.

Lemma map_to_nat_of_nat (l : list nat) : map Z.to_nat (map Z.of_nat l) = l.
Proof. rewrite map_map. rewrite <- (map_id l) at 2. apply map_ext, Nat2Z.id. Qed.

Section GeometryRead.
Variable host : endian.
Variables (p : precision_t) (s : scalar_t) (i : indices_t).
Local Abbreviation self := (__init__ p s i).

Lemma reconstruct_stored (c flat : ndarray cfloat) sizes nsd :
  wf c -> shape c = (sizes ++ [4%nat])%list -> 0 <= nsd <= 3 ->
  data flat = data (stored nsd c) ->
  reconstruct (Itype self) nsd (map Z.of_nat sizes) flat
  = OK (pad_channels (dt flat) (Z.to_nat nsd) c).
Proof.
  intros Hwf Hs Hn Hflat. unfold reconstruct.
  rewrite np_add_small by (apply representable_small; lia).
  cbn [map]. rewrite map_to_nat_of_nat.
  replace (Z.to_nat (nsd + 1)) with (S (Z.to_nat nsd)) by lia.
  set (n := Z.to_nat nsd) in *.
  set (b := take_last c (seq 0 n ++ [3%nat])).
  assert (Hb : shape b = (sizes ++ [S n])%list).
  { unfold b, take_last. cbn [shape tabulate].
    rewrite Hs, removelast_snoc, length_app, length_seq. cbn [length].
    f_equal. f_equal. lia. }
  unfold reshape_f.
  replace (size flat) with (Ix.prod (S n :: sizes)).
  2:{ unfold size. rewrite Hflat. symmetry. exact (@size_stored _ _ c sizes n Hs). }
  rewrite Nat.eqb_refl. cbn [bind].
  rewrite (@layout_roundtrip _ _ b flat sizes (S n) Hb (wf_tabulate _ _ _) Hflat).
  rewrite map_app, map_to_nat_of_nat. cbn [map dt]. change (Z.to_nat 4) with 4%nat.
  f_equal. apply assemble_pad; try assumption; try reflexivity. lia.
Qed.

(** Reading a file laid out in the geometry format with a control block. *)
Lemma read_geometry_bytes fs filename descr axes nsd values junk :
  fs filename = Some (geometry_bytes self IGA_ID descr (Z.of_nat (length axes)) axes
                        (control_bytes self nsd values ++ junk)) ->
  (1 <= length axes <= 3)%nat -> Forall (axis_ok self) axes ->
  representable self descr -> 1 <= np_abs (Itype self) descr ->
  Z.of_nat (length axes) <= nsd <= 3 ->
  representable self (Z.of_nat (length values)) ->
  read host self fs filename
  = bind (reconstruct (Itype self) nsd (map (size_read) axes)
            (mk_ndarray (newbyteorder (Stype self) host) [length values]
               (map (cast (Stype self)) values)))
         (fun control => OK (mk_NURBS (map (knots_read host self) axes) (Some control))).
Proof.
  intros Hfs Hdim Hax Hdescr Habs Hnsd Hlen.
  pose proof (index_bound_ge p s i) as Hb.
  unfold read, open_rb. rewrite Hfs. cbn [bind]. unfold geometry_bytes.
  rewrite (_read1_encode host (lawful_I p s i)). cbn [bind].
  rewrite cast_I by (apply representable_small; unfold IGA_ID; lia).
  rewrite Z.eqb_refl.
  rewrite (_read1_encode host (lawful_I p s i)). cbn [bind].
  rewrite (cast_I Hdescr).
  rewrite (_read1_encode host (lawful_I p s i)). cbn [bind].
  rewrite cast_I by (apply representable_small; lia).
  destruct (Z.leb_spec 1 (Z.of_nat (length axes))); [|lia].
  destruct (Z.leb_spec (Z.of_nat (length axes)) 3); [|lia]. cbn [andb].
  rewrite Nat2Z.id, (read_axes_encode host Hax). cbn [bind app].
  destruct (Z.leb_spec 1 (np_abs (Itype self) descr)); [|lia].
  unfold control_bytes. rewrite <- !app_assoc.
  rewrite (_read1_encode host (lawful_I p s i)). cbn [bind].
  rewrite cast_I by (apply representable_small; lia).
  destruct (Z.leb_spec (Z.of_nat (length axes)) nsd); [|lia].
  destruct (Z.leb_spec nsd 3); [|lia]. cbn [andb].
  rewrite (_read1_encode host (lawful_I p s i)). cbn [bind].
  rewrite cast_I by (apply representable_small; unfold VEC_ID; lia).
  rewrite Z.eqb_refl.
  rewrite (_read1_encode host (lawful_I p s i)). cbn [bind].
  rewrite (cast_I Hlen).
  rewrite (_read_encode host (lawful_S p s i)).
  unfold size at 1. cbn [data]. rewrite length_map, Z.eqb_refl. cbn [bind].
  destruct (reconstruct _ _ _ _); reflexivity.
Qed.

(** Reading a file laid out in the geometry format whose descriptor says
    that no control data follows. *)
Lemma read_topology_bytes fs filename descr axes tail :
  fs filename = Some (geometry_bytes self IGA_ID descr (Z.of_nat (length axes)) axes tail) ->
  (1 <= length axes <= 3)%nat -> Forall (axis_ok self) axes ->
  representable self descr -> np_abs (Itype self) descr < 1 ->
  read host self fs filename = OK (mk_NURBS (map (knots_read host self) axes) None).
Proof.
  intros Hfs Hdim Hax Hdescr Habs.
  pose proof (index_bound_ge p s i) as Hb.
  unfold read, open_rb. rewrite Hfs. cbn [bind]. unfold geometry_bytes.
  rewrite (_read1_encode host (lawful_I p s i)). cbn [bind].
  rewrite cast_I by (apply representable_small; unfold IGA_ID; lia).
  rewrite Z.eqb_refl.
  rewrite (_read1_encode host (lawful_I p s i)). cbn [bind].
  rewrite (cast_I Hdescr).
  rewrite (_read1_encode host (lawful_I p s i)). cbn [bind].
  rewrite cast_I by (apply representable_small; lia).
  destruct (Z.leb_spec 1 (Z.of_nat (length axes))); [|lia].
  destruct (Z.leb_spec (Z.of_nat (length axes)) 3); [|lia]. cbn [andb].
  rewrite Nat2Z.id, (read_axes_encode host Hax). cbn [bind app].
  destruct (Z.leb_spec 1 (np_abs (Itype self) descr)); [lia|].
  reflexivity.
Qed.

End GeometryRead.

Lemma map_cast_id {A : Type} {E : Element A} d (l : list A) :
  Forall (fun x => cast d x = x) l -> map (cast d) l = l.
Proof. induction 1 as [|x l Hx _ IH]; cbn [map]; congruence. Qed.

Section RoundTrip.
Variable host : endian.
Variables (p : precision_t) (s : scalar_t) (i : indices_t).
Local Abbreviation self := (__init__ p s i).

Lemma axes_facts (ks : list (ndarray cfloat)) :
  forall ns : list nat,
  length ns = length ks ->
  Forall (fun q => 1 <= q) (degrees ks ns) ->
  Forall (fun n => (2 <= n)%nat) ns ->
  Forall (fun U => representable self (Z.of_nat (size U))) ks ->
  Forall (fun U => Forall (is_real self) (data U)) ks ->
  let axes := List.combine (degrees ks ns) ks in
  length axes = length ks
  /\ Forall (axis_ok self) axes
  /\ map (@size_read) axes = map Z.of_nat ns
  /\ map (knots_read host self) axes = map (as_read (newbyteorder (Rtype self) host)) ks.
Proof.
  induction ks as [|U ks IH]; intros [|n ns] Hlen Hdeg Hn Hrep Hreal; try discriminate.
  - cbn. repeat split; constructor.
  - change (degrees (U :: ks) (n :: ns))
      with (Z.of_nat (size U) - Z.of_nat n - 1 :: degrees ks ns) in *.
    cbn [List.combine] in *.
    inversion Hdeg as [|? ? Hq Hdeg']; subst.
    inversion Hn as [|? ? Hn1 Hn']; subst.
    inversion Hrep as [|? ? Hr1 Hrep']; subst.
    inversion Hreal as [|? ? Hreal1 Hreal']; subst.
    injection Hlen as Hlen.
    destruct (IH ns Hlen Hdeg' Hn' Hrep' Hreal') as (H1 & H2 & H3 & H4).
    cbn zeta. cbn [length map]. repeat split.
    + now rewrite H1.
    + constructor; [|exact H2]. unfold axis_ok. cbn [fst snd]. repeat split; try lia; apply Hr1.
    + rewrite H3. f_equal. unfold size_read. cbn [fst snd]. lia.
    + rewrite H4. f_equal. unfold knots_read, as_read. cbn [fst snd].
      f_equal. now apply map_cast_id.
Qed.

(** Reading a geometry file whose axes and control block are those of a
    valid geometry [g]; the descriptor may be any value that [read] takes
    as "control data present", and anything may follow the control block. *)
Lemma read_stored_geometry fs filename g c nsd descr junk :
  valid_geometry self g c -> fits_index self g nsd ->
  NURBS_dim g <= nsd <= 3 ->
  representable self descr -> 1 <= np_abs (Itype self) descr ->
  fs filename = Some (geometry_bytes self IGA_ID descr (NURBS_dim g)
                        (List.combine (NURBS_degree g) (knots g))
                        (control_bytes self nsd (data (stored nsd c)) ++ junk)) ->
  read host self fs filename
  = OK (mk_NURBS (map (as_read (newbyteorder (Rtype self) host)) (knots g))
          (Some (pad_channels (newbyteorder (Stype self) host) (Z.to_nat nsd) c))).
Proof.
  intros [Hc Hwf Hdim Hs Hrank H1d Hdeg Hsz Hrk Hrc] [Hfk Hfc] Hnsd Hdescr Habs Hfs.
  assert (Hdegrees : NURBS_degree g = degrees (knots g) (NURBS_shape g)) by reflexivity.
  rewrite Hdegrees in *.
  destruct (@axes_facts (knots g) (NURBS_shape g) Hrank Hdeg Hsz Hfk Hrk)
    as (Hlen & Hax & Hsizes & Hknots).
  unfold NURBS_dim in *. rewrite <- Hlen in Hfs, Hnsd, Hdim.
  assert (Hvals : map (cast (Stype self)) (data (stored nsd c)) = data (stored nsd c)).
  { apply map_cast_id. unfold stored.
    apply (@Forall_stored _ _ _ c (NURBS_shape g) (Z.to_nat nsd) Hwf Hs); [lia|].
    eapply Forall_impl; [|exact Hrc]. intros x Hx. now apply is_real_is_scalar. }
  assert (Hcount : length (data (stored nsd c))
                   = (S (Z.to_nat nsd) * Ix.prod (NURBS_shape g))%nat)
    by (exact (@size_stored _ _ c (NURBS_shape g) (Z.to_nat nsd) Hs)).
  rewrite (@read_geometry_bytes host p s i fs filename descr _ nsd _ junk Hfs);
    try assumption; try lia.
  - rewrite Hsizes, Hknots, Hvals.
    rewrite (@reconstruct_stored p s i c _ (NURBS_shape g) nsd Hwf Hs); [reflexivity | lia | reflexivity].
  - rewrite Hcount. replace (Z.of_nat (S (Z.to_nat nsd) * Ix.prod (NURBS_shape g)))
      with ((nsd + 1) * Z.of_nat (Ix.prod (NURBS_shape g))) by lia.
    exact Hfc.
Qed.

End RoundTrip.

Section ArrayFacts3.
Context {A : Type} {E : Element A}.

Lemma flat_beyond_check (nsd : nat) (c : ndarray A) :
  Forall (fun j => (nsd <= last (Ix.unravel_c (shape c) j) 0 < 3)%nat ->
                   nth j (data c) zero = zero)
         (seq 0 (Ix.prod (shape c))) ->
  flat_beyond nsd c.
Proof.
  intros H idx Hidx Hk. rewrite Forall_forall in H.
  specialize (H (Ix.ravel_c (shape c) idx)).
  rewrite unravel_c_ravel_c in H by assumption.
  apply H; [|assumption]. apply in_seq. pose proof (ravel_c_lt Hidx). lia.
Qed.

Lemma shape_pad_channels d nsd (c : ndarray A) : shape (pad_channels d nsd c) = shape c.
Proof. reflexivity. Qed.

Lemma data_pad_channels d d' nsd (c : ndarray A) :
  data (pad_channels d nsd c) = data (pad_channels d' nsd c).
Proof. reflexivity. Qed.

Lemma get_pad_channels d nsd (c : ndarray A) idx :
  Ix.in_range (shape c) idx ->
  get (pad_channels d nsd c) idx
  = if (Nat.ltb (last idx 0%nat) nsd) || (Nat.eqb (last idx 0%nat) 3)
    then get c idx else zero.
Proof. intros H. unfold pad_channels. now rewrite get_tabulate. Qed.

End ArrayFacts3.

Lemma degrees_as_read d (ks : list (ndarray cfloat)) :
  forall ns, degrees (map (as_read d) ks) ns = degrees ks ns.
Proof.
  induction ks as [|U ks IH]; intros [|n ns]; try reflexivity.
  unfold degrees in *. cbn [map List.combine fst snd]. now rewrite IH.
Qed.

Section Claims.
Variable host : endian.
Variables (p : precision_t) (s : scalar_t) (i : indices_t).
Local Abbreviation self := (__init__ p s i).

(** What [read] returns for the file [write] made of a valid geometry. *)
Lemma read_write_geometry fs filename g c nsd0 nsd :
  valid_geometry self g c ->
  nsd = match nsd0 with None => NURBS_dim g | Some n => n end ->
  fits_index self g nsd ->
  NURBS_dim g <= nsd <= 3 ->
  exists fs',
    write host self fs filename g true nsd0 = (fs', OK tt) /\
    read host self fs' filename
    = OK (mk_NURBS (map (as_read (newbyteorder (Rtype self) host)) (knots g))
            (Some (pad_channels (newbyteorder (Stype self) host) (Z.to_nat nsd) c))).
Proof.
  intros Hv Hnsd Hfit Hr. eexists. split.
  - apply (@write_geometry host p s i fs filename g c (NURBS_shape g) nsd0 nsd);
      try assumption; apply Hv.
  - apply (@read_stored_geometry host p s i _ filename g c nsd 1 []); try assumption.
    + apply representable_small. lia.
    + rewrite np_abs_small by (apply representable_small; simpl; lia). simpl. lia.
    + unfold fs_put. rewrite String.eqb_refl, app_nil_r. reflexivity.
Qed.

End Claims.

(** Discharges the side conditions of a claim at concrete data: the
    structure of the statement is taken apart first, the closed leaves are
    then evaluated. *)
Ltac leaf :=
  first [ solve [lia]
        | vm_compute;
          first [ reflexivity
                | discriminate
                | lia
                | intros; first [reflexivity | discriminate | lia]
                | split; leaf ] ].

Ltac by_computation :=
  repeat match goal with
         | |- _ /\ _ => split
         | |- Forall ?P ?l =>
           let l' := eval vm_compute in l in
           change (Forall P l'); first [apply Forall_nil | apply Forall_cons]
         | |- Forall2 _ [] [] => apply Forall2_nil
         | |- Forall2 _ (_ :: _) (_ :: _) => apply Forall2_cons
         end;
  cbv beta; try leaf.

Ltac valid_by_computation := constructor; by_computation.

Section Claims.

(** C1 (amended).  Geometry round trip: for every valid geometry (one to
    three axes, degrees at least 1, grid sizes at least 2, a control array
    of shape (n_1, ..., n_d, 4)) whose counts fit the Index type and whose
    control array is zero in the spatial channels from the dimension up,
    [write] with its default [nsd] followed by [read] returns a geometry
    with the same dimension, degrees, knot vectors and control array. *)
Theorem geometry_roundtrip :
  forall (host : endian) (p : precision_t) (s : scalar_t) (i : indices_t)
         (fs : filesystem) (filename : string) (g : NURBS) (c : ndarray cfloat),
    valid_geometry (__init__ p s i) g c ->
    fits_index (__init__ p s i) g (NURBS_dim g) ->
    flat_beyond (Z.to_nat (NURBS_dim g)) c ->
    exists fs' g' c',
      write host (__init__ p s i) fs filename g true None = (fs', OK tt)
      /\ read host (__init__ p s i) fs' filename = OK g'
      /\ NURBS_dim g' = NURBS_dim g
      /\ NURBS_degree g' = NURBS_degree g
      /\ Forall2 array_equal (knots g') (knots g)
      /\ control g' = Some c'
      /\ array_equal c' c.
Proof.
  intros host p s i fs filename g c Hv Hfit Hflat.
  destruct (@read_write_geometry host p s i fs filename g c None (NURBS_dim g)
              Hv eq_refl Hfit) as (fs' & Hw & Hr).
  { destruct Hv. lia. }
  exists fs'. eexists. eexists. split; [exact Hw|]. split; [exact Hr|].
  destruct Hv as [Hc Hwf Hdim Hs Hrank H1d Hdeg Hsz Hrk Hrc].
  assert (Hshape : NURBS_shape
            (mk_NURBS (map (as_read (newbyteorder (Rtype (__init__ p s i)) host)) (knots g))
               (Some (pad_channels (newbyteorder (Stype (__init__ p s i)) host)
                        (Z.to_nat (NURBS_dim g)) c)))
          = NURBS_shape g).
  { unfold NURBS_shape. cbn [control]. now rewrite Hc, shape_pad_channels. }
  repeat split.
  - unfold NURBS_dim. cbn [knots]. now rewrite length_map.
  - unfold NURBS_degree at 1. rewrite Hshape. cbn [knots].
    apply degrees_as_read.
  - cbn [knots]. clear - H1d. induction H1d as [|U ks HU _ IH]; cbn [map]; constructor.
    + split; [now rewrite HU | reflexivity].
    + exact IH.
  - rewrite (data_pad_channels _ (dt c)). now rewrite (@pad_flat _ _ c (NURBS_shape g) _ Hwf Hs Hflat).
Qed.

End Claims.

Lemma geometry_roundtrip_witness :
  exists fs' g' c',
    write LittleEndian ex_self no_files "square.dat" ex_square true None = (fs', OK tt)
    /\ read LittleEndian ex_self fs' "square.dat" = OK g'
    /\ NURBS_dim g' = NURBS_dim ex_square
    /\ NURBS_degree g' = NURBS_degree ex_square
    /\ Forall2 array_equal (knots g') (knots ex_square)
    /\ control g' = Some c'
    /\ array_equal c' ex_square_control.
Proof.
  apply (@geometry_roundtrip LittleEndian double real bit32 no_files "square.dat"
           ex_square ex_square_control).
  - valid_by_computation.
  - valid_by_computation.
  - apply flat_beyond_check. by_computation.
Defined.

(** C1 as stated fails: a straight line in the plane, written with the
    default [nsd] (its dimension, 1), comes back with its y coordinates
    replaced by zero. *)
Lemma geometry_roundtrip_loses_unsaved_channels :
  valid_geometry ex_self ex_line ex_line_control
  /\ fits_index ex_self ex_line (NURBS_dim ex_line)
  /\ exists g' c',
       read LittleEndian ex_self
         (fst (write LittleEndian ex_self no_files "line.dat" ex_line true None)) "line.dat"
       = OK g'
       /\ control g' = Some c'
       /\ ~ array_equal c' ex_line_control.
Proof.
  split; [valid_by_computation|].
  split; [valid_by_computation|].
  eexists. eexists. split; [vm_compute; reflexivity|].
  split; [reflexivity|].
  intros [_ H]. vm_compute in H. discriminate H.
Qed.

(** C6.  Embedding reconstruction: for a file written from a valid
    geometry with [nsd] saved spatial dimensions, dimension <= nsd <= 3,
    [read] rebuilds a control array of shape (n_1, ..., n_d, 4) whose first
    [nsd] channels are the stored spatial channels, whose spatial channels
    from [nsd] up to 2 are zero and whose channel 3 is the stored weight. *)
Theorem embedding_reconstruction :
  forall (host : endian) (p : precision_t) (s : scalar_t) (i : indices_t)
         (fs : filesystem) (filename : string) (g : NURBS) (c : ndarray cfloat) (nsd : Z),
    valid_geometry (__init__ p s i) g c ->
    fits_index (__init__ p s i) g nsd ->
    NURBS_dim g <= nsd <= 3 ->
    exists fs' g' c',
      write host (__init__ p s i) fs filename g true (Some nsd) = (fs', OK tt)
      /\ read host (__init__ p s i) fs' filename = OK g'
      /\ control g' = Some c'
      /\ shape c' = (NURBS_shape g ++ [4%nat])%list
      /\ forall idx : list nat,
           Ix.in_range (NURBS_shape g) idx ->
           (forall k, (k < Z.to_nat nsd)%nat ->
                      get c' (idx ++ [k]) = get c (idx ++ [k]))
           /\ (forall k, (Z.to_nat nsd <= k < 3)%nat -> get c' (idx ++ [k]) = zero)
           /\ get c' (idx ++ [3%nat]) = get c (idx ++ [3%nat]).
Proof.
  intros host p s i fs filename g c nsd Hv Hfit Hr.
  destruct (@read_write_geometry host p s i fs filename g c (Some nsd) nsd
              Hv eq_refl Hfit Hr) as (fs' & Hw & Hrd).
  exists fs'. eexists. eexists. split; [exact Hw|]. split; [exact Hrd|].
  destruct Hv as [Hc Hwf Hdim Hs Hrank H1d Hdeg Hsz Hrk Hrc].
  split; [reflexivity|]. split; [now rewrite shape_pad_channels|].
  intros idx Hidx.
  assert (Hin : forall k, (k < 4)%nat -> Ix.in_range (shape c) (idx ++ [k])).
  { intros k Hk. rewrite Hs. apply in_range_app; [assumption|].
    apply Forall2_cons; [assumption | constructor]. }
  repeat split.
  - intros k Hk. rewrite get_pad_channels by (apply Hin; lia).
    rewrite last_snoc. destruct (Nat.ltb_spec k (Z.to_nat nsd)); [reflexivity | lia].
  - intros k Hk. rewrite get_pad_channels by (apply Hin; lia).
    rewrite last_snoc. destruct (Nat.ltb_spec k (Z.to_nat nsd)); [lia|].
    destruct (Nat.eqb_spec k 3); [lia | reflexivity].
  - rewrite get_pad_channels by (apply Hin; lia).
    rewrite last_snoc. now rewrite orb_true_r.
Qed.

Lemma embedding_reconstruction_witness :
  exists fs' g' c',
    write LittleEndian ex_self no_files "line.dat" ex_line true (Some 2) = (fs', OK tt)
    /\ read LittleEndian ex_self fs' "line.dat" = OK g'
    /\ control g' = Some c'
    /\ shape c' = (NURBS_shape ex_line ++ [4%nat])%list
    /\ forall idx : list nat,
         Ix.in_range (NURBS_shape ex_line) idx ->
         (forall k, (k < Z.to_nat 2)%nat ->
                    get c' (idx ++ [k]) = get ex_line_control (idx ++ [k]))
         /\ (forall k, (Z.to_nat 2 <= k < 3)%nat -> get c' (idx ++ [k]) = zero)
         /\ get c' (idx ++ [3%nat]) = get ex_line_control (idx ++ [3%nat]).
Proof.
  apply (@embedding_reconstruction LittleEndian double real bit32 no_files "line.dat"
           ex_line ex_line_control 2).
  - valid_by_computation.
  - valid_by_computation.
  - by_computation.
Defined.

Section StreamInversion.
Context {A : Type} {E : Element A}.
Variable host : endian.
Variable d : dtype.
Hypothesis Hd : lawful (A:=A) d.

Lemma encode_fixed (xs : list A) :
  Forall (fun x => cast d x = x) xs -> encode d xs = concat (map (to_bytes d) xs).
Proof. intros H. unfold encode. f_equal; f_equal; induction H as [|x l Hx _ IH]; cbn [map]; congruence. Qed.

Lemma items_fixed n : forall fh : stream,
  (n * itemsize d <= length fh)%nat ->
  Forall (fun x : A => cast d x = x) (items d n fh).
Proof.
  pose proof (lawful_pos Hd) as Hp.
  induction n as [|n IH]; intros fh Hlen; cbn [items]; constructor.
  - apply (lawful_decoded Hd). rewrite length_firstn. lia.
  - apply IH. rewrite length_skipn. lia.
Qed.

Lemma length_items n (fh : stream) : length (items (A:=A) d n fh) = n.
Proof. revert fh. induction n as [|n IH]; intros fh; cbn [items length]; [reflexivity|]. now rewrite IH. Qed.

Lemma items_inv n : forall fh : stream,
  (n * itemsize d <= length fh)%nat ->
  fh = encode d (items (A:=A) d n fh) ++ skipn (n * itemsize d) fh.
Proof.
  pose proof (lawful_pos Hd) as Hp.
  induction n as [|n IH]; intros fh Hlen; cbn [items]; [reflexivity|].
  rewrite (encode_cons (A:=A)), <- app_assoc.
  rewrite (lawful_decoded Hd), (lawful_to_of Hd) by (rewrite length_firstn; lia).
  replace (S n * itemsize d)%nat with (n * itemsize d + itemsize d)%nat by lia.
  rewrite <- skipn_skipn.
  rewrite <- IH by (rewrite length_skipn; lia).
  symmetry. apply firstn_skipn.
Qed.

(** An array of [count] elements read by [np.fromfile] accounts for the
    bytes consumed. *)
Lemma fromfile_inv (fh rest : stream) (count : Z) (a : ndarray A) :
  fromfile fh d count = (a, rest) -> Z.of_nat (size a) = count ->
  fh = encode d (data a) ++ rest
  /\ dt a = d /\ shape a = [size a]
  /\ Forall (fun x => cast d x = x) (data a).
Proof.
  pose proof (lawful_pos Hd) as Hp.
  unfold fromfile. intros Hf Hsize.
  set (avail := Nat.div (length fh) (itemsize d)) in *.
  assert (Havail : (avail * itemsize d <= length fh)%nat).
  { unfold avail. rewrite Nat.mul_comm. apply Nat.Div0.mul_div_le. }
  destruct (Z.ltb_spec count 0) as [Hneg|Hpos].
  { injection Hf as <- <-. unfold size in Hsize. cbn [data] in Hsize. lia. }
  destruct (Z.leb_spec count (Z.of_nat avail)) as [Hle|Hgt].
  - injection Hf as <- <-. unfold size. cbn [data dt shape].
    assert (Hn : (Z.to_nat count * itemsize d <= length fh)%nat) by nia.
    rewrite length_items. repeat split.
    + now apply items_inv.
    + now apply items_fixed.
  - injection Hf as <- <-. unfold size in Hsize. cbn [data] in Hsize.
    rewrite length_items in Hsize. lia.
Qed.

Lemma _read_inv (fh rest : stream) (count : Z) (a : ndarray A) :
  _read host fh d count = (a, rest) -> Z.of_nat (size a) = count ->
  fh = encode d (data a) ++ rest
  /\ dt a = newbyteorder d host /\ shape a = [size a]
  /\ Forall (fun x => cast d x = x) (data a).
Proof.
  unfold _read. destruct (fromfile fh d count) as [b fh'] eqn:Hf.
  intros Heq Hsize. injection Heq as <- <-.
  unfold astype, size in *. cbn [data dt shape] in *. rewrite length_map in Hsize.
  destruct (@fromfile_inv _ _ _ _ Hf Hsize) as (Hfh & Hdt & Hsh & Hfix).
  assert (Hmap : map (cast (newbyteorder d host)) (data b) = data b).
  { clear - Hfix Hd. induction Hfix as [|x l Hx _ IH]; cbn [map]; [reflexivity|].
    now rewrite (lawful_order Hd), Hx, IH. }
  rewrite Hmap. repeat split; assumption.
Qed.

Lemma _read1_inv (fh rest : stream) (x : A) :
  _read1 host fh d = OK (x, rest) ->
  fh = encode d [x] ++ rest /\ cast d x = x.
Proof.
  unfold _read1. destruct (fromfile fh d 1) as [b fh'] eqn:Hf.
  destruct (data b) as [|y l] eqn:Hb; [discriminate|].
  intros Heq. injection Heq as <- <-.
  assert (Hsize : Z.of_nat (size b) = 1).
  { revert Hf. unfold fromfile. cbn [Z.ltb].
    destruct (Z.leb_spec 1 (Z.of_nat (Nat.div (length fh) (itemsize d)))).
    - intros Hf. injection Hf as <- <-. reflexivity.
    - intros Hf. injection Hf as <- <-. unfold size. cbn [data].
      rewrite length_items.
      replace (Nat.div (length fh) (itemsize d)) with 0%nat in * by lia.
      discriminate Hb. }
  destruct (@fromfile_inv _ _ _ _ Hf Hsize) as (Hfh & _ & _ & Hfix).
  unfold size in Hsize. rewrite Hb in *. destruct l; [|cbn in Hsize; lia].
  inversion Hfix as [|? ? Hy _]; subst.
  rewrite (lawful_order Hd), Hy. split; [reflexivity | exact Hy].
Qed.

End StreamInversion.

Section ReadValidation.
Variable host : endian.
Variables (p : precision_t) (s : scalar_t) (i : indices_t).
Local Abbreviation self := (__init__ p s i).

Lemma representable_cast v : cast (Itype self) v = v -> representable self v.
Proof.
  intros H. rewrite <- H. unfold_element. unfold int_cast, representable, index_bound.
  apply swrap_range. destruct (nbits_I p s i) as [-> | ->]; lia.
Qed.

Lemma read_bad_magic fs filename magic tail :
  representable self magic -> magic <> IGA_ID ->
  fs filename = Some (encode (Itype self) [magic] ++ tail) ->
  read host self fs filename = Err BadMagic.
Proof.
  intros Hm Hne Hfs. unfold read, open_rb. rewrite Hfs. cbn [bind].
  rewrite (_read1_encode host (lawful_I p s i)). cbn [bind].
  rewrite (cast_I Hm). destruct (Z.eqb_spec magic IGA_ID); [contradiction | reflexivity].
Qed.

Lemma read_bad_dimension fs filename descr dim tail :
  representable self descr -> representable self dim -> ~ (1 <= dim <= 3) ->
  fs filename = Some (geometry_bytes self IGA_ID descr dim [] tail) ->
  read host self fs filename = Err DimensionOutOfRange.
Proof.
  intros Hdescr Hdim Hout Hfs. unfold read, open_rb. rewrite Hfs. cbn [bind].
  unfold geometry_bytes.
  rewrite (_read1_encode host (lawful_I p s i)). cbn [bind].
  rewrite cast_I by (apply representable_small; unfold IGA_ID; lia).
  rewrite Z.eqb_refl.
  rewrite (_read1_encode host (lawful_I p s i)). cbn [bind].
  rewrite (cast_I Hdescr).
  rewrite (_read1_encode host (lawful_I p s i)). cbn [bind].
  rewrite (cast_I Hdim).
  destruct (Z.leb_spec 1 dim); destruct (Z.leb_spec dim 3); cbn [andb]; try reflexivity; lia.
Qed.

(** Reading a geometry file up to the axis that follows the valid axes
    [axes]: what remains is the loop of [read] on the rest of the file. *)
Lemma read_axes_prefix fs filename descr dim axes k tail :
  representable self descr -> 1 <= dim <= 3 ->
  Forall (axis_ok self) axes -> Z.to_nat dim = (length axes + k)%nat ->
  fs filename = Some (geometry_bytes self IGA_ID descr dim axes tail) ->
  forall e,
  (forall ks ss, read_axes host self k ks ss tail = Err e) ->
  read host self fs filename = Err e.
Proof.
  intros Hdescr Hdim Hax Hk Hfs e Hrest.
  pose proof (index_bound_ge p s i) as Hb.
  unfold read, open_rb. rewrite Hfs. cbn [bind]. unfold geometry_bytes.
  rewrite (_read1_encode host (lawful_I p s i)). cbn [bind].
  rewrite cast_I by (apply representable_small; unfold IGA_ID; lia).
  rewrite Z.eqb_refl.
  rewrite (_read1_encode host (lawful_I p s i)). cbn [bind].
  rewrite (cast_I Hdescr).
  rewrite (_read1_encode host (lawful_I p s i)). cbn [bind].
  rewrite cast_I by (apply representable_small; lia).
  destruct (Z.leb_spec 1 dim); [|lia]. destruct (Z.leb_spec dim 3); [|lia]. cbn [andb].
  rewrite Hk, (read_axes_app host _ Hax), Hrest. reflexivity.
Qed.

Lemma read_bad_degree fs filename descr dim axes q tail :
  representable self descr -> 1 <= dim <= 3 ->
  Forall (axis_ok self) axes -> (Z.of_nat (length axes) < dim) ->
  representable self q -> q < 1 ->
  fs filename = Some (geometry_bytes self IGA_ID descr dim axes
                        (encode (Itype self) [q] ++ tail)) ->
  read host self fs filename = Err InvalidDegree.
Proof.
  intros Hdescr Hdim Hax Hlen Hq Hq1 Hfs.
  eapply (@read_axes_prefix fs filename descr dim axes
            (S (Z.to_nat dim - length axes - 1))); try eassumption; [lia|].
  intros ks ss. cbn [read_axes].
  rewrite (_read1_encode host (lawful_I p s i)). cbn [bind].
  rewrite (cast_I Hq). destruct (Z.leb_spec 1 q); [lia | reflexivity].
Qed.

Lemma read_bad_grid_size fs filename descr dim axes q m tail :
  representable self descr -> 1 <= dim <= 3 ->
  Forall (axis_ok self) axes -> (Z.of_nat (length axes) < dim) ->
  representable self q -> 1 <= q -> representable self m ->
  np_sub (Itype self) (np_sub (Itype self) m q) 1 < 2 ->
  fs filename = Some (geometry_bytes self IGA_ID descr dim axes
                        (encode (Itype self) [q] ++ encode (Itype self) [m] ++ tail)) ->
  read host self fs filename = Err InvalidGridSize.
Proof.
  intros Hdescr Hdim Hax Hlen Hq Hq1 Hm Hn Hfs.
  eapply (@read_axes_prefix fs filename descr dim axes
            (S (Z.to_nat dim - length axes - 1))); try eassumption; [lia|].
  intros ks ss. cbn [read_axes].
  rewrite (_read1_encode host (lawful_I p s i)). cbn [bind].
  rewrite (cast_I Hq). destruct (Z.leb_spec 1 q); [|lia].
  rewrite (_read1_encode host (lawful_I p s i)). cbn [bind].
  rewrite (cast_I Hm).
  destruct (Z.leb_spec 2 (np_sub (Itype self) (np_sub (Itype self) m q) 1));
    [lia | reflexivity].
Qed.

(** A negative count never gives an array of that many elements. *)
Lemma _read_negative {A : Type} {E : Element A} (d : dtype) (fh : stream) (count : Z) :
  count < 0 -> Z.of_nat (size (fst (_read (A:=A) host fh d count))) <> count.
Proof.
  intros Hneg. destruct (_read host fh d count) as [a r]. cbn [fst]. lia.
Qed.

(** When [m - q - 1] leaves the Index type, the value [read] computes can
    pass the test of the grid size; the knot count is then negative and the
    call fails at the next assertion. *)
Lemma read_grid_size_wrapped fs filename descr dim axes q m tail :
  representable self descr -> 1 <= dim <= 3 ->
  Forall (axis_ok self) axes -> (Z.of_nat (length axes) < dim) ->
  representable self q -> 1 <= q -> representable self m ->
  m - q - 1 < 2 ->
  2 <= np_sub (Itype self) (np_sub (Itype self) m q) 1 ->
  fs filename = Some (geometry_bytes self IGA_ID descr dim axes
                        (encode (Itype self) [q] ++ encode (Itype self) [m] ++ tail)) ->
  read host self fs filename = Err SizeMismatch.
Proof.
  intros Hdescr Hdim Hax Hlen Hq Hq1 Hm Hplain Hwrapped Hfs.
  assert (Hneg : m < 0).
  { destruct (Z_lt_dec m 0) as [|Hpos]; [assumption | exfalso].
    rewrite (@np_sub_small p s i m q) in Hwrapped by (unfold representable in *; lia).
    rewrite np_sub_small in Hwrapped by (unfold representable in *; lia). lia. }
  eapply (@read_axes_prefix fs filename descr dim axes
            (S (Z.to_nat dim - length axes - 1))); try eassumption; [lia|].
  intros ks ss. cbn [read_axes].
  rewrite (_read1_encode host (lawful_I p s i)). cbn [bind].
  rewrite (cast_I Hq). destruct (Z.leb_spec 1 q); [|lia].
  rewrite (_read1_encode host (lawful_I p s i)). cbn [bind].
  rewrite (cast_I Hm).
  destruct (Z.leb_spec 2 (np_sub (Itype self) (np_sub (Itype self) m q) 1)); [|lia].
  pose proof (@_read_negative cfloat _ (Rtype self) tail m Hneg) as Hne.
  destruct (_read host tail (Rtype self) m) as [U fh']. cbn [fst] in Hne.
  destruct (Z.eqb_spec (Z.of_nat (size U)) m); [contradiction | reflexivity].
Qed.

(** The axes the loop of [read] went through, recovered from its result. *)
Lemma read_axes_inv k : forall ks ss fh ks' ss' rest,
  read_axes host self k ks ss fh = OK (ks', ss', rest) ->
  exists axes,
    length axes = k /\ fh = (flat_map (axis_bytes self) axes ++ rest)%list
    /\ ks' = (ks ++ map snd axes)%list
    /\ Forall (fun pU => 1 <= fst pU /\ 2 <= Z.of_nat (size (snd pU)) - fst pU - 1) axes.
Proof.
  induction k as [|k IH]; intros ks ss fh ks' ss' rest H; cbn [read_axes] in H.
  - injection H as <- <- <-. exists []. cbn. rewrite app_nil_r. repeat split. constructor.
  - destruct (_read1 host fh (Itype self)) as [[q fh1]|] eqn:Hq; [|discriminate].
    cbn [bind] in H. destruct (Z.leb_spec 1 q) as [Hq1|]; [|discriminate].
    destruct (_read1 host fh1 (Itype self)) as [[m fh2]|] eqn:Hm; [|discriminate].
    cbn [bind] in H.
    destruct (Z.leb_spec 2 (np_sub (Itype self) (np_sub (Itype self) m q) 1)) as [Hn|];
      [|discriminate].
    destruct (_read (A:=cfloat) host fh2 (Rtype self) m) as [U fh3] eqn:HU.
    destruct (Z.eqb_spec (Z.of_nat (size U)) m) as [Hsz|]; [|discriminate].
    destruct (IH _ _ _ _ _ _ H) as (axes & Hlen & Hfh3 & Hks & Hax).
    destruct (_read1_inv host (lawful_I p s i) _ Hq) as (Hfh & Hqr).
    destruct (_read1_inv host (lawful_I p s i) _ Hm) as (Hfh1 & Hmr).
    destruct (_read_inv host (lawful_R p s i) _ HU Hsz) as (Hfh2 & _ & _ & _).
    apply representable_cast in Hqr, Hmr.
    exists ((q, U) :: axes). cbn [length flat_map map fst snd]. repeat split.
    + now rewrite Hlen.
    + unfold axis_bytes at 1. cbn [fst snd]. rewrite <- !app_assoc.
      rewrite Hsz, <- Hfh3, <- Hfh2, <- Hfh1. exact Hfh.
    + rewrite Hks, <- app_assoc. reflexivity.
    + constructor; [|exact Hax]. cbn [fst snd]. split; [assumption|].
      rewrite Hsz. subst m.
      rewrite (@np_sub_small p s i (Z.of_nat (size U)) q) in Hn
        by (unfold representable in *; lia).
      rewrite np_sub_small in Hn by (unfold representable in *; lia). exact Hn.
Qed.

(** A file [read] decodes into a geometry is laid out in the geometry
    format with the right magic, one to three axes, and on every axis a
    degree of at least 1 and a grid size of at least 2. *)
Lemma read_accepts_only_valid fs filename g :
  read host self fs filename = OK g ->
  exists descr axes tail,
    fs filename = Some (geometry_bytes self IGA_ID descr (Z.of_nat (length axes)) axes tail)
    /\ (1 <= length axes <= 3)%nat
    /\ Forall (fun pU => 1 <= fst pU /\ 2 <= Z.of_nat (size (snd pU)) - fst pU - 1) axes
    /\ knots g = map snd axes.
Proof.
  unfold read, open_rb. destruct (fs filename) as [fh|]; [|discriminate]. cbn [bind].
  destruct (_read1 host fh (Itype self)) as [[magic fh1]|] eqn:H1; [|discriminate].
  cbn [bind]. destruct (Z.eqb_spec magic IGA_ID) as [->|]; [|discriminate].
  destruct (_read1 host fh1 (Itype self)) as [[descr fh2]|] eqn:H2; [|discriminate].
  cbn [bind].
  destruct (_read1 host fh2 (Itype self)) as [[dim fh3]|] eqn:H3; [|discriminate].
  cbn [bind].
  destruct (Z.leb_spec 1 dim); [|discriminate].
  destruct (Z.leb_spec dim 3); [|discriminate]. cbn [andb].
  destruct (read_axes host self (Z.to_nat dim) [] [] fh3) as [[[ks ss] fh4]|] eqn:H4;
    [|discriminate].
  cbn [bind]. intros Hread.
  destruct (read_axes_inv _ _ _ _ H4) as (axes & Hlen & Hfh3 & Hks & Hax).
  destruct (_read1_inv host (lawful_I p s i) _ H1) as (Hfh & _).
  destruct (_read1_inv host (lawful_I p s i) _ H2) as (Hfh1 & _).
  destruct (_read1_inv host (lawful_I p s i) _ H3) as (Hfh2 & _).
  exists descr, axes, fh4. repeat split; try lia.
  - unfold geometry_bytes. rewrite Hlen, Z2Nat.id by lia.
    rewrite <- Hfh3, <- Hfh2, <- Hfh1, <- Hfh. reflexivity.
  - exact Hax.
  - destruct (1 <=? np_abs (Itype self) descr).
    + destruct (_read1 host fh4 (Itype self)) as [[nsd fh5]|]; [|discriminate].
      cbn [bind] in Hread.
      destruct ((Z.of_nat (length axes) <=? nsd) && (nsd <=? 3));
        rewrite ?Hlen, ?Z2Nat.id in Hread by lia.
      all: revert Hread.
      all: repeat match goal with
             | |- context [bind ?c _] =>
               lazymatch c with
               | OK _ => cbn [bind]
               | Err _ => cbn [bind]
               | _ => destruct c as [[]|] eqn:?
               end
             | |- context [if ?b then _ else _] => destruct b
             | |- context [let '(_, _) := ?c in _] => destruct c
             end; try discriminate.
      all: intros Hread; injection Hread as <-; exact Hks.
    + cbn [bind] in Hread. injection Hread as <-. exact Hks.
Qed.

End ReadValidation.

(** C4 (amended).  Geometry read validation: [read] fails with BadMagic
    when the leading word is not the geometry identifier, with
    DimensionOutOfRange unless 1 <= dimension <= 3, and on each axis with
    InvalidDegree when the stored degree is below 1 and with
    InvalidGridSize when n = knot_length - degree - 1, computed in Index
    arithmetic as [read] does, is below 2.  When knot_length - degree - 1
    is below 2 but the value computed in Index arithmetic is not (the
    subtraction overflows, which takes a negative knot count), [read] fails
    with SizeMismatch.  Whenever [read] returns a geometry the file has the
    right magic, one to three axes, and on every axis a degree >= 1 and a
    grid size >= 2. *)
Theorem read_validation :
  forall (host : endian) (p : precision_t) (s : scalar_t) (i : indices_t)
         (fs : filesystem) (filename : string),
    (forall magic tail,
        representable (__init__ p s i) magic -> magic <> IGA_ID ->
        fs filename = Some (encode (Itype (__init__ p s i)) [magic] ++ tail) ->
        read host (__init__ p s i) fs filename = Err BadMagic)
    /\ (forall descr dim tail,
        representable (__init__ p s i) descr -> representable (__init__ p s i) dim ->
        ~ (1 <= dim <= 3) ->
        fs filename = Some (geometry_bytes (__init__ p s i) IGA_ID descr dim [] tail) ->
        read host (__init__ p s i) fs filename = Err DimensionOutOfRange)
    /\ (forall descr dim axes q tail,
        representable (__init__ p s i) descr -> 1 <= dim <= 3 ->
        Forall (axis_ok (__init__ p s i)) axes -> Z.of_nat (length axes) < dim ->
        representable (__init__ p s i) q -> q < 1 ->
        fs filename = Some (geometry_bytes (__init__ p s i) IGA_ID descr dim axes
                              (encode (Itype (__init__ p s i)) [q] ++ tail)) ->
        read host (__init__ p s i) fs filename = Err InvalidDegree)
    /\ (forall descr dim axes q m tail,
        representable (__init__ p s i) descr -> 1 <= dim <= 3 ->
        Forall (axis_ok (__init__ p s i)) axes -> Z.of_nat (length axes) < dim ->
        representable (__init__ p s i) q -> 1 <= q ->
        representable (__init__ p s i) m ->
        np_sub (Itype (__init__ p s i)) (np_sub (Itype (__init__ p s i)) m q) 1 < 2 ->
        fs filename = Some (geometry_bytes (__init__ p s i) IGA_ID descr dim axes
                              (encode (Itype (__init__ p s i)) [q]
                               ++ encode (Itype (__init__ p s i)) [m] ++ tail)) ->
        read host (__init__ p s i) fs filename = Err InvalidGridSize)
    /\ (forall descr dim axes q m tail,
        representable (__init__ p s i) descr -> 1 <= dim <= 3 ->
        Forall (axis_ok (__init__ p s i)) axes -> Z.of_nat (length axes) < dim ->
        representable (__init__ p s i) q -> 1 <= q ->
        representable (__init__ p s i) m ->
        m - q - 1 < 2 ->
        2 <= np_sub (Itype (__init__ p s i)) (np_sub (Itype (__init__ p s i)) m q) 1 ->
        fs filename = Some (geometry_bytes (__init__ p s i) IGA_ID descr dim axes
                              (encode (Itype (__init__ p s i)) [q]
                               ++ encode (Itype (__init__ p s i)) [m] ++ tail)) ->
        read host (__init__ p s i) fs filename = Err SizeMismatch)
    /\ (forall g,
        read host (__init__ p s i) fs filename = OK g ->
        exists descr axes tail,
          fs filename = Some (geometry_bytes (__init__ p s i) IGA_ID descr
                                (Z.of_nat (length axes)) axes tail)
          /\ (1 <= length axes <= 3)%nat
          /\ Forall (fun pU => 1 <= fst pU
                               /\ 2 <= Z.of_nat (size (snd pU)) - fst pU - 1) axes
          /\ knots g = map snd axes).
Proof.
  intros host p s i fs filename. split; [|split; [|split; [|split; [|split]]]].
  - intros magic tail Hm Hne Hfs.
    exact (@read_bad_magic host p s i fs filename magic tail Hm Hne Hfs).
  - intros descr dim tail Hdescr Hdim Hout Hfs.
    exact (@read_bad_dimension host p s i fs filename descr dim tail Hdescr Hdim Hout Hfs).
  - intros descr dim axes q tail Hdescr Hdim Hax Hlen Hq Hq1 Hfs.
    exact (@read_bad_degree host p s i fs filename descr dim axes q tail
             Hdescr Hdim Hax Hlen Hq Hq1 Hfs).
  - intros descr dim axes q m tail Hdescr Hdim Hax Hlen Hq Hq1 Hm Hn Hfs.
    exact (@read_bad_grid_size host p s i fs filename descr dim axes q m tail
             Hdescr Hdim Hax Hlen Hq Hq1 Hm Hn Hfs).
  - intros descr dim axes q m tail Hdescr Hdim Hax Hlen Hq Hq1 Hm Hplain Hwrapped Hfs.
    exact (@read_grid_size_wrapped host p s i fs filename descr dim axes q m tail
             Hdescr Hdim Hax Hlen Hq Hq1 Hm Hplain Hwrapped Hfs).
  - intros g Hg. destruct (@read_accepts_only_valid host p s i fs filename g Hg) as (descr & axes & tail & H).
    exists descr, axes, tail. exact H.
Qed.

Lemma read_validation_witness :
  read LittleEndian ex_self
    (one_file ex_name (encode (Itype ex_self) [1211214] ++ [])) ex_name = Err BadMagic
  /\ read LittleEndian ex_self
       (one_file ex_name (geometry_bytes ex_self IGA_ID 1 4 [] [])) ex_name = Err DimensionOutOfRange
  /\ read LittleEndian ex_self
       (one_file ex_name (geometry_bytes ex_self IGA_ID 1 2 ex_line_axes
                        (encode (Itype ex_self) [0] ++ []))) ex_name = Err InvalidDegree
  /\ read LittleEndian ex_self
       (one_file ex_name (geometry_bytes ex_self IGA_ID 1 2 ex_line_axes
                        (encode (Itype ex_self) [2] ++ encode (Itype ex_self) [4] ++ [])))
       ex_name = Err InvalidGridSize
  /\ read LittleEndian ex_self
       (one_file ex_name (geometry_bytes ex_self IGA_ID 1 2 ex_line_axes
                        (encode (Itype ex_self) [2] ++ encode (Itype ex_self) [-2147483647]
                         ++ []))) ex_name = Err SizeMismatch
  /\ exists descr axes tail,
       one_file ex_name (geometry_bytes ex_self IGA_ID 0 1 ex_line_axes []) ex_name
       = Some (geometry_bytes ex_self IGA_ID descr (Z.of_nat (length axes)) axes tail)
       /\ (1 <= length axes <= 3)%nat
       /\ Forall (fun pU => 1 <= fst pU
                            /\ 2 <= Z.of_nat (size (snd pU)) - fst pU - 1) axes
       /\ knots (mk_NURBS (map (knots_read LittleEndian ex_self) ex_line_axes) None)
          = map snd axes.
Proof.
  split; [|split; [|split; [|split; [|split]]]].
  - apply (proj1 (@read_validation LittleEndian double real bit32
                    (one_file ex_name (encode (Itype ex_self) [1211214] ++ [])) ex_name)
             1211214 []); by_computation.
  - apply (proj1 (proj2 (@read_validation LittleEndian double real bit32
                    (one_file ex_name (geometry_bytes ex_self IGA_ID 1 4 [] [])) ex_name))
             1 4 []); by_computation.
  - apply (proj1 (proj2 (proj2 (@read_validation LittleEndian double real bit32
                    (one_file ex_name (geometry_bytes ex_self IGA_ID 1 2 ex_line_axes
                       (encode (Itype ex_self) [0] ++ []))) ex_name)))
             1 2 ex_line_axes 0 []); by_computation.
  - apply (proj1 (proj2 (proj2 (proj2 (@read_validation LittleEndian double real bit32
                    (one_file ex_name (geometry_bytes ex_self IGA_ID 1 2 ex_line_axes
                       (encode (Itype ex_self) [2] ++ encode (Itype ex_self) [4] ++ [])))
                    ex_name))))
             1 2 ex_line_axes 2 4 []); by_computation.
  - apply (proj1 (proj2 (proj2 (proj2 (proj2 (@read_validation LittleEndian double real bit32
                    (one_file ex_name (geometry_bytes ex_self IGA_ID 1 2 ex_line_axes
                       (encode (Itype ex_self) [2] ++ encode (Itype ex_self) [-2147483647]
                        ++ [])))
                    ex_name)))))
             1 2 ex_line_axes 2 (-2147483647) []); by_computation.
  - apply (proj2 (proj2 (proj2 (proj2 (proj2 (@read_validation LittleEndian double real bit32
                    (one_file ex_name (geometry_bytes ex_self IGA_ID 0 1 ex_line_axes [])) ex_name)))))
             (mk_NURBS (map (knots_read LittleEndian ex_self) ex_line_axes) None)).
    vm_compute. reflexivity.
Defined.

(** C4 as stated fails: a file whose first axis has degree 2147483647 and
    knot count -1, or degree 2 and knot count -2147483647, has
    n = knot_length - degree - 1 below 2, yet [read] does not fail with
    InvalidGridSize.  With 32-bit indices the value it computes is
    2147483647, respectively 2147483646: the test of the grid size passes
    and the call fails with SizeMismatch at the next assertion. *)
Lemma read_grid_size_overflow_not_detected :
  ((-1) - 2147483647 - 1 < 2
   /\ read LittleEndian ex_self
        (one_file ex_name (geometry_bytes ex_self IGA_ID 0 1 []
                             (encode (Itype ex_self) [2147483647]
                              ++ encode (Itype ex_self) [-1] ++ []))) ex_name
      = Err SizeMismatch)
  /\ ((-2147483647) - 2 - 1 < 2
      /\ read LittleEndian ex_self
           (one_file ex_name (geometry_bytes ex_self IGA_ID 0 1 []
                                (encode (Itype ex_self) [2]
                                 ++ encode (Itype ex_self) [-2147483647] ++ []))) ex_name
         = Err SizeMismatch).
Proof.
  split; (split; [lia | vm_compute; reflexivity]).
Qed.

Section StreamShort.
Context {A : Type} {E : Element A}.
Variable host : endian.
Variable d : dtype.
Hypothesis Hd : lawful (A:=A) d.

(** When fewer bytes are left than [count] elements need, the array
    [_read] returns is shorter than [count]. *)
Lemma _read_short (fh : stream) (count : Z) :
  (Z.of_nat (length fh) < count * Z.of_nat (itemsize d)) ->
  Z.of_nat (size (fst (_read (A:=A) host fh d count))) <> count.
Proof.
  pose proof (lawful_pos Hd) as Hp. intros Hlen.
  unfold _read, fromfile.
  set (avail := Nat.div (length fh) (itemsize d)).
  assert (Havail : (avail * itemsize d <= length fh)%nat).
  { unfold avail. rewrite Nat.mul_comm. apply Nat.Div0.mul_div_le. }
  destruct (Z.ltb_spec count 0); [nia|].
  destruct (Z.leb_spec count (Z.of_nat avail)); [nia|].
  unfold astype, size. cbn [fst data]. rewrite length_map, length_items. lia.
Qed.

(** A field of the right width is the encoding of the value it decodes to. *)
Lemma field_decodes (hdr : list byte) :
  length hdr = itemsize d ->
  exists v : A, hdr = encode d [v] /\ cast d v = v.
Proof.
  intros Hlen. exists (of_bytes d hdr). split.
  - unfold encode. cbn [map concat]. rewrite app_nil_r.
    now rewrite (lawful_decoded Hd), (lawful_to_of Hd).
  - now apply (lawful_decoded Hd).
Qed.

End StreamShort.

Section Corruption.
Variable host : endian.
Variables (p : precision_t) (s : scalar_t) (i : indices_t).
Local Abbreviation self := (__init__ p s i).

Lemma read_magic_changed fs filename hdr rest :
  length hdr = itemsize (Itype self) ->
  hdr <> encode (Itype self) [IGA_ID] ->
  fs filename = Some (hdr ++ rest)%list ->
  read host self fs filename = Err BadMagic.
Proof.
  intros Hlen Hne Hfs.
  destruct (field_decodes (lawful_I p s i) hdr Hlen) as (v & -> & Hv).
  apply (@read_bad_magic host p s i fs filename v rest); try assumption.
  - now apply representable_cast.
  - intros ->. now apply Hne.
Qed.

Lemma read_truncated_knots fs filename descr dim axes q U k :
  representable self descr -> 1 <= dim <= 3 ->
  Forall (axis_ok self) axes -> Z.of_nat (length axes) < dim ->
  axis_ok self (q, U) ->
  (k < length (encode (Rtype self) (data U)))%nat ->
  fs filename = Some (geometry_bytes self IGA_ID descr dim axes
                        (encode (Itype self) [q]
                         ++ encode (Itype self) [Z.of_nat (size U)]
                         ++ firstn k (encode (Rtype self) (data U)))) ->
  read host self fs filename = Err SizeMismatch.
Proof.
  intros Hdescr Hdim Hax Hlen (Hq & Hn & Hm) Hk Hfs. cbn [fst snd] in *.
  pose proof (index_bound_ge p s i) as Hb.
  assert (Hq' : representable self q) by (unfold representable in *; lia).
  eapply (@read_axes_prefix host p s i fs filename descr dim axes
            (S (Z.to_nat dim - length axes - 1))); try eassumption; [lia|].
  intros ks ss. cbn [read_axes].
  rewrite (_read1_encode host (lawful_I p s i)). cbn [bind].
  rewrite (cast_I Hq'). destruct (Z.leb_spec 1 q); [|lia].
  rewrite (_read1_encode host (lawful_I p s i)). cbn [bind].
  rewrite (cast_I Hm).
  rewrite (@np_sub_small p s i (Z.of_nat (size U)) q) by (unfold representable in *; lia).
  rewrite np_sub_small by (unfold representable in *; lia).
  destruct (Z.leb_spec 2 (Z.of_nat (size U) - q - 1)); [|lia].
  pose proof (@_read_short cfloat _ host (Rtype self) (lawful_R p s i)
                (firstn k (encode (Rtype self) (data U))) (Z.of_nat (size U))) as Hshort.
  destruct (_read host (firstn k (encode (Rtype self) (data U))) (Rtype self)
              (Z.of_nat (size U))) as [V fh'].
  cbn [fst] in Hshort.
  destruct (Z.eqb_spec (Z.of_nat (size V)) (Z.of_nat (size U))) as [Heq|]; [|reflexivity].
  exfalso. apply Hshort; [|exact Heq].
  rewrite length_firstn. rewrite (length_encode (lawful_R p s i)) in *. unfold size. lia.
Qed.

End Corruption.

Section WriteArguments.
Variable host : endian.
Variable self : PetIGA.

Lemma write_default_nsd fs filename g :
  write host self fs filename g true None
  = write host self fs filename g true (Some (NURBS_dim g)).
Proof. reflexivity. Qed.

Lemma write_nsd_out_of_range fs filename g nsd :
  ~ (NURBS_dim g <= effective_nsd g nsd <= 3) ->
  write host self fs filename g true nsd = (fs, Err DimensionOutOfRange).
Proof.
  intros Hout. unfold write. fold (effective_nsd g nsd).
  destruct (Z.leb_spec (NURBS_dim g) (effective_nsd g nsd));
    destruct (Z.leb_spec (effective_nsd g nsd) 3); cbn [andb]; try reflexivity; lia.
Qed.

Lemma write_nsd_without_control fs filename g nsd :
  write host self fs filename g false (Some nsd) = (fs, Err NsdWithoutControl).
Proof. reflexivity. Qed.

End WriteArguments.

Section WriteTopology.
Variable host : endian.
Variables (p : precision_t) (s : scalar_t) (i : indices_t).
Local Abbreviation self := (__init__ p s i).

(** What [write] leaves on disk when control data is left out. *)
Lemma write_topology fs filename g :
  write host self fs filename g false None
  = (fs_put (fs_put fs filename []) filename
       (geometry_bytes self IGA_ID 0 (NURBS_dim g)
          (List.combine (NURBS_degree g) (knots g)) []),
     OK tt).
Proof.
  unfold write. cbv zeta. unfold open_wb, close_wb. rewrite write_axes_fold.
  rewrite !_write_encode. cbn [py_int data app].
  unfold geometry_bytes. now rewrite <- !app_assoc, app_nil_r.
Qed.

End WriteTopology.

(** C8.  Write argument validation: with control data included, [nsd]
    defaults to the geometry's dimension and the call fails unless
    dimension <= nsd <= 3; without control data, the call fails when [nsd]
    is set. *)
Theorem write_argument_validation :
  forall (host : endian) (self : PetIGA) (fs : filesystem) (filename : string) (g : NURBS),
    write host self fs filename g true None
    = write host self fs filename g true (Some (NURBS_dim g))
    /\ (forall nsd : option Z,
          ~ (NURBS_dim g <= effective_nsd g nsd <= 3) ->
          snd (write host self fs filename g true nsd) = Err DimensionOutOfRange)
    /\ (forall nsd : Z,
          snd (write host self fs filename g false (Some nsd)) = Err NsdWithoutControl).
Proof.
  intros host self fs filename g. split; [|split].
  - apply write_default_nsd.
  - intros nsd Hout. now rewrite write_nsd_out_of_range.
  - intros nsd. reflexivity.
Qed.

Lemma write_argument_validation_witness :
  write LittleEndian ex_self no_files ex_name ex_line true None
  = write LittleEndian ex_self no_files ex_name ex_line true (Some (NURBS_dim ex_line))
  /\ snd (write LittleEndian ex_self no_files ex_name ex_line true (Some 0))
     = Err DimensionOutOfRange
  /\ snd (write LittleEndian ex_self no_files ex_name ex_line true (Some 4))
     = Err DimensionOutOfRange
  /\ snd (write LittleEndian ex_self no_files ex_name ex_line false (Some 1))
     = Err NsdWithoutControl.
Proof.
  pose proof (@write_argument_validation LittleEndian ex_self no_files ex_name ex_line)
    as (H1 & H2 & H3).
  split; [exact H1|]. split; [|split].
  - apply (H2 (Some 0)). vm_compute. intros [H _]. now apply H.
  - apply (H2 (Some 4)). vm_compute. intros [_ H]. now apply H.
  - apply (H3 1).
Defined.

(** C10.  Argument errors leave the file system alone: when [write] is
    called with control data and an [nsd] outside [dimension, 3], or
    without control data and with [nsd] set, it fails before the
    destination is opened; no file is created, truncated or modified. *)
Theorem write_invalid_arguments_touch_no_file :
  forall (host : endian) (self : PetIGA) (fs : filesystem) (filename : string) (g : NURBS),
    (forall nsd : option Z,
        ~ (NURBS_dim g <= effective_nsd g nsd <= 3) ->
        exists e, write host self fs filename g true nsd = (fs, Err e))
    /\ (forall nsd : Z,
          exists e, write host self fs filename g false (Some nsd) = (fs, Err e)).
Proof.
  intros host self fs filename g. split.
  - intros nsd Hout. exists DimensionOutOfRange. now apply write_nsd_out_of_range.
  - intros nsd. exists NsdWithoutControl. reflexivity.
Qed.

Lemma write_invalid_arguments_touch_no_file_witness :
  (exists e, write LittleEndian ex_self (one_file ex_name []) ex_name ex_line true (Some 4)
             = (one_file ex_name [], Err e))
  /\ (exists e, write LittleEndian ex_self (one_file ex_name []) ex_name ex_line false (Some 1)
                = (one_file ex_name [], Err e)).
Proof.
  pose proof (@write_invalid_arguments_touch_no_file LittleEndian ex_self
                (one_file ex_name []) ex_name ex_line) as (H1 & H2).
  split.
  - apply (H1 (Some 4)). vm_compute. intros [_ H]. now apply H.
  - apply (H2 1).
Defined.

Lemma list_split_at {T : Type} (l : list T) (j : nat) (d : T) :
  (j < length l)%nat -> l = (firstn j l ++ nth j l d :: skipn (S j) l)%list.
Proof.
  revert j. induction l as [|x l IH]; intros [|j] Hj; cbn in *; try lia; [reflexivity|].
  f_equal. apply IH. lia.
Qed.

Lemma map_snd_combine {T U : Type} (l : list T) (m : list U) :
  length l = length m -> map snd (List.combine l m) = m.
Proof.
  revert m. induction l as [|x l IH]; intros [|y m] H; cbn in *; try lia; [reflexivity|].
  f_equal. apply IH. lia.
Qed.

Lemma firstn_app_exact {T : Type} (l1 l2 : list T) n :
  n = length l1 -> firstn n (l1 ++ l2) = l1.
Proof. intros ->. rewrite firstn_app, Nat.sub_diag, firstn_all. cbn. apply app_nil_r. Qed.

Lemma skipn_app_exact {T : Type} (l1 l2 : list T) n :
  n = length l1 -> skipn n (l1 ++ l2) = l2.
Proof. intros ->. rewrite skipn_app, Nat.sub_diag, skipn_all. reflexivity. Qed.

Lemma firstn_app_mid {T : Type} (l1 l2 l3 : list T) K :
  (length l1 <= K)%nat -> (K - length l1 <= length l2)%nat ->
  firstn K (l1 ++ l2 ++ l3) = (l1 ++ firstn (K - length l1) l2)%list.
Proof.
  intros H1 H2. rewrite firstn_app, firstn_all2 by lia. f_equal.
  rewrite firstn_app.
  replace (K - length l1 - length l2)%nat with 0%nat by lia.
  cbn [firstn]. apply app_nil_r.
Qed.

Section Corruption2.
Variable host : endian.
Variables (p : precision_t) (s : scalar_t) (i : indices_t).
Local Abbreviation self := (__init__ p s i).

Lemma length_axis_bytes (pU : Z * ndarray cfloat) :
  length (axis_bytes self pU) = axis_length self (snd pU).
Proof.
  unfold axis_bytes, axis_length.
  rewrite !length_app, !(length_encode (lawful_I p s i)), (length_encode (lawful_R p s i)).
  unfold size. cbn [length]. lia.
Qed.

Lemma length_axes_bytes (axes : list (Z * ndarray cfloat)) :
  length (flat_map (axis_bytes self) axes)
  = list_sum (map (axis_length self) (map snd axes)).
Proof.
  induction axes as [|pU axes IH]; cbn [flat_map map list_sum]; [reflexivity|].
  now rewrite length_app, length_axis_bytes, IH.
Qed.

Lemma length_geometry_bytes magic descr dim axes tail :
  length (geometry_bytes self magic descr dim axes tail)
  = (3 * itemsize (Itype self)
     + list_sum (map (axis_length self) (map snd axes)) + length tail)%nat.
Proof.
  unfold geometry_bytes.
  rewrite !length_app, !(length_encode (lawful_I p s i)), length_axes_bytes.
  cbn [length]. lia.
Qed.

Lemma geometry_bytes_app magic descr dim a1 a2 tail :
  geometry_bytes self magic descr dim (a1 ++ a2) tail
  = geometry_bytes self magic descr dim a1 (flat_map (axis_bytes self) a2 ++ tail).
Proof. unfold geometry_bytes. now rewrite flat_map_app, <- !app_assoc. Qed.

Lemma geometry_bytes_tail magic descr dim axes t1 t2 :
  geometry_bytes self magic descr dim axes (t1 ++ t2)
  = (geometry_bytes self magic descr dim axes t1 ++ t2)%list.
Proof. unfold geometry_bytes. now rewrite <- !app_assoc. Qed.

(** A geometry file made of valid axes, cut inside the knot values of
    axis [j] or with another leading word, is rejected. *)
Lemma corrupted_layout_rejected fs filename descr axes tail F :
  representable self descr -> (1 <= length axes <= 3)%nat ->
  Forall (axis_ok self) axes ->
  F = geometry_bytes self IGA_ID descr (Z.of_nat (length axes)) axes tail ->
  (forall hdr,
      length hdr = itemsize (Itype self) ->
      hdr <> firstn (itemsize (Itype self)) F ->
      fs filename = Some (hdr ++ skipn (itemsize (Itype self)) F)%list ->
      read host self fs filename = Err BadMagic)
  /\ (forall (j K : nat) d,
      (j < length axes)%nat ->
      (3 * itemsize (Itype self)
       + list_sum (map (axis_length self) (map snd (firstn j axes)))
       + 2 * itemsize (Itype self) <= K)%nat ->
      (K < 3 * itemsize (Itype self)
           + list_sum (map (axis_length self) (map snd (firstn j axes)))
           + 2 * itemsize (Itype self)
           + size (snd (nth j axes d)) * itemsize (Rtype self))%nat ->
      fs filename = Some (firstn K F) ->
      read host self fs filename = Err SizeMismatch).
Proof.
  intros Hdescr Hdim Hax ->. split.
  - intros hdr Hlen Hne Hfs. unfold geometry_bytes in *.
    rewrite firstn_app_exact in Hne
      by (rewrite (length_encode (lawful_I p s i)); cbn; lia).
    rewrite skipn_app_exact in Hfs
      by (rewrite (length_encode (lawful_I p s i)); cbn; lia).
    eapply read_magic_changed; eassumption.
  - intros j K d Hj Hlo Hhi Hfs.
    assert (Hax' := Hax). rewrite (list_split_at axes d Hj) in Hax'.
    rewrite (list_split_at axes d Hj) in Hfs at 2.
    set (a1 := firstn j axes) in *. destruct (nth j axes d) as [q U] eqn:HqU.
    cbn [snd] in Hhi.
    apply Forall_app in Hax'. destruct Hax' as [Ha1 Ha2].
    inversion Ha2 as [|? ? HqUok _]; subst.
    set (P := geometry_bytes self IGA_ID descr (Z.of_nat (length axes)) a1
                (encode (Itype self) [q] ++ encode (Itype self) [Z.of_nat (size U)])) in *.
    assert (Hsplit :
      geometry_bytes self IGA_ID descr (Z.of_nat (length axes))
        (a1 ++ (q, U) :: skipn (S j) axes) tail
      = (P ++ encode (Rtype self) (data U)
           ++ (flat_map (axis_bytes self) (skipn (S j) axes) ++ tail))%list).
    { unfold P, geometry_bytes. rewrite flat_map_app. cbn [flat_map].
      unfold axis_bytes at 2. cbn [fst snd]. now rewrite <- !app_assoc. }
    rewrite Hsplit in Hfs. clear Hsplit.
    assert (HP : length P = (3 * itemsize (Itype self)
                 + list_sum (map (axis_length self) (map snd a1))
                 + 2 * itemsize (Itype self))%nat).
    { unfold P. rewrite length_geometry_bytes, length_app,
        !(length_encode (lawful_I p s i)). cbn [length]. lia. }
    assert (HE : length (encode (Rtype self) (data U))
                 = (size U * itemsize (Rtype self))%nat)
      by (now rewrite (length_encode (lawful_R p s i))).
    rewrite firstn_app_mid in Hfs by lia.
    unfold P in Hfs. rewrite <- geometry_bytes_tail, <- app_assoc in Hfs.
    eapply (@read_truncated_knots host p s i fs filename descr _ a1 q U
              (K - length P)); try eassumption; try lia.
    unfold a1. rewrite length_firstn. lia.
Qed.

End Corruption2.

Section WrittenLayout.
Variable host : endian.
Variables (p : precision_t) (s : scalar_t) (i : indices_t).
Local Abbreviation self := (__init__ p s i).

(** The file [write] makes of a valid geometry is laid out in the geometry
    format, with or without the control block. *)
Lemma written_layout fs filename g c geometry nsd fs1 F :
  valid_geometry self g c ->
  write host self fs filename g geometry nsd = (fs1, OK tt) ->
  fs1 filename = Some F ->
  exists descr tail,
    (descr = 0 \/ descr = 1)
    /\ F = geometry_bytes self IGA_ID descr (NURBS_dim g)
             (List.combine (NURBS_degree g) (knots g)) tail.
Proof.
  intros Hv Hw HF. destruct geometry.
  - destruct (Z_le_dec (NURBS_dim g) (effective_nsd g nsd)) as [H1|H1];
      [destruct (Z_le_dec (effective_nsd g nsd) 3) as [H2|H2]|].
    + rewrite (@write_geometry host p s i fs filename g c (NURBS_shape g) nsd
                 (effective_nsd g nsd)) in Hw;
        [| apply Hv | apply Hv | reflexivity | lia].
      injection Hw as <-. unfold fs_put in HF. rewrite String.eqb_refl in HF.
      injection HF as <-. eexists 1, _. split; [now right | reflexivity].
    + rewrite write_nsd_out_of_range in Hw by lia. discriminate.
    + rewrite write_nsd_out_of_range in Hw by lia. discriminate.
  - destruct nsd as [n|]; [discriminate|].
    rewrite write_topology in Hw. injection Hw as <-.
    unfold fs_put in HF. rewrite String.eqb_refl in HF.
    injection HF as <-. eexists 0, _. split; [now left | reflexivity].
Qed.

End WrittenLayout.

(** C9.  Corruption detection: for a file written from a valid geometry,
    another leading word makes [read] fail with BadMagic, and a file cut
    after the knot-count field of an axis but before the end of that
    axis's knot values makes [read] fail with SizeMismatch. *)
Theorem corruption_detection :
  forall (host : endian) (p : precision_t) (s : scalar_t) (i : indices_t)
         (fs : filesystem) (filename : string) (g : NURBS) (c : ndarray cfloat)
         (geometry : bool) (nsd : option Z) (fs1 : filesystem) (F : list byte),
    valid_geometry (__init__ p s i) g c ->
    Forall (fun U => representable (__init__ p s i) (Z.of_nat (size U))) (knots g) ->
    write host (__init__ p s i) fs filename g geometry nsd = (fs1, OK tt) ->
    fs1 filename = Some F ->
    (forall fs2 name hdr,
        length hdr = itemsize (Itype (__init__ p s i)) ->
        hdr <> firstn (itemsize (Itype (__init__ p s i))) F ->
        fs2 name = Some (hdr ++ skipn (itemsize (Itype (__init__ p s i))) F)%list ->
        read host (__init__ p s i) fs2 name = Err BadMagic)
    /\ (forall fs2 name (j K : nat),
        (j < length (knots g))%nat ->
        (knots_start (__init__ p s i) g j <= K < knots_end (__init__ p s i) g j)%nat ->
        fs2 name = Some (firstn K F) ->
        read host (__init__ p s i) fs2 name = Err SizeMismatch).
Proof.
  intros host p s i fs filename g c geometry nsd fs1 F Hv Hrep Hw HF.
  destruct (written_layout _ _ _ _ _ Hv Hw HF) as (descr & tail & Hdescr & HFeq).
  destruct Hv as [Hc Hwf Hdim Hs Hrank H1d Hdeg Hsz Hrk Hrc].
  assert (Hdegrees : NURBS_degree g = degrees (knots g) (NURBS_shape g)) by reflexivity.
  rewrite Hdegrees in *.
  destruct (@axes_facts host p s i (knots g) (NURBS_shape g) Hrank Hdeg Hsz Hrep Hrk)
    as (Hlen & Hax & _ & _).
  set (axes := List.combine (degrees (knots g) (NURBS_shape g)) (knots g)) in *.
  assert (Hsnd : map snd axes = knots g).
  { apply map_snd_combine. unfold degrees.
    rewrite length_map, length_combine, Hrank. lia. }
  unfold NURBS_dim in *. rewrite <- Hlen in HFeq, Hdim.
  assert (Hdescr' : representable (__init__ p s i) descr)
    by (apply representable_small; lia).
  assert (Hrej := fun fs2 name =>
    @corrupted_layout_rejected host p s i fs2 name descr axes tail F
      Hdescr' (ltac:(lia)) Hax HFeq).
  split.
  - intros fs2 name hdr. apply (proj1 (Hrej fs2 name)).
  - intros fs2 name j K Hj [Hlo Hhi] Hfs2.
    apply (proj2 (Hrej fs2 name) j K (0, mk_ndarray (Rtype (__init__ p s i)) [] [])).
    + lia.
    + rewrite <- firstn_map, Hsnd. exact Hlo.
    + rewrite <- firstn_map, Hsnd.
      rewrite <- (map_nth snd), Hsnd. exact Hhi.
    + exact Hfs2.
Qed.

Lemma corruption_detection_witness :
  read LittleEndian ex_self
    (one_file ex_name ([Byte.x00; Byte.x00; Byte.x00; Byte.x00] ++ skipn 4 ex_line_file)%list)
    ex_name = Err BadMagic
  /\ read LittleEndian ex_self (one_file ex_name (firstn 28 ex_line_file)) ex_name
     = Err SizeMismatch.
Proof.
  remember (write LittleEndian ex_self no_files ex_name ex_line true None) as W eqn:HW.
  assert (Hs : snd W = OK tt) by (rewrite HW; vm_compute; reflexivity).
  assert (HF : fst W ex_name = Some ex_line_file) by (rewrite HW; vm_compute; reflexivity).
  destruct W as [fs1 r]. cbn [fst snd] in Hs, HF. subst r.
  assert (Hv : valid_geometry ex_self ex_line ex_line_control) by valid_by_computation.
  assert (Hrep : Forall (fun U => representable ex_self (Z.of_nat (size U))) (knots ex_line))
    by by_computation.
  destruct (@corruption_detection LittleEndian double real bit32 no_files ex_name
              ex_line ex_line_control true None fs1 ex_line_file Hv Hrep (eq_sym HW) HF)
    as [H1 H2].
  split.
  - apply (H1 _ ex_name [Byte.x00; Byte.x00; Byte.x00; Byte.x00]); by_computation.
  - apply (H2 _ ex_name 0%nat 28%nat); by_computation.
Defined.

Section Descriptor.
Variable host : endian.
Variables (p : precision_t) (s : scalar_t) (i : indices_t).
Local Abbreviation self := (__init__ p s i).

(** In Index arithmetic the absolute value of the most negative integer is
    that integer itself: [abs(descr) >= 1] holds for every non-zero
    descriptor but this one. *)
Lemma np_abs_ge_1 descr :
  representable self descr ->
  (1 <= np_abs (Itype self) descr <-> descr <> 0 /\ descr <> - index_bound self).
Proof.
  intros Hd. pose proof (index_bound_ge p s i) as Hb.
  destruct (Z.eq_dec descr (- index_bound self)) as [->|Hne].
  - unfold np_abs. rewrite Z.abs_opp, Z.abs_eq by lia.
    unfold swrap, index_bound in *.
    set (B := 2 ^ (nbits (Itype self) - 1)) in *.
    assert (H2 : 2 ^ nbits (Itype self) = 2 * B).
    { unfold B. destruct (nbits_I p s i) as [-> | ->]; reflexivity. }
    rewrite H2. replace (B + B) with (0 + 1 * (2 * B)) by lia.
    rewrite Z.mod_add, Z.mod_0_l by lia. lia.
  - rewrite np_abs_small by (unfold representable in *; lia). lia.
Qed.

(** How [read] takes the descriptor of a file that holds the axes and the
    control block of a valid geometry. *)
Lemma descriptor_interpretation fs filename g c nsd descr :
  valid_geometry self g c -> fits_index self g nsd ->
  NURBS_dim g <= nsd <= 3 -> representable self descr ->
  fs filename = Some (geometry_bytes self IGA_ID descr (NURBS_dim g)
                        (List.combine (NURBS_degree g) (knots g))
                        (control_bytes self nsd (data (stored nsd c)))) ->
  exists g',
    read host self fs filename = OK g'
    /\ (control g' <> None <-> 1 <= np_abs (Itype self) descr).
Proof.
  intros Hv Hfit Hr Hd Hfs.
  destruct (Z_le_dec 1 (np_abs (Itype self) descr)) as [Habs|Habs].
  - eexists. split.
    + apply (@read_stored_geometry host p s i fs filename g c nsd descr []);
        try assumption. now rewrite app_nil_r.
    + cbn [control]. split; [intros _; exact Habs | intros _; discriminate].
  - destruct Hv as [Hc Hwf Hdim Hs Hrank H1d Hdeg Hsz Hrk Hrc].
    destruct Hfit as [Hfk Hfc].
    assert (Hdegrees : NURBS_degree g = degrees (knots g) (NURBS_shape g)) by reflexivity.
    rewrite Hdegrees in *.
    destruct (@axes_facts host p s i (knots g) (NURBS_shape g) Hrank Hdeg Hsz Hfk Hrk)
      as (Hlen & Hax & _ & _).
    unfold NURBS_dim in *. rewrite <- Hlen in Hfs, Hdim.
    eexists. split.
    + apply (@read_topology_bytes host p s i fs filename descr _ _ Hfs);
        try assumption; lia.
    + cbn [control]. split; [intros H; now contradiction H | intros H; lia].
Qed.

End Descriptor.

(** C7 at its failing input.  A geometry file of a line with its control
    block is read with the control array when the descriptor is -1, and
    without it when the descriptor is the most negative 32-bit integer,
    although that descriptor is not zero. *)
Theorem descriptor_most_negative_read_as_absent :
  (exists g c,
      read LittleEndian ex_self
        (one_file ex_name (ex_line_file_with_descriptor (-1))) ex_name = OK g
      /\ control g = Some c)
  /\ (exists g,
      read LittleEndian ex_self
        (one_file ex_name (ex_line_file_with_descriptor (-2147483648))) ex_name = OK g
      /\ control g = None).
Proof.
  split.
  - eexists. eexists. split; [vm_compute; reflexivity | reflexivity].
  - eexists. split; [vm_compute; reflexivity | reflexivity].
Qed.

Section MatrixFacts.
Variable host : endian.
Variable stale : nat -> Z.
Variables (p : precision_t) (s : scalar_t) (i : indices_t).
Local Abbreviation self := (__init__ p s i).

Lemma length_cumsum d acc l : length (cumsum d acc l) = length l.
Proof. revert acc. induction l as [|x l IH]; intros acc; cbn; [reflexivity|]. now rewrite IH. Qed.


Lemma cast_fixed_representable (l : list Z) :
  Forall (fun x => cast (Itype self) x = x) l -> Forall (representable self) l.
Proof. apply Forall_impl. intros x. apply representable_cast. Qed.

(** The length M + 1 of the row pointer, when [read_mat] goes on with it:
    it has not wrapped around, and M is not negative. *)
Lemma rows_plus_one M :
  representable self M ->
  0 <= np_add (Itype self) M 1 -> np_add (Itype self) M 1 <> 0 ->
  np_add (Itype self) M 1 = M + 1 /\ 0 <= M.
Proof.
  intros HM HM1 HM0. pose proof (index_bound_ge p s i) as Hb.
  assert (HM' : np_add (Itype self) M 1 = M + 1).
  { destruct (Z.eq_dec M (index_bound self - 1)) as [->|Hne].
    - exfalso. revert HM1. unfold np_add.
      replace (index_bound self - 1 + 1) with (index_bound self) by lia.
      unfold index_bound.
      destruct (nbits_I p s i) as [Hn | Hn]; rewrite Hn; vm_compute; intros Hc; now apply Hc.
    - apply np_add_small. unfold representable in *. lia. }
  split; [exact HM'|]. lia.
Qed.

(** The row pointer [read_mat] starts from: [np.empty(n + 1)] with its
    first element set to 0. *)
Lemma data_row_pointer d n :
  data (set_first (empty stale d (S n)) 0)
  = 0 :: map (fun k => cast d (stale k)) (seq 1 n).
Proof. reflexivity. Qed.

Lemma size_row_pointer d n : size (set_first (empty stale d (S n)) 0) = S n.
Proof. unfold size. rewrite data_row_pointer. cbn [length]. now rewrite length_map, length_seq. Qed.

(** [np.cumsum(a, out=AI[1:])] when [a] has the size of [AI[1:]]: the
    running sums follow the first element. *)
Lemma cumsum_into_tail_full d (a : ndarray Z) n :
  size a = n ->
  cumsum_into_tail d a (set_first (empty stale (newbyteorder d host) (S n)) 0)
  = OK (mk_ndarray (newbyteorder d host) [S n] (0 :: cumsum d 0 (data a))).
Proof.
  intros Hsize. unfold cumsum_into_tail. rewrite size_row_pointer.
  unfold size in *. destruct (data a) as [|x l] eqn:Ha.
  - cbn [length] in Hsize. subst n. reflexivity.
  - rewrite Hsize. replace (S n - 1)%nat with n by lia. rewrite Nat.eqb_refl.
    reflexivity.
Qed.

(** An array that [_read] returns empty although at least one element was
    asked for: less than one element was left, and nothing is left. *)
Lemma _read_nothing {A : Type} {E : Element A} (d : dtype) (fh rest : stream) (count : Z)
  (a : ndarray A) :
  (0 < itemsize d)%nat ->
  _read host fh d count = (a, rest) -> 1 <= count -> data a = [] ->
  rest = [] /\ (length fh < itemsize d)%nat.
Proof.
  intros Hp. unfold _read, fromfile.
  set (avail := Nat.div (length fh) (itemsize d)).
  destruct (Z.ltb_spec count 0); [lia|].
  destruct (Z.leb_spec count (Z.of_nat avail)) as [Hle|Hgt];
    intros Heq Hc Ha; injection Heq as <- <-; unfold astype in Ha; cbn [data] in Ha;
    apply (f_equal (@length A)) in Ha; rewrite length_map, length_items in Ha;
    cbn [length] in Ha.
  - lia.
  - split; [reflexivity|]. unfold avail in Ha.
    apply Nat.div_small_iff in Ha; lia.
Qed.

(** Nothing can be read from the end of a stream but an empty array. *)
Lemma _read_at_end {A : Type} {E : Element A} (d : dtype) (count : Z) (a : ndarray A)
  (rest : stream) :
  lawful (A:=A) d ->
  _read host [] d count = (a, rest) -> Z.of_nat (size a) = count ->
  data a = [] /\ rest = [] /\ count = 0.
Proof.
  intros Hd Hr Hsize. pose proof (lawful_pos Hd) as Hp.
  destruct (_read_inv host Hd _ Hr Hsize) as (Hfh & _).
  symmetry in Hfh. apply app_eq_nil in Hfh. destruct Hfh as [He ->].
  apply (f_equal (@length byte)) in He. rewrite (length_encode Hd) in He.
  cbn [length] in He. unfold size in Hsize.
  destruct (data a); [repeat split; cbn in Hsize; lia | cbn [length] in He; lia].
Qed.

Lemma fromfile_at_end {A : Type} {E : Element A} (d : dtype) (count : Z) (a : ndarray A)
  (rest : stream) :
  lawful (A:=A) d ->
  fromfile [] d count = (a, rest) -> Z.of_nat (size a) = count ->
  data a = [] /\ rest = [].
Proof.
  intros Hd Hr Hsize. pose proof (lawful_pos Hd) as Hp.
  destruct (fromfile_inv Hd _ Hr Hsize) as (Hfh & _).
  symmetry in Hfh. apply app_eq_nil in Hfh. destruct Hfh as [He ->].
  apply (f_equal (@length byte)) in He. rewrite (length_encode Hd) in He.
  cbn [length] in He.
  destruct (data a); [now split | cbn [length] in He; lia].
Qed.

(** The layout and the contents of a file [read_mat] accepts.  Either the
    file holds the M row counts of its header, and the row pointer holds
    their running sums, or M is at least 1 and the file ends before the
    first row count: nz is then 0 and the row pointer, apart from its first
    and last element, is what [np.empty] returned. *)
Lemma read_mat_inv fs filename M N AI AJ AV :
  read_mat host stale self fs filename = OK ((M, N), (AI, AJ, AV)) ->
  exists rownz tail,
    fs filename = Some (matrix_bytes self M N (Z.of_nat (size AJ)) rownz
                          (data AJ) (data AV) tail)
    /\ Z.of_nat (size AI) = M + 1
    /\ nth 0 (data AI) 0 = 0
    /\ last (data AI) 0 = Z.of_nat (size AJ)
    /\ size AV = size AJ
    /\ dt AI = newbyteorder (Itype self) host
    /\ dt AJ = newbyteorder (Itype self) host
    /\ dt AV = Stype self
    /\ ((Z.of_nat (length rownz) = M
         /\ data AI = 0 :: cumsum (Itype self) 0 rownz)
        \/ (1 <= M /\ rownz = [] /\ (length tail < itemsize (Itype self))%nat
            /\ size AJ = 0%nat
            /\ data AI = 0 :: map (fun k => cast (Itype self) (stale k))
                                (seq 1 (Z.to_nat M)))).
Proof.
  pose proof (lawful_pos (lawful_I p s i)) as Hpos.
  unfold read_mat, open_rb. destruct (fs filename) as [fh|]; [|discriminate]. cbn [bind].
  destruct (_read1 host fh (Itype self)) as [[clsid fh1]|] eqn:H1; [|discriminate].
  cbn [bind]. destruct (Z.eqb_spec clsid MAT_ID) as [->|]; [|discriminate].
  destruct (_read (A:=Z) host fh1 (Itype self) 3) as [hdr fh2] eqn:H2.
  destruct (data hdr) as [|M' [|N' [|nz [|? ?]]]] eqn:Hhdr; try discriminate.
  destruct (Z.leb_spec 0 (np_add (Itype self) M' 1)) as [HM1|]; [|discriminate].
  destruct (Z.eqb_spec (np_add (Itype self) M' 1) 0) as [|HM0]; [discriminate|]. cbn [negb].
  destruct (_read1_inv host (lawful_I p s i) _ H1) as (Hfh & _).
  assert (Hsz3 : Z.of_nat (size hdr) = 3) by (unfold size; now rewrite Hhdr).
  destruct (_read_inv host (lawful_I p s i) _ H2 Hsz3) as (Hfh1 & _ & _ & Hfix).
  rewrite Hhdr in Hfix, Hfh1.
  assert (HM : representable self M').
  { inversion Hfix as [|? ? HMfix _]; subst. now apply representable_cast. }
  destruct (rows_plus_one HM HM1 HM0) as (HM' & HMpos).
  rewrite HM' in *.
  assert (Hn : Z.to_nat (M' + 1) = S (Z.to_nat M')) by lia.
  rewrite Hn.
  destruct (_read (A:=Z) host fh2 (Itype self) M') as [rownz fh3] eqn:H3.
  unfold cumsum_into_tail. rewrite size_row_pointer.
  replace (S (Z.to_nat M') - 1)%nat with (Z.to_nat M') by lia.
  destruct (data rownz) as [|x l] eqn:Hrow.
  - (* no row count was read *)
    cbn [bind]. rewrite data_row_pointer.
    destruct (Z.eqb_spec (last (0 :: map (fun k => cast (newbyteorder (Itype self) host)
                                                      (stale k)) (seq 1 (Z.to_nat M'))) 0) nz)
      as [Hlast|]; [|discriminate].
    destruct (_read (A:=Z) host fh3 (Itype self) nz) as [AJ' fh4] eqn:H4.
    destruct (Z.eqb_spec (Z.of_nat (size AJ')) nz) as [Hcol|]; [|discriminate].
    destruct (fromfile (A:=cfloat) fh4 (Stype self) nz) as [AV' fh5] eqn:H5.
    destruct (Z.eqb_spec (Z.of_nat (size AV')) nz) as [Hval|]; [|discriminate].
    intros Heq. injection Heq as <- <- <- <- <-.
    destruct (_read_inv host (lawful_I p s i) _ H4 Hcol) as (Hfh3 & Hdt & _).
    destruct (fromfile_inv (lawful_S p s i) _ H5 Hval) as (Hfh4 & HdtV & _).
    destruct (Z.eq_dec M' 0) as [->|HMne].
    + (* M = 0: there is no row count to read *)
      assert (Hsz0 : Z.of_nat (size rownz) = 0) by (unfold size; now rewrite Hrow).
      destruct (_read_inv host (lawful_I p s i) _ H3 Hsz0) as (Hfh2 & _).
      rewrite Hrow in Hfh2.
      exists [], fh5. split; [|split; [|split; [|split; [|split; [|split; [|split; [|split]]]]]]].
      * unfold matrix_bytes. rewrite Hcol, <- Hfh4, <- Hfh3, <- Hfh2, <- Hfh1.
        now rewrite <- Hfh.
      * reflexivity.
      * reflexivity.
      * rewrite data_row_pointer, Hcol. exact Hlast.
      * unfold size in *. lia.
      * reflexivity.
      * exact Hdt.
      * exact HdtV.
      * left. split; reflexivity.
    + (* M >= 1 and the file ends before the first row count *)
      destruct (@_read_nothing Z _ (Itype self) fh2 fh3 M' rownz Hpos H3) as (-> & Hshort);
        [lia | exact Hrow |].
      destruct (_read_at_end (lawful_I p s i) H4 Hcol) as (HAJ & -> & ->).
      assert (Hval0 : Z.of_nat (size AV') = 0) by exact Hval.
      destruct (fromfile_at_end (lawful_S p s i) H5 Hval0) as (HAV & ->).
      exists [], fh2. split; [|split; [|split; [|split; [|split; [|split; [|split; [|split]]]]]]].
      * unfold matrix_bytes. rewrite HAJ, HAV. unfold size. rewrite HAJ.
        cbn [length Z.of_nat].
        change (encode (Itype self) (@nil Z)) with (@nil byte).
        change (encode (Stype self) (@nil cfloat)) with (@nil byte).
        cbn [app]. rewrite <- Hfh1. now rewrite <- Hfh.
      * rewrite size_row_pointer. lia.
      * reflexivity.
      * rewrite data_row_pointer. unfold size. rewrite HAJ. cbn [length Z.of_nat].
        exact Hlast.
      * unfold size. now rewrite HAJ, HAV.
      * reflexivity.
      * exact Hdt.
      * exact HdtV.
      * right. split; [lia|]. split; [reflexivity|]. split; [exact Hshort|].
        split; [unfold size; now rewrite HAJ | reflexivity].
  - (* row counts were read: there must be M of them *)
    destruct (Nat.eqb_spec (size rownz) (Z.to_nat M')) as [Hrows|]; [|discriminate].
    cbn [bind data].
    assert (Hrow' : Z.of_nat (size rownz) = M') by lia.
    rewrite data_row_pointer. cbn [firstn app].
    destruct (Z.eqb_spec (last (0 :: cumsum (Itype self) 0 (x :: l)) 0) nz) as [Hlast|];
      [|discriminate].
    destruct (_read (A:=Z) host fh3 (Itype self) nz) as [AJ' fh4] eqn:H4.
    destruct (Z.eqb_spec (Z.of_nat (size AJ')) nz) as [Hcol|]; [|discriminate].
    destruct (fromfile (A:=cfloat) fh4 (Stype self) nz) as [AV' fh5] eqn:H5.
    destruct (Z.eqb_spec (Z.of_nat (size AV')) nz) as [Hval|]; [|discriminate].
    intros Heq. injection Heq as <- <- <- <- <-.
    destruct (_read_inv host (lawful_I p s i) _ H3 Hrow') as (Hfh2 & _).
    destruct (_read_inv host (lawful_I p s i) _ H4 Hcol) as (Hfh3 & Hdt & _).
    destruct (fromfile_inv (lawful_S p s i) _ H5 Hval) as (Hfh4 & HdtV & _).
    rewrite Hrow in Hfh2.
    exists (x :: l), fh5. split; [|split; [|split; [|split; [|split; [|split; [|split; [|split]]]]]]].
    + unfold matrix_bytes. rewrite Hcol, <- Hfh4, <- Hfh3, <- Hfh2, <- Hfh1.
      now rewrite <- Hfh.
    + unfold size in *. cbn [data length]. rewrite length_cumsum. rewrite Hrow in Hrow'.
      cbn [length] in Hrow'. lia.
    + reflexivity.
    + change (last (0 :: cumsum (Itype self) 0 (x :: l)) 0 = Z.of_nat (size AJ')).
      now rewrite Hlast, Hcol.
    + unfold size in *. lia.
    + reflexivity.
    + exact Hdt.
    + exact HdtV.
    + left. split; [|reflexivity]. unfold size in Hrow'. now rewrite Hrow in Hrow'.
Qed.


End MatrixFacts.




(** Every array [_read] returns is in host byte order. *)
Lemma _read_host_order {A : Type} {E : Element A} host fh d count :
  byteorder (dt (fst (_read (A:=A) host fh d count))) = host.
Proof. unfold _read. destruct (fromfile fh d count). reflexivity. Qed.

(** The values array of [read_mat] keeps the dtype of the file: it is in
    wire byte order on every host. *)
Lemma read_mat_values_dtype host stale p s i fs filename M N AI AJ AV :
  read_mat host stale (__init__ p s i) fs filename = OK ((M, N), (AI, AJ, AV)) ->
  byteorder (dt AI) = host /\ byteorder (dt AJ) = host
  /\ byteorder (dt AV) = BigEndian.
Proof.
  intros Hread.
  destruct (@read_mat_inv host stale p s i fs filename M N AI AJ AV Hread)
    as (rownz & tail & _ & _ & _ & _ & _ & HAI & HAJ & HAV & _).
  rewrite HAI, HAJ, HAV. repeat split. destruct p, s; reflexivity.
Qed.

(** C3 at its failing input.  On a little-endian host [read_mat] returns
    the row pointer and the column indices of a matrix file in host byte
    order and the values in the big-endian byte order of the file: the
    values array is not converted. *)
Theorem read_mat_values_not_converted :
  forall stale : nat -> Z,
  exists AI AJ AV,
    read_mat LittleEndian stale ex_self (one_file ex_name ex_matrix_file) ex_name
    = OK ((2, 2), (AI, AJ, AV))
    /\ byteorder (dt AI) = LittleEndian
    /\ byteorder (dt AJ) = LittleEndian
    /\ byteorder (dt AV) = BigEndian.
Proof.
  intros stale.
  eexists. eexists. eexists. split; [vm_compute; reflexivity|].
  repeat split.
Qed.

Section ArrayFacts4.
Context {A : Type} {E : Element A}.

Lemma Forall_ravel_rollaxis (P : A -> Prop) (a : ndarray A) s c :
  wf a -> shape a = (s ++ [c])%list -> Forall P (data a) ->
  Forall P (data (ravel_f (rollaxis_last a))).
Proof.
  intros Hwf Hs Hall. apply Forall_ravel_f. intros idx Hidx.
  unfold rollaxis_last in *. cbn [shape tabulate] in Hidx.
  rewrite get_tabulate by assumption.
  rewrite Hs, last_snoc, removelast_snoc in Hidx.
  inversion Hidx as [|? k ? i Hk Hi]; subst.
  apply Forall_get; [assumption..|]. rewrite Hs.
  apply in_range_app; [assumption|]. apply Forall2_cons; [assumption | constructor].
Qed.

Lemma size_ravel_rollaxis (a : ndarray A) s c :
  shape a = (s ++ [c])%list -> size (ravel_f (rollaxis_last a)) = (c * Ix.prod s)%nat.
Proof.
  intros Hs. unfold size, ravel_f. cbn [data]. rewrite length_map, length_seq.
  unfold rollaxis_last. cbn [shape tabulate]. now rewrite Hs, last_snoc, removelast_snoc.
Qed.

Lemma prod_pos (s : list nat) : Forall (fun n => (2 <= n)%nat) s -> (0 < Ix.prod s)%nat.
Proof. induction 1 as [|n s Hn _ IH]; cbn; [lia | nia]. Qed.

Lemma squeeze_grid (s : list nat) (dof : nat) :
  Forall (fun n => (2 <= n)%nat) s ->
  filter (fun n => negb (Nat.eqb n 1)) (s ++ [dof])
  = (s ++ (if Nat.eqb dof 1 then [] else [dof]))%list.
Proof.
  intros Hs. rewrite filter_app. f_equal.
  - induction Hs as [|n s Hn _ IH]; cbn [filter]; [reflexivity|].
    destruct (Nat.eqb_spec n 1); [lia|]. cbn [negb]. now rewrite IH.
  - cbn [filter]. now destruct (Nat.eqb dof 1).
Qed.

End ArrayFacts4.

Section VectorFacts.
Variable host : endian.
Variables (p : precision_t) (s : scalar_t) (i : indices_t).
Local Abbreviation self := (__init__ p s i).

(** What [write_vec] leaves on disk when a geometry is given. *)
Lemma write_vec_geometry fs filename (A : ndarray cfloat) g dof :
  (0 < Ix.prod (NURBS_shape g))%nat ->
  size A = (dof * Ix.prod (NURBS_shape g))%nat ->
  write_vec host self fs filename A (Some g)
  = (fs_put (fs_put fs filename []) filename
       (vector_bytes self (data (stored_vec A (NURBS_shape g) dof))),
     OK tt).
Proof.
  intros Hp Hsize. unfold write_vec, reshape_infer_last.
  destruct (Nat.eqb_spec (Ix.prod (NURBS_shape g)) 0); [lia|].
  rewrite Hsize, Nat.Div0.mod_mul, Nat.div_mul by lia. cbn [Nat.eqb bind].
  unfold open_wb, close_wb. rewrite !_write_encode. cbn [py_int data app].
  unfold vector_bytes, stored_vec, size. now rewrite <- !app_assoc.
Qed.

(** What [write_vec] leaves on disk when no geometry is given. *)
Lemma write_vec_flat fs filename (A : ndarray cfloat) :
  write_vec host self fs filename A None
  = (fs_put (fs_put fs filename []) filename (vector_bytes self (data A)), OK tt).
Proof.
  unfold write_vec, open_wb, close_wb. rewrite !_write_encode. cbn [py_int data app].
  unfold vector_bytes, size. now rewrite <- !app_assoc.
Qed.

(** Reading a file laid out in the vector format, without a geometry. *)
Lemma read_vec_flat fs filename values :
  representable self (Z.of_nat (length values)) ->
  fs filename = Some (vector_bytes self values) ->
  read_vec host self fs filename None
  = OK (mk_ndarray (newbyteorder (Stype self) host) [length values]
          (map (cast (Stype self)) values)).
Proof.
  intros Hlen Hfs. unfold read_vec, open_rb. rewrite Hfs. cbn [bind]. unfold vector_bytes.
  rewrite (_read1_encode host (lawful_I p s i)). cbn [bind].
  rewrite cast_I by (apply representable_small; unfold VEC_ID; lia).
  rewrite Z.eqb_refl.
  rewrite (_read1_encode host (lawful_I p s i)). cbn [bind].
  rewrite (cast_I Hlen).
  rewrite <- (app_nil_r (encode (Stype self) values)).
  rewrite (_read_encode host (lawful_S p s i)).
  unfold size at 1. cbn [data]. now rewrite length_map, Z.eqb_refl.
Qed.

(** Reading, with the geometry, the values [write_vec] stored with it. *)
Lemma read_vec_geometry fs filename (A : ndarray cfloat) g dof :
  Forall (fun n => (2 <= n)%nat) (NURBS_shape g) ->
  size A = (dof * Ix.prod (NURBS_shape g))%nat ->
  Forall (is_scalar self) (data A) ->
  representable self (Z.of_nat (size A)) ->
  fs filename = Some (vector_bytes self (data (stored_vec A (NURBS_shape g) dof))) ->
  read_vec host self fs filename (Some g)
  = OK (mk_ndarray (newbyteorder (Stype self) host)
          (NURBS_shape g ++ (if Nat.eqb dof 1 then [] else [dof]))%list (data A)).
Proof.
  intros Hgrid Hsize Hscalar Hrep Hfs.
  pose proof (prod_pos Hgrid) as Hp.
  set (shp := NURBS_shape g) in *.
  set (b := mk_ndarray (dt A) (shp ++ [dof]) (data A)).
  assert (Hwf : wf b).
  { unfold wf, b. cbn [data shape]. rewrite prod_app. cbn [Ix.prod].
    unfold size in Hsize. lia. }
  assert (Hlen : length (data (stored_vec A shp dof)) = (dof * Ix.prod shp)%nat)
    by (apply (@size_ravel_rollaxis _ _ b shp dof); reflexivity).
  assert (Hvals : map (cast (Stype self)) (data (stored_vec A shp dof))
                  = data (stored_vec A shp dof)).
  { apply map_cast_id. apply (@Forall_ravel_rollaxis _ _ _ b shp dof Hwf eq_refl).
    exact Hscalar. }
  unfold read_vec, open_rb. rewrite Hfs. cbn [bind]. unfold vector_bytes.
  rewrite (_read1_encode host (lawful_I p s i)). cbn [bind].
  rewrite cast_I by (apply representable_small; unfold VEC_ID; lia).
  rewrite Z.eqb_refl.
  rewrite (_read1_encode host (lawful_I p s i)). cbn [bind].
  rewrite cast_I by (rewrite Hlen, <- Hsize; exact Hrep).
  rewrite <- (app_nil_r (encode (Stype self) _)).
  rewrite (_read_encode host (lawful_S p s i)).
  unfold size at 1. cbn [data]. rewrite length_map, Z.eqb_refl.
  rewrite Hvals. unfold reshape_f_infer_first. fold shp.
  destruct (Nat.eqb_spec (Ix.prod shp) 0); [lia|].
  unfold size at 1 2. cbn [data]. rewrite Hlen. rewrite Nat.Div0.mod_mul.
  rewrite Nat.div_mul by lia.
  cbn [Nat.eqb bind].
  rewrite (@layout_roundtrip _ _ b
             (mk_ndarray (newbyteorder (Stype self) host) [(dof * Ix.prod shp)%nat]
                (data (stored_vec A shp dof)))
             shp dof eq_refl Hwf eq_refl).
  unfold squeeze. cbn [dt shape data]. now rewrite squeeze_grid.
Qed.

End VectorFacts.

(** C5.  Vector round trip: for every array of Scalar values whose size is
    [dof] times the number of grid points of a geometry (grid sizes at
    least 2), [write_vec] with the geometry followed by [read_vec] with the
    geometry returns the original values in their original order, in the
    shape of the grid followed by [dof]; that last axis is dropped exactly
    when [dof] is 1.  [read_vec] without the geometry returns the stored
    values as a flat array. *)
Theorem vector_roundtrip :
  forall (host : endian) (p : precision_t) (s : scalar_t) (i : indices_t)
         (fs : filesystem) (filename : string) (A : ndarray cfloat) (g : NURBS) (dof : nat),
    Forall (fun n => (2 <= n)%nat) (NURBS_shape g) ->
    size A = (dof * Ix.prod (NURBS_shape g))%nat ->
    Forall (is_scalar (__init__ p s i)) (data A) ->
    representable (__init__ p s i) (Z.of_nat (size A)) ->
    exists fs' B flat values,
      write_vec host (__init__ p s i) fs filename A (Some g) = (fs', OK tt)
      /\ read_vec host (__init__ p s i) fs' filename (Some g) = OK B
      /\ data B = data A
      /\ shape B = (NURBS_shape g ++ (if Nat.eqb dof 1 then [] else [dof]))%list
      /\ fs' filename = Some (vector_bytes (__init__ p s i) values)
      /\ read_vec host (__init__ p s i) fs' filename None = OK flat
      /\ shape flat = [length values]
      /\ data flat = values.
Proof.
  intros host p s i fs filename A g dof Hgrid Hsize Hscalar Hrep.
  pose proof (prod_pos Hgrid) as Hp.
  set (b := mk_ndarray (dt A) (NURBS_shape g ++ [dof]) (data A)).
  assert (Hwf : wf b).
  { unfold wf, b. cbn [data shape]. rewrite prod_app. cbn [Ix.prod].
    unfold size in Hsize. lia. }
  assert (Hlen : length (data (stored_vec A (NURBS_shape g) dof))
                 = (dof * Ix.prod (NURBS_shape g))%nat)
    by (apply (@size_ravel_rollaxis _ _ b (NURBS_shape g) dof); reflexivity).
  assert (Hvals : map (cast (Stype (__init__ p s i))) (data (stored_vec A (NURBS_shape g) dof))
                  = data (stored_vec A (NURBS_shape g) dof)).
  { apply map_cast_id.
    apply (@Forall_ravel_rollaxis _ _ _ b (NURBS_shape g) dof Hwf eq_refl). exact Hscalar. }
  assert (Hfile : fs_put (fs_put fs filename []) filename
                    (vector_bytes (__init__ p s i) (data (stored_vec A (NURBS_shape g) dof)))
                    filename
                  = Some (vector_bytes (__init__ p s i)
                            (data (stored_vec A (NURBS_shape g) dof))))
    by (unfold fs_put; now rewrite String.eqb_refl).
  eexists. eexists. eexists. exists (data (stored_vec A (NURBS_shape g) dof)).
  split; [apply (@write_vec_geometry host p s i fs filename A g dof Hp Hsize)|].
  split; [apply (@read_vec_geometry host p s i _ filename A g dof Hgrid Hsize Hscalar Hrep Hfile)|].
  split; [reflexivity|]. split; [reflexivity|]. split; [exact Hfile|].
  split; [apply (@read_vec_flat host p s i _ filename
                   (data (stored_vec A (NURBS_shape g) dof))); [|exact Hfile];
          rewrite Hlen, <- Hsize; exact Hrep|].
  cbn [shape data]. split; [reflexivity | exact Hvals].
Qed.

Lemma vector_roundtrip_witness :
  exists fs' B flat values,
    write_vec LittleEndian ex_self no_files ex_name ex_field (Some ex_square) = (fs', OK tt)
    /\ read_vec LittleEndian ex_self fs' ex_name (Some ex_square) = OK B
    /\ data B = data ex_field
    /\ shape B = (NURBS_shape ex_square ++ (if Nat.eqb 2 1 then [] else [2%nat]))%list
    /\ fs' ex_name = Some (vector_bytes ex_self values)
    /\ read_vec LittleEndian ex_self fs' ex_name None = OK flat
    /\ shape flat = [length values]
    /\ data flat = values.
Proof.
  apply (@vector_roundtrip LittleEndian double real bit32 no_files ex_name
           ex_field ex_square 2%nat); by_computation.
Defined.

(* ===================================================================== *)
(** * Further properties of the codec *)
(* ===================================================================== *)

Section StreamExtension.
Context {A : Type} {E : Element A}.
Variable host : endian.
Variable d : dtype.
Hypothesis Hd : lawful (A:=A) d.

(** An array read in full is read the same way from a longer stream. *)
Lemma fromfile_more (fh rest junk : stream) (count : Z) (a : ndarray A) :
  fromfile fh d count = (a, rest) -> Z.of_nat (size a) = count ->
  fromfile (fh ++ junk) d count = (a, (rest ++ junk)%list).
Proof.
  intros Hf Hsize.
  destruct (fromfile_inv Hd _ Hf Hsize) as (Hfh & Hdt & Hsh & Hfix).
  rewrite Hfh, <- app_assoc, <- Hsize. unfold size.
  rewrite (fromfile_encode Hd). rewrite (map_cast_id d Hfix).
  destruct a as [da sa la]. cbn [dt shape data] in *. unfold size in Hsh. cbn [data] in Hsh. subst. reflexivity.
Qed.

Lemma _read_more (fh rest junk : stream) (count : Z) (a : ndarray A) :
  _read host fh d count = (a, rest) -> Z.of_nat (size a) = count ->
  _read host (fh ++ junk) d count = (a, (rest ++ junk)%list).
Proof.
  unfold _read. destruct (fromfile fh d count) as [b fh'] eqn:Hf.
  intros Heq Hsize. injection Heq as <- <-.
  assert (Hb : Z.of_nat (size b) = count).
  { unfold astype, size in *. cbn [data] in Hsize. now rewrite length_map in Hsize. }
  now rewrite (@fromfile_more _ _ junk _ _ Hf Hb).
Qed.

Lemma _read1_more (fh rest junk : stream) (x : A) :
  _read1 host fh d = OK (x, rest) ->
  _read1 host (fh ++ junk) d = OK (x, (rest ++ junk)%list).
Proof.
  intros H. destruct (_read1_inv host Hd _ H) as (-> & Hx).
  rewrite <- app_assoc, (_read1_encode host Hd). now rewrite Hx.
Qed.

(** A stream too short for one element. *)
Lemma _read1_short (fh : stream) :
  (length fh < itemsize d)%nat -> _read1 (A:=A) host fh d = Err ShortRead.
Proof.
  intros Hlen. unfold _read1, fromfile. cbn [Z.ltb].
  rewrite Nat.div_small by exact Hlen. reflexivity.
Qed.

(** Reading an element from a stream cut after [K] bytes. *)
Lemma _read1_cut_short (x : A) (rest : stream) (K : nat) :
  (K < itemsize d)%nat ->
  _read1 (A:=A) host (firstn K (encode d [x] ++ rest)) d = Err ShortRead.
Proof.
  intros HK. apply _read1_short. rewrite length_firstn. lia.
Qed.

Lemma _read1_cut_word (x : A) (rest : stream) (K : nat) :
  (itemsize d <= K)%nat ->
  _read1 host (firstn K (encode d [x] ++ rest)) d
  = OK (cast d x, firstn (K - itemsize d) rest).
Proof.
  intros HK.
  assert (Hlen : length (encode d [x]) = itemsize d)
    by (rewrite (length_encode Hd); cbn [length]; lia).
  rewrite firstn_app, firstn_all2, Hlen by lia.
  apply (_read1_encode host Hd).
Qed.

(** Reading the values [xs] from a stream cut inside them. *)
Lemma _read_cut_values (xs : list A) (rest : stream) (K : nat) :
  (K < length (encode d xs))%nat ->
  Z.of_nat (size (fst (_read (A:=A) host (firstn K (encode d xs ++ rest)) d
                         (Z.of_nat (length xs)))))
  <> Z.of_nat (length xs).
Proof.
  intros HK. apply (_read_short host Hd).
  rewrite length_firstn. rewrite (length_encode Hd) in HK. lia.
Qed.

Lemma fromfile_cut_values (xs : list A) (rest : stream) (K : nat) :
  (K < length (encode d xs))%nat ->
  Z.of_nat (size (fst (fromfile (A:=A) (firstn K (encode d xs ++ rest)) d
                         (Z.of_nat (length xs)))))
  <> Z.of_nat (length xs).
Proof.
  intros HK. pose proof (_read_cut_values xs rest HK) as H.
  unfold _read in H. destruct (fromfile _ d _) as [a f].
  cbn [fst] in *. unfold astype, size in *. cbn [data] in H. now rewrite length_map in H.
Qed.

(** A stream cut at or after the end of the values [xs] still holds them. *)
Lemma firstn_past (xs : list A) (rest : stream) (K : nat) :
  (length (encode d xs) <= K)%nat ->
  firstn K (encode d xs ++ rest) = (encode d xs ++ firstn (K - length (encode d xs)) rest)%list.
Proof. intros HK. now rewrite firstn_app, firstn_all2 by lia. Qed.

End StreamExtension.

Section Trailing.
Variable host : endian.
Variable stale : nat -> Z.
Variables (p : precision_t) (s : scalar_t) (i : indices_t).
Local Abbreviation self := (__init__ p s i).

Lemma read_axes_more k : forall ks ss fh ks' ss' rest junk,
  read_axes host self k ks ss fh = OK (ks', ss', rest) ->
  read_axes host self k ks ss (fh ++ junk) = OK (ks', ss', (rest ++ junk)%list).
Proof.
  induction k as [|k IH]; intros ks ss fh ks' ss' rest junk H; cbn [read_axes] in *.
  - injection H as <- <- <-. reflexivity.
  - destruct (_read1 host fh (Itype self)) as [[q fh1]|] eqn:Hq; [|discriminate].
    rewrite (@_read1_more _ _ host _ (lawful_I p s i) _ _ junk _ Hq). cbn [bind] in *.
    destruct (1 <=? q); [|discriminate].
    destruct (_read1 host fh1 (Itype self)) as [[m fh2]|] eqn:Hm; [|discriminate].
    rewrite (@_read1_more _ _ host _ (lawful_I p s i) _ _ junk _ Hm). cbn [bind] in *.
    destruct (2 <=? np_sub (Itype self) (np_sub (Itype self) m q) 1); [|discriminate].
    destruct (_read (A:=cfloat) host fh2 (Rtype self) m) as [U fh3] eqn:HU.
    destruct (Z.eqb_spec (Z.of_nat (size U)) m) as [Hsz|]; [|discriminate].
    rewrite (@_read_more _ _ host _ (lawful_R p s i) _ _ junk _ _ HU Hsz).
    rewrite Hsz, Z.eqb_refl. now apply IH.
Qed.

Lemma read_more fs filename F junk g :
  fs filename = Some F ->
  read host self fs filename = OK g ->
  read host self (fs_put fs filename (F ++ junk)) filename = OK g.
Proof.
  intros HF. unfold read, open_rb, fs_put. rewrite HF, String.eqb_refl. cbn [bind].
  destruct (_read1 host F (Itype self)) as [[magic fh1]|] eqn:H1; [|discriminate].
  rewrite (@_read1_more _ _ host _ (lawful_I p s i) _ _ junk _ H1). cbn [bind].
  destruct (magic =? IGA_ID); [|discriminate].
  destruct (_read1 host fh1 (Itype self)) as [[descr fh2]|] eqn:H2; [|discriminate].
  rewrite (@_read1_more _ _ host _ (lawful_I p s i) _ _ junk _ H2). cbn [bind].
  destruct (_read1 host fh2 (Itype self)) as [[dim fh3]|] eqn:H3; [|discriminate].
  rewrite (@_read1_more _ _ host _ (lawful_I p s i) _ _ junk _ H3). cbn [bind].
  destruct ((1 <=? dim) && (dim <=? 3)); [|discriminate].
  destruct (read_axes host self (Z.to_nat dim) [] [] fh3) as [[[ks ss] fh4]|] eqn:H4;
    [|discriminate].
  rewrite (@read_axes_more _ _ _ _ _ _ _ junk H4). cbn [bind].
  destruct (1 <=? np_abs (Itype self) descr); [|trivial].
  destruct (_read1 host fh4 (Itype self)) as [[nsd fh5]|] eqn:H5; [|discriminate].
  rewrite (@_read1_more _ _ host _ (lawful_I p s i) _ _ junk _ H5). cbn [bind].
  destruct ((dim <=? nsd) && (nsd <=? 3)); [|discriminate].
  destruct (_read1 host fh5 (Itype self)) as [[vec_id fh6]|] eqn:H6; [|discriminate].
  rewrite (@_read1_more _ _ host _ (lawful_I p s i) _ _ junk _ H6). cbn [bind].
  destruct (vec_id =? VEC_ID); [|discriminate].
  destruct (_read1 host fh6 (Itype self)) as [[n fh7]|] eqn:H7; [|discriminate].
  rewrite (@_read1_more _ _ host _ (lawful_I p s i) _ _ junk _ H7). cbn [bind].
  destruct (_read (A:=cfloat) host fh7 (Stype self) n) as [Cw fh8] eqn:H8.
  destruct (Z.eqb_spec (Z.of_nat (size Cw)) n) as [Hsz|]; [|discriminate].
  rewrite (@_read_more _ _ host _ (lawful_S p s i) _ _ junk _ _ H8 Hsz).
  rewrite Hsz, Z.eqb_refl. trivial.
Qed.

Lemma read_vec_more fs filename F junk nurbs A :
  fs filename = Some F ->
  read_vec host self fs filename nurbs = OK A ->
  read_vec host self (fs_put fs filename (F ++ junk)) filename nurbs = OK A.
Proof.
  intros HF. unfold read_vec, open_rb, fs_put. rewrite HF, String.eqb_refl. cbn [bind].
  destruct (_read1 host F (Itype self)) as [[magic fh1]|] eqn:H1; [|discriminate].
  rewrite (@_read1_more _ _ host _ (lawful_I p s i) _ _ junk _ H1). cbn [bind].
  destruct (magic =? VEC_ID); [|discriminate].
  destruct (_read1 host fh1 (Itype self)) as [[n fh2]|] eqn:H2; [|discriminate].
  rewrite (@_read1_more _ _ host _ (lawful_I p s i) _ _ junk _ H2). cbn [bind].
  destruct (_read (A:=cfloat) host fh2 (Stype self) n) as [V fh3] eqn:H3.
  destruct (Z.eqb_spec (Z.of_nat (size V)) n) as [Hsz|]; [|discriminate].
  rewrite (@_read_more _ _ host _ (lawful_S p s i) _ _ junk _ _ H3 Hsz).
  rewrite Hsz, Z.eqb_refl. trivial.
Qed.

(** [read_mat] on a longer file, when the file it has accepted holds the M
    row counts of its header. *)
Lemma read_mat_more fs filename F junk M N arrays :
  fs filename = Some F ->
  read_mat host stale self fs filename = OK ((M, N), arrays) ->
  (4 + M) * Z.of_nat (itemsize (Itype self)) <= Z.of_nat (length F) ->
  read_mat host stale self (fs_put fs filename (F ++ junk)) filename = OK ((M, N), arrays).
Proof.
  intros HF Hread Hlen. pose proof (lawful_pos (lawful_I p s i)) as Hpos.
  revert Hread.
  unfold read_mat, open_rb, fs_put. rewrite HF, String.eqb_refl. cbn [bind].
  destruct (_read1 host F (Itype self)) as [[magic fh1]|] eqn:H1; [|discriminate].
  rewrite (@_read1_more _ _ host _ (lawful_I p s i) _ _ junk _ H1). cbn [bind].
  destruct (magic =? MAT_ID); [|discriminate].
  destruct (_read (A:=Z) host fh1 (Itype self) 3) as [hdr fh2] eqn:H2.
  destruct (data hdr) as [|M' [|N' [|nz [|? ?]]]] eqn:Hhdr; try discriminate.
  assert (Hsz3 : Z.of_nat (size hdr) = 3) by (unfold size; now rewrite Hhdr).
  rewrite (@_read_more _ _ host _ (lawful_I p s i) _ _ junk _ _ H2 Hsz3), Hhdr.
  destruct (Z.leb_spec 0 (np_add (Itype self) M' 1)) as [HM1|]; [|discriminate].
  destruct (Z.eqb_spec (np_add (Itype self) M' 1) 0) as [|HM0]; [discriminate|]. cbn [negb].
  destruct (@_read1_inv _ _ host _ (lawful_I p s i) _ _ _ H1) as (HF1 & _).
  destruct (@_read_inv _ _ host _ (lawful_I p s i) _ _ _ _ H2 Hsz3) as (HF2 & _ & _ & Hfix).
  rewrite Hhdr in HF2, Hfix.
  assert (HM : representable self M').
  { inversion Hfix as [|? ? HMfix _]; subst. now apply representable_cast. }
  destruct (@rows_plus_one p s i M' HM HM1 HM0) as (HM' & HMpos).
  rewrite HM'. replace (Z.to_nat (M' + 1)) with (S (Z.to_nat M')) by lia.
  assert (HlenF : length F = (4 * itemsize (Itype self) + length fh2)%nat).
  { rewrite HF1, HF2, !length_app, !(length_encode (lawful_I p s i)). cbn [length]. lia. }
  destruct (_read (A:=Z) host fh2 (Itype self) M') as [rownz fh3] eqn:H3.
  intros Hread.
  assert (HMM : M' = M).
  { revert Hread. destruct (cumsum_into_tail _ _ _) as [AI|]; [cbn [bind]|discriminate].
    destruct (_ =? nz); [|discriminate].
    destruct (_read (A:=Z) host fh3 (Itype self) nz) as [AJ fh4].
    destruct (_ =? nz); [|discriminate].
    destruct (fromfile (A:=cfloat) fh4 (Stype self) nz) as [AV fh5].
    destruct (_ =? nz); [|discriminate].
    intros H. now injection H. }
  subst M'.
  assert (Hrows : Z.of_nat (size rownz) = M).
  { destruct (data rownz) as [|x l] eqn:Hrow.
    - destruct (Z.eq_dec M 0) as [->|Hne]; [unfold size; now rewrite Hrow|].
      exfalso.
      destruct (@_read_nothing host Z _ (Itype self) fh2 fh3 M rownz Hpos H3) as (_ & Hshort);
        [lia | exact Hrow |]. nia.
    - revert Hread. unfold cumsum_into_tail. rewrite Hrow, size_row_pointer.
      destruct (Nat.eqb_spec (size rownz) (S (Z.to_nat M) - 1)); [|discriminate].
      intros _. lia. }
  rewrite (@_read_more _ _ host _ (lawful_I p s i) _ _ junk _ _ H3 Hrows).
  revert Hread. destruct (cumsum_into_tail _ _ _) as [AI|]; [cbn [bind]|discriminate].
  destruct (last (data AI) 0 =? nz); [|discriminate].
  destruct (_read (A:=Z) host fh3 (Itype self) nz) as [AJ fh4] eqn:H4.
  destruct (Z.eqb_spec (Z.of_nat (size AJ)) nz) as [Hcol|]; [|discriminate].
  rewrite (@_read_more _ _ host _ (lawful_I p s i) _ _ junk _ _ H4 Hcol).
  rewrite Hcol, Z.eqb_refl.
  destruct (fromfile (A:=cfloat) fh4 (Stype self) nz) as [AV fh5] eqn:H5.
  destruct (Z.eqb_spec (Z.of_nat (size AV)) nz) as [Hval|]; [|discriminate].
  rewrite (@fromfile_more _ _ _ (lawful_S p s i) _ _ junk _ _ H5 Hval).
  rewrite Hval, Z.eqb_refl. trivial.
Qed.

End Trailing.

(** X1.  The readers do not look past the data they decode: a file that
    [read] or [read_vec] accepts is accepted, with the same result,
    whatever bytes are appended to it, and so is a file that [read_mat]
    accepts if it holds the M row counts its header announces.  None of
    them checks that the end of the file has been reached.  (A file that
    ends before its first row count can be accepted by [read_mat] with a
    row pointer that was never written; bytes appended to it are read as
    row counts.) *)
Theorem readers_ignore_trailing_bytes :
  forall (host : endian) (stale : nat -> Z)
         (p : precision_t) (s : scalar_t) (i : indices_t)
         (fs : filesystem) (filename : string) (F junk : list byte),
    fs filename = Some F ->
    (forall g,
        read host (__init__ p s i) fs filename = OK g ->
        read host (__init__ p s i) (fs_put fs filename (F ++ junk)) filename = OK g)
    /\ (forall nurbs A,
        read_vec host (__init__ p s i) fs filename nurbs = OK A ->
        read_vec host (__init__ p s i) (fs_put fs filename (F ++ junk)) filename nurbs = OK A)
    /\ (forall M N arrays,
        read_mat host stale (__init__ p s i) fs filename = OK ((M, N), arrays) ->
        (4 + M) * Z.of_nat (itemsize (Itype (__init__ p s i))) <= Z.of_nat (length F) ->
        read_mat host stale (__init__ p s i) (fs_put fs filename (F ++ junk)) filename
        = OK ((M, N), arrays)).
Proof.
  intros host stale p s i fs filename F junk HF. split; [|split].
  - intros g. now apply read_more.
  - intros nurbs A. now apply read_vec_more.
  - intros M N arrays. now apply read_mat_more.
Qed.

Lemma readers_ignore_trailing_bytes_witness :
  (exists g,
      read LittleEndian ex_self (one_file ex_name ex_line_file) ex_name = OK g
      /\ read LittleEndian ex_self
           (fs_put (one_file ex_name ex_line_file) ex_name
              (ex_line_file ++ [Byte.xff; Byte.x00; Byte.x2a])) ex_name = OK g)
  /\ (exists arrays,
      read_mat LittleEndian (fun _ => 0) ex_self (one_file ex_name ex_matrix_file) ex_name
      = OK ((2, 2), arrays)
      /\ read_mat LittleEndian (fun _ => 0) ex_self
           (fs_put (one_file ex_name ex_matrix_file) ex_name
              (ex_matrix_file ++ [Byte.xff; Byte.x00; Byte.x2a])) ex_name
         = OK ((2, 2), arrays)).
Proof.
  split.
  - eexists. split; [vm_compute; reflexivity|].
    apply (proj1 (@readers_ignore_trailing_bytes LittleEndian (fun _ => 0) double real bit32
                    (one_file ex_name ex_line_file) ex_name ex_line_file
                    [Byte.xff; Byte.x00; Byte.x2a] eq_refl)).
    vm_compute. reflexivity.
  - eexists. split; [vm_compute; reflexivity|].
    apply (proj2 (proj2 (@readers_ignore_trailing_bytes LittleEndian (fun _ => 0) double
                    real bit32
                    (one_file ex_name ex_matrix_file) ex_name ex_matrix_file
                    [Byte.xff; Byte.x00; Byte.x2a] eq_refl))).
    + vm_compute. reflexivity.
    + vm_compute. discriminate.
Defined.

Lemma array_equal_as_read d (ks : list (ndarray cfloat)) :
  Forall (fun U => shape U = [size U]) ks ->
  Forall2 array_equal (map (as_read d) ks) ks.
Proof.
  induction 1 as [|U ks HU _ IH]; cbn [map]; constructor; [|exact IH].
  split; [now rewrite HU | reflexivity].
Qed.

(** X2.  Topology round trip: [write] without control data followed by
    [read] returns the knot vectors of the geometry, as 1-D arrays of the
    Real type in host byte order, and no control array. *)
Theorem topology_roundtrip :
  forall (host : endian) (p : precision_t) (s : scalar_t) (i : indices_t)
         (fs : filesystem) (filename : string) (g : NURBS) (c : ndarray cfloat),
    valid_geometry (__init__ p s i) g c ->
    Forall (fun U => representable (__init__ p s i) (Z.of_nat (size U))) (knots g) ->
    exists fs' g',
      write host (__init__ p s i) fs filename g false None = (fs', OK tt)
      /\ read host (__init__ p s i) fs' filename = OK g'
      /\ control g' = None
      /\ NURBS_dim g' = NURBS_dim g
      /\ Forall2 array_equal (knots g') (knots g)
      /\ Forall (fun U => dt U = newbyteorder (Rtype (__init__ p s i)) host) (knots g').
Proof.
  intros host p s i fs filename g c Hv Hrep.
  destruct Hv as [Hc Hwf Hdim Hs Hrank H1d Hdeg Hsz Hrk Hrc].
  assert (Hdegrees : NURBS_degree g = degrees (knots g) (NURBS_shape g)) by reflexivity.
  rewrite Hdegrees in Hdeg.
  destruct (@axes_facts host p s i (knots g) (NURBS_shape g) Hrank Hdeg Hsz Hrep Hrk)
    as (Hlen & Hax & _ & Hknots).
  eexists. eexists. split; [apply write_topology|]. split.
  - apply (@read_topology_bytes host p s i _ filename 0
             (List.combine (degrees (knots g) (NURBS_shape g)) (knots g)) []).
    + unfold fs_put. rewrite String.eqb_refl, Hlen. reflexivity.
    + unfold NURBS_dim in Hdim. lia.
    + exact Hax.
    + apply representable_small. lia.
    + rewrite np_abs_small by (apply representable_small; simpl; lia). simpl. lia.
  - cbn [control knots]. rewrite Hknots. split; [reflexivity|]. split; [|split].
    + unfold NURBS_dim. cbn [knots]. now rewrite length_map.
    + now apply array_equal_as_read.
    + apply Forall_map. apply Forall_forall. intros U _. reflexivity.
Qed.

Lemma topology_roundtrip_witness :
  exists fs' g',
    write LittleEndian ex_self no_files ex_name ex_square false None = (fs', OK tt)
    /\ read LittleEndian ex_self fs' ex_name = OK g'
    /\ control g' = None
    /\ NURBS_dim g' = NURBS_dim ex_square
    /\ Forall2 array_equal (knots g') (knots ex_square)
    /\ Forall (fun U => dt U = newbyteorder (Rtype ex_self) LittleEndian) (knots g').
Proof.
  apply (@topology_roundtrip LittleEndian double real bit32 no_files ex_name
           ex_square ex_square_control).
  - valid_by_computation.
  - by_computation.
Defined.

Section StreamPrefix.
Context {A : Type} {E : Element A}.
Variable host : endian.
Variable d : dtype.
Hypothesis Hd : lawful (A:=A) d.

(** Reading one element from a prefix of a stream: the stream is too short,
    or the element and what follows it are those of the whole stream. *)
Lemma _read1_prefix (fhP Q restF : stream) (x : A) :
  _read1 host (fhP ++ Q) d = OK (x, restF) ->
  _read1 host fhP d = Err ShortRead
  \/ exists r, _read1 host fhP d = OK (x, r) /\ restF = (r ++ Q)%list.
Proof.
  intros HF. destruct (_read1 host fhP d) as [[y r]|e] eqn:HP.
  - right. rewrite (@_read1_more _ _ host _ Hd _ _ Q _ HP) in HF.
    injection HF as <- <-. eauto.
  - left. unfold _read1 in HP. destruct (fromfile fhP d 1) as [a f].
    destruct (data a); [injection HP as <-; reflexivity | discriminate].
Qed.

Lemma _read_prefix (fhP Q restF : stream) (count : Z) (a : ndarray A) :
  _read host (fhP ++ Q) d count = (a, restF) ->
  Z.of_nat (size (fst (_read (A:=A) host fhP d count))) <> count
  \/ exists r, _read host fhP d count = (a, r) /\ restF = (r ++ Q)%list.
Proof.
  intros HF. destruct (_read host fhP d count) as [b r] eqn:HP. cbn [fst].
  destruct (Z.eq_dec (Z.of_nat (size b)) count) as [Heq|Hne]; [right | now left].
  rewrite (@_read_more _ _ host _ Hd _ _ Q _ _ HP Heq) in HF.
  injection HF as <- <-. eauto.
Qed.

Lemma fromfile_prefix (fhP Q restF : stream) (count : Z) (a : ndarray A) :
  fromfile (fhP ++ Q) d count = (a, restF) ->
  Z.of_nat (size (fst (fromfile (A:=A) fhP d count))) <> count
  \/ exists r, fromfile fhP d count = (a, r) /\ restF = (r ++ Q)%list.
Proof.
  intros HF. destruct (fromfile fhP d count) as [b r] eqn:HP. cbn [fst].
  destruct (Z.eq_dec (Z.of_nat (size b)) count) as [Heq|Hne]; [right | now left].
  rewrite (@fromfile_more _ _ _ Hd _ _ Q _ _ HP Heq) in HF.
  injection HF as <- <-. eauto.
Qed.

End StreamPrefix.

Lemma firstn_proper {T : Type} (l : list T) K :
  (K < length l)%nat -> exists Q, l = (firstn K l ++ Q)%list /\ Q <> [].
Proof.
  intros HK. exists (skipn K l). split; [symmetry; apply firstn_skipn|].
  intros HQ. apply (f_equal (@length T)) in HQ. rewrite length_skipn in HQ.
  cbn in HQ. lia.
Qed.

Section Truncation.
Variable host : endian.
Variables (p : precision_t) (s : scalar_t) (i : indices_t).
Local Abbreviation self := (__init__ p s i).

(** The loop of [read] on a prefix of a stream it goes through. *)
Lemma read_axes_prefix_cases k : forall ks ss fhP Q ks' ss' restF,
  read_axes host self k ks ss (fhP ++ Q) = OK (ks', ss', restF) ->
  read_axes host self k ks ss fhP = Err ShortRead
  \/ read_axes host self k ks ss fhP = Err SizeMismatch
  \/ exists r, read_axes host self k ks ss fhP = OK (ks', ss', r) /\ restF = (r ++ Q)%list.
Proof.
  induction k as [|k IH]; intros ks ss fhP Q ks' ss' restF HF; cbn [read_axes] in *.
  - injection HF as <- <- <-. right. right. eauto.
  - destruct (_read1 host (fhP ++ Q) (Itype self)) as [[q f1]|] eqn:Hq; [|discriminate].
    cbn [bind] in HF.
    destruct (@_read1_prefix _ _ host _ (lawful_I p s i) _ _ _ _ Hq) as [-> | (r1 & -> & ->)];
      [now left|]. cbn [bind].
    destruct (1 <=? q); [|discriminate].
    destruct (_read1 host (r1 ++ Q) (Itype self)) as [[m f2]|] eqn:Hm; [|discriminate].
    cbn [bind] in HF.
    destruct (@_read1_prefix _ _ host _ (lawful_I p s i) _ _ _ _ Hm) as [-> | (r2 & -> & ->)];
      [now left|]. cbn [bind].
    destruct (2 <=? np_sub (Itype self) (np_sub (Itype self) m q) 1); [|discriminate].
    destruct (_read (A:=cfloat) host (r2 ++ Q) (Rtype self) m) as [U f3] eqn:HU.
    destruct (Z.eqb_spec (Z.of_nat (size U)) m) as [Hsz|]; [|discriminate].
    destruct (@_read_prefix _ _ host _ (lawful_R p s i) _ _ _ _ _ HU) as [Hne | (r3 & HP & ->)].
    + right. left. destruct (_read host r2 (Rtype self) m) as [V f]. cbn [fst] in Hne.
      destruct (Z.eqb_spec (Z.of_nat (size V)) m); [contradiction | reflexivity].
    + rewrite HP. destruct (Z.eqb_spec (Z.of_nat (size U)) m); [|contradiction].
      now apply IH.
Qed.

(** [read] on a proper prefix of a file laid out in the geometry format,
    with its control block or without control data. *)
Lemma read_truncated_layout fs filename descr axes nsd values tail K :
  (1 <= length axes <= 3)%nat -> Forall (axis_ok self) axes ->
  representable self descr ->
  (np_abs (Itype self) descr < 1 /\ tail = [])
  \/ (1 <= np_abs (Itype self) descr /\ tail = control_bytes self nsd values
      /\ Z.of_nat (length axes) <= nsd <= 3
      /\ representable self (Z.of_nat (length values))) ->
  (K < length (geometry_bytes self IGA_ID descr (Z.of_nat (length axes)) axes tail))%nat ->
  fs filename
  = Some (firstn K (geometry_bytes self IGA_ID descr (Z.of_nat (length axes)) axes tail)) ->
  read host self fs filename = Err ShortRead
  \/ read host self fs filename = Err SizeMismatch.
Proof.
  intros Hdim Hax Hdescr Htail HK Hfs.
  pose proof (index_bound_ge p s i) as Hb.
  destruct (firstn_proper _ HK) as (Q & HPQ & HQ).
  set (P := firstn K _) in *. clearbody P.
  unfold read, open_rb. rewrite Hfs. cbn [bind].
  unfold geometry_bytes in HPQ.
  (* magic *)
  assert (G1 := _read1_encode host (lawful_I p s i) IGA_ID
                  (encode (Itype self) [descr] ++ encode (Itype self) [Z.of_nat (length axes)]
                   ++ flat_map (axis_bytes self) axes ++ tail)).
  rewrite HPQ in G1.
  rewrite cast_I in G1 by (apply representable_small; unfold IGA_ID; lia).
  destruct (@_read1_prefix _ _ host _ (lawful_I p s i) _ _ _ _ G1) as [-> | (r1 & -> & E1)];
    [now left|]. cbn [bind]. rewrite Z.eqb_refl.
  (* descriptor *)
  assert (G2 := _read1_encode host (lawful_I p s i) descr
                  (encode (Itype self) [Z.of_nat (length axes)]
                   ++ flat_map (axis_bytes self) axes ++ tail)).
  rewrite E1, (cast_I Hdescr) in G2.
  destruct (@_read1_prefix _ _ host _ (lawful_I p s i) _ _ _ _ G2) as [-> | (r2 & -> & E2)];
    [now left|]. cbn [bind].
  (* dimension *)
  assert (G3 := _read1_encode host (lawful_I p s i) (Z.of_nat (length axes))
                  (flat_map (axis_bytes self) axes ++ tail)).
  rewrite E2 in G3. rewrite cast_I in G3 by (apply representable_small; lia).
  destruct (@_read1_prefix _ _ host _ (lawful_I p s i) _ _ _ _ G3) as [-> | (r3 & -> & E3)];
    [now left|]. cbn [bind].
  destruct (Z.leb_spec 1 (Z.of_nat (length axes))); [|lia].
  destruct (Z.leb_spec (Z.of_nat (length axes)) 3); [|lia]. cbn [andb].
  (* axes *)
  assert (G4 := @read_axes_encode host p s i axes Hax [] [] tail).
  rewrite E3 in G4. rewrite Nat2Z.id.
  destruct (read_axes_prefix_cases _ _ _ _ _ G4) as [-> | [-> | (r4 & -> & E4)]];
    [now left | now right |]. cbn [bind app].
  destruct Htail as [(Habs & ->) | (Habs & -> & Hnsd & Hlen)].
  { symmetry in E4. apply app_eq_nil in E4. now destruct E4. }
  destruct (Z.leb_spec 1 (np_abs (Itype self) descr)); [|lia].
  unfold control_bytes in E4.
  (* saved spatial dimensions *)
  assert (G5 := _read1_encode host (lawful_I p s i) nsd
                  (encode (Itype self) [VEC_ID]
                   ++ encode (Itype self) [Z.of_nat (length values)]
                   ++ encode (Stype self) values)).
  rewrite E4 in G5. rewrite cast_I in G5 by (apply representable_small; lia).
  destruct (@_read1_prefix _ _ host _ (lawful_I p s i) _ _ _ _ G5) as [-> | (r5 & -> & E5)];
    [now left|]. cbn [bind].
  destruct (Z.leb_spec (Z.of_nat (length axes)) nsd); [|lia].
  destruct (Z.leb_spec nsd 3); [|lia]. cbn [andb].
  (* vector magic *)
  assert (G6 := _read1_encode host (lawful_I p s i) VEC_ID
                  (encode (Itype self) [Z.of_nat (length values)]
                   ++ encode (Stype self) values)).
  rewrite E5 in G6. rewrite cast_I in G6 by (apply representable_small; unfold VEC_ID; lia).
  destruct (@_read1_prefix _ _ host _ (lawful_I p s i) _ _ _ _ G6) as [-> | (r6 & -> & E6)];
    [now left|]. cbn [bind]. rewrite Z.eqb_refl.
  (* count *)
  assert (G7 := _read1_encode host (lawful_I p s i) (Z.of_nat (length values))
                  (encode (Stype self) values)).
  rewrite E6, (cast_I Hlen) in G7.
  destruct (@_read1_prefix _ _ host _ (lawful_I p s i) _ _ _ _ G7) as [-> | (r7 & -> & E7)];
    [now left|]. cbn [bind].
  (* values *)
  assert (G8 := _read_encode host (lawful_S p s i) values []).
  rewrite app_nil_r, E7 in G8.
  destruct (@_read_prefix _ _ host _ (lawful_S p s i) _ _ _ _ _ G8) as [Hne | (r8 & _ & E8)].
  - right. destruct (_read host r7 (Stype self) (Z.of_nat (length values))) as [V f].
    cbn [fst] in Hne.
    destruct (Z.eqb_spec (Z.of_nat (size V)) (Z.of_nat (length values)));
      [contradiction | reflexivity].
  - symmetry in E8. apply app_eq_nil in E8. now destruct E8.
Qed.

(** [read] on a file whose header and axes are valid and whose descriptor
    announces control data: what is left is the control block. *)
Lemma read_to_control_block fs filename descr axes tail :
  fs filename = Some (geometry_bytes self IGA_ID descr (Z.of_nat (length axes)) axes tail) ->
  (1 <= length axes <= 3)%nat -> Forall (axis_ok self) axes ->
  representable self descr -> 1 <= np_abs (Itype self) descr ->
  read host self fs filename
  = (Cw <- (' (nsd, fh) <- _read1 host tail (Itype self) ;;
            ensure (Z.of_nat (length axes) <=? nsd) && (nsd <=? 3)
              orelse DimensionOutOfRange ;;
            ' (vec_id, fh) <- _read1 host fh (Itype self) ;;
            ensure vec_id =? VEC_ID orelse BadMagic ;;
            ' (n, fh) <- _read1 host fh (Itype self) ;;
            let '(Cw, fh) := _read (A:=cfloat) host fh (Stype self) n in
            ensure Z.of_nat (size Cw) =? n orelse SizeMismatch ;;
            OK (Some (nsd, Cw))) ;;
     control <- match Cw with
                | Some (nsd, Cw) =>
                  control <- reconstruct (Itype self) nsd (map size_read axes) Cw ;;
                  OK (Some control)
                | None => OK None
                end ;;
     OK (mk_NURBS (map (knots_read host self) axes) control)).
Proof.
  intros Hfs Hdim Hax Hdescr Habs.
  pose proof (index_bound_ge p s i) as Hb.
  unfold read, open_rb. rewrite Hfs. cbn [bind]. unfold geometry_bytes.
  rewrite (_read1_encode host (lawful_I p s i)). cbn [bind].
  rewrite cast_I by (apply representable_small; unfold IGA_ID; lia).
  rewrite Z.eqb_refl.
  rewrite (_read1_encode host (lawful_I p s i)). cbn [bind].
  rewrite (cast_I Hdescr).
  rewrite (_read1_encode host (lawful_I p s i)). cbn [bind].
  rewrite cast_I by (apply representable_small; lia).
  destruct (Z.leb_spec 1 (Z.of_nat (length axes))); [|lia].
  destruct (Z.leb_spec (Z.of_nat (length axes)) 3); [|lia]. cbn [andb].
  rewrite Nat2Z.id, (read_axes_encode host Hax). cbn [bind app].
  destruct (Z.leb_spec 1 (np_abs (Itype self) descr)); [|lia].
  reflexivity.
Qed.

(** [read] on a file cut inside its first three words. *)
Lemma read_cut_in_header fs filename descr dim rest K :
  representable self descr -> representable self dim ->
  (K < 3 * itemsize (Itype self))%nat ->
  fs filename = Some (firstn K (geometry_bytes self IGA_ID descr dim [] rest)) ->
  read host self fs filename = Err ShortRead.
Proof.
  intros Hdescr Hdim HK Hfs. unfold read, open_rb. rewrite Hfs. cbn [bind].
  unfold geometry_bytes. cbn [flat_map app].
  destruct (Nat.lt_ge_cases K (itemsize (Itype self))) as [H1|H1].
  { now rewrite (@_read1_cut_short _ _ host _ _ _ _ H1). }
  rewrite (@_read1_cut_word _ _ host _ (lawful_I p s i) _ _ _ H1). cbn [bind].
  rewrite cast_I by (apply representable_small; unfold IGA_ID; lia).
  rewrite Z.eqb_refl.
  destruct (Nat.lt_ge_cases (K - itemsize (Itype self)) (itemsize (Itype self))) as [H2|H2].
  { now rewrite (@_read1_cut_short _ _ host _ _ _ _ H2). }
  rewrite (@_read1_cut_word _ _ host _ (lawful_I p s i) _ _ _ H2). cbn [bind].
  rewrite (@_read1_cut_short Z _ host) by lia. reflexivity.
Qed.

(** [read] on a file cut inside the degree or the knot-count word of the
    axis that follows the valid axes [a1]. *)
Lemma read_cut_in_axis_header fs filename descr dim a1 q (m : Z) rest K :
  representable self descr -> 1 <= dim <= 3 ->
  Forall (axis_ok self) a1 -> Z.of_nat (length a1) < dim ->
  representable self q -> 1 <= q ->
  (K < 2 * itemsize (Itype self))%nat ->
  fs filename = Some (geometry_bytes self IGA_ID descr dim a1
                        (firstn K (encode (Itype self) [q] ++ encode (Itype self) [m]
                                   ++ rest))) ->
  read host self fs filename = Err ShortRead.
Proof.
  intros Hdescr Hdim Hax Hlen Hq Hq1 HK Hfs.
  eapply (@read_axes_prefix host p s i fs filename descr dim a1
            (S (Z.to_nat dim - length a1 - 1))); try eassumption; [lia|].
  intros ks ss. cbn [read_axes].
  destruct (Nat.lt_ge_cases K (itemsize (Itype self))) as [H1|H1].
  { now rewrite (@_read1_cut_short _ _ host _ _ _ _ H1). }
  rewrite (@_read1_cut_word _ _ host _ (lawful_I p s i) _ _ _ H1). cbn [bind].
  rewrite (cast_I Hq). destruct (Z.leb_spec 1 q); [|lia].
  rewrite (@_read1_cut_short Z _ host) by lia. reflexivity.
Qed.

(** [read] on a file cut inside the three words that start the control
    block. *)
Lemma read_cut_in_control_header fs filename descr axes nsd values K :
  (1 <= length axes <= 3)%nat -> Forall (axis_ok self) axes ->
  representable self descr -> 1 <= np_abs (Itype self) descr ->
  Z.of_nat (length axes) <= nsd <= 3 ->
  (K < 3 * itemsize (Itype self))%nat ->
  fs filename = Some (geometry_bytes self IGA_ID descr (Z.of_nat (length axes)) axes
                        (firstn K (control_bytes self nsd values))) ->
  read host self fs filename = Err ShortRead.
Proof.
  intros Hdim Hax Hdescr Habs Hnsd HK Hfs.
  rewrite (@read_to_control_block _ _ _ _ _ Hfs Hdim Hax Hdescr Habs).
  unfold control_bytes.
  destruct (Nat.lt_ge_cases K (itemsize (Itype self))) as [H1|H1].
  { now rewrite (@_read1_cut_short _ _ host _ _ _ _ H1). }
  rewrite (@_read1_cut_word _ _ host _ (lawful_I p s i) _ _ _ H1). cbn [bind].
  rewrite cast_I by (apply representable_small; lia).
  destruct (Z.leb_spec (Z.of_nat (length axes)) nsd); [|lia].
  destruct (Z.leb_spec nsd 3); [|lia]. cbn [andb].
  destruct (Nat.lt_ge_cases (K - itemsize (Itype self)) (itemsize (Itype self))) as [H2|H2].
  { now rewrite (@_read1_cut_short _ _ host _ _ _ _ H2). }
  rewrite (@_read1_cut_word _ _ host _ (lawful_I p s i) _ _ _ H2). cbn [bind].
  rewrite cast_I by (apply representable_small; unfold VEC_ID; lia).
  rewrite Z.eqb_refl.
  rewrite (@_read1_cut_short Z _ host) by lia. reflexivity.
Qed.

(** [read] on a file cut inside the control values. *)
Lemma read_cut_in_control_values fs filename descr axes nsd values K :
  (1 <= length axes <= 3)%nat -> Forall (axis_ok self) axes ->
  representable self descr -> 1 <= np_abs (Itype self) descr ->
  Z.of_nat (length axes) <= nsd <= 3 ->
  representable self (Z.of_nat (length values)) ->
  (3 * itemsize (Itype self) <= K < length (control_bytes self nsd values))%nat ->
  fs filename = Some (geometry_bytes self IGA_ID descr (Z.of_nat (length axes)) axes
                        (firstn K (control_bytes self nsd values))) ->
  read host self fs filename = Err SizeMismatch.
Proof.
  intros Hdim Hax Hdescr Habs Hnsd Hlen [HK1 HK2] Hfs.
  rewrite (@read_to_control_block _ _ _ _ _ Hfs Hdim Hax Hdescr Habs).
  unfold control_bytes in *.
  rewrite !length_app, !(length_encode (lawful_I p s i)), (length_encode (lawful_S p s i))
    in HK2. cbn [length] in HK2.
  rewrite (@_read1_cut_word Z _ host _ (lawful_I p s i)) by lia. cbn [bind].
  rewrite cast_I by (apply representable_small; lia).
  destruct (Z.leb_spec (Z.of_nat (length axes)) nsd); [|lia].
  destruct (Z.leb_spec nsd 3); [|lia]. cbn [andb].
  rewrite (@_read1_cut_word Z _ host _ (lawful_I p s i)) by lia. cbn [bind].
  rewrite cast_I by (apply representable_small; unfold VEC_ID; lia).
  rewrite Z.eqb_refl.
  rewrite (@_read1_cut_word Z _ host _ (lawful_I p s i)) by lia. cbn [bind].
  rewrite (cast_I Hlen).
  pose proof (@_read_cut_values cfloat _ host (Stype self) (lawful_S p s i) values []
                (K - itemsize (Itype self) - itemsize (Itype self) - itemsize (Itype self))%nat)
    as Hne.
  rewrite app_nil_r in Hne. rewrite (length_encode (lawful_S p s i)) in Hne.
  destruct (_read host _ (Stype self) (Z.of_nat (length values))) as [V f].
  cbn [fst] in Hne.
  destruct (Z.eqb_spec (Z.of_nat (size V)) (Z.of_nat (length values))) as [Heq|];
    [|reflexivity].
  exfalso. apply Hne; [lia | exact Heq].
Qed.

(** Where a geometry file is cut decides how [read] fails on it. *)
Lemma read_cut_layout fs filename descr axes tail K :
  (1 <= length axes <= 3)%nat -> Forall (axis_ok self) axes ->
  representable self descr ->
  fs filename
  = Some (firstn K (geometry_bytes self IGA_ID descr (Z.of_nat (length axes)) axes tail)) ->
  ((K < 3 * itemsize (Itype self))%nat -> read host self fs filename = Err ShortRead)
  /\ (forall j : nat,
        (j < length axes)%nat ->
        (3 * itemsize (Itype self)
         + list_sum (map (axis_length self) (map snd (firstn j axes))) <= K)%nat ->
        (K < 3 * itemsize (Itype self)
             + list_sum (map (axis_length self) (map snd (firstn j axes)))
             + 2 * itemsize (Itype self))%nat ->
        read host self fs filename = Err ShortRead)
  /\ (forall nsd values,
        1 <= np_abs (Itype self) descr -> tail = control_bytes self nsd values ->
        Z.of_nat (length axes) <= nsd <= 3 ->
        (3 * itemsize (Itype self)
         + list_sum (map (axis_length self) (map snd axes)) <= K)%nat ->
        ((K < 3 * itemsize (Itype self)
              + list_sum (map (axis_length self) (map snd axes))
              + 3 * itemsize (Itype self))%nat ->
         read host self fs filename = Err ShortRead)
        /\ (representable self (Z.of_nat (length values)) ->
            (3 * itemsize (Itype self)
             + list_sum (map (axis_length self) (map snd axes))
             + 3 * itemsize (Itype self) <= K)%nat ->
            (K < length (geometry_bytes self IGA_ID descr (Z.of_nat (length axes)) axes
                           tail))%nat ->
            read host self fs filename = Err SizeMismatch)).
Proof.
  intros Hdim Hax Hdescr Hfs.
  pose proof (index_bound_ge p s i) as Hb.
  split; [|split].
  - intros HK. unfold geometry_bytes in Hfs.
    apply (@read_cut_in_header fs filename descr (Z.of_nat (length axes))
             (flat_map (axis_bytes self) axes ++ tail) K); try assumption.
    apply representable_small. lia.
  - intros j Hj Hlo Hhi.
    set (d0 := (0, mk_ndarray (Rtype self) [] []) : Z * ndarray cfloat).
    assert (Hax' := Hax). rewrite (list_split_at axes d0 Hj) in Hax'.
    rewrite (list_split_at axes d0 Hj) in Hfs at 2.
    set (a1 := firstn j axes) in *. destruct (nth j axes d0) as [q U] eqn:HqU.
    apply Forall_app in Hax'. destruct Hax' as [Ha1 Ha2].
    inversion Ha2 as [|? ? HqUok _]; subst. destruct HqUok as (Hq1 & _ & _).
    cbn [fst snd] in Hq1.
    set (P := geometry_bytes self IGA_ID descr (Z.of_nat (length axes)) a1 []) in *.
    assert (Hsplit :
      geometry_bytes self IGA_ID descr (Z.of_nat (length axes))
        (a1 ++ (q, U) :: skipn (S j) axes) tail
      = (P ++ (encode (Itype self) [q] ++ encode (Itype self) [Z.of_nat (size U)]
               ++ (encode (Rtype self) (data U)
                   ++ flat_map (axis_bytes self) (skipn (S j) axes) ++ tail)))%list).
    { unfold P, geometry_bytes. rewrite flat_map_app. cbn [flat_map].
      unfold axis_bytes at 2. cbn [fst snd]. rewrite app_nil_r. now rewrite <- !app_assoc. }
    rewrite Hsplit in Hfs. clear Hsplit.
    assert (HP : length P = (3 * itemsize (Itype self)
                 + list_sum (map (axis_length self) (map snd a1)))%nat).
    { unfold P. rewrite length_geometry_bytes. cbn [length]. lia. }
    rewrite firstn_app, firstn_all2 in Hfs by lia.
    unfold P in Hfs. rewrite <- geometry_bytes_tail in Hfs. cbn [app] in Hfs.
    eapply (@read_cut_in_axis_header fs filename descr _ a1 q _ _ (K - length P));
      try eassumption; try lia.
    + unfold a1. rewrite length_firstn. lia.
    + pose proof (index_bound_ge p s i).
      assert (Hok : axis_ok self (q, U)) by (inversion Ha2; assumption).
      destruct Hok as (? & ? & ?). cbn [fst snd] in *. unfold representable in *. lia.
  - intros nsd values Habs -> Hnsd Hlo.
    set (P := geometry_bytes self IGA_ID descr (Z.of_nat (length axes)) axes []) in *.
    assert (Hsplit :
      geometry_bytes self IGA_ID descr (Z.of_nat (length axes)) axes
        (control_bytes self nsd values)
      = (P ++ control_bytes self nsd values)%list).
    { unfold P. now rewrite <- geometry_bytes_tail. }
    assert (HP : length P = (3 * itemsize (Itype self)
                 + list_sum (map (axis_length self) (map snd axes)))%nat).
    { unfold P. rewrite length_geometry_bytes. cbn [length]. lia. }
    rewrite Hsplit in *.
    rewrite firstn_app, firstn_all2 in Hfs by lia.
    unfold P in Hfs. rewrite <- geometry_bytes_tail in Hfs. cbn [app] in Hfs.
    split.
    + intros Hhi.
      eapply (@read_cut_in_control_header fs filename descr axes nsd values (K - length P));
        try eassumption. lia.
    + intros Hlen Hlo' Hhi. rewrite length_app in Hhi.
      eapply (@read_cut_in_control_values fs filename descr axes nsd values (K - length P));
        try eassumption. lia.
Qed.

End Truncation.

(** X3.  Truncation is detected: no proper prefix of a file that [write]
    made of a valid geometry, with or without control data, is decoded by
    [read].  The call fails with ShortRead when the file ends inside a
    header word (the three leading words, the degree or the knot count of
    an axis, the three words that start the control block) and with
    SizeMismatch when it ends inside the knot values of an axis or inside
    the control values. *)
Theorem truncated_geometry_file_rejected :
  forall (host : endian) (p : precision_t) (s : scalar_t) (i : indices_t)
         (fs : filesystem) (filename : string) (g : NURBS) (c : ndarray cfloat)
         (geometry : bool) (nsd : option Z) (fs1 : filesystem) (F : list byte),
    valid_geometry (__init__ p s i) g c ->
    fits_index (__init__ p s i) g (effective_nsd g nsd) ->
    write host (__init__ p s i) fs filename g geometry nsd = (fs1, OK tt) ->
    fs1 filename = Some F ->
    forall (fs2 : filesystem) (name : string) (K : nat),
      (K < length F)%nat ->
      fs2 name = Some (firstn K F) ->
      (read host (__init__ p s i) fs2 name = Err ShortRead
       \/ read host (__init__ p s i) fs2 name = Err SizeMismatch)
      /\ ((K < 3 * itemsize (Itype (__init__ p s i)))%nat ->
          read host (__init__ p s i) fs2 name = Err ShortRead)
      /\ (forall j : nat,
            (j < length (knots g))%nat ->
            ((axis_start (__init__ p s i) g j <= K < knots_start (__init__ p s i) g j)%nat ->
             read host (__init__ p s i) fs2 name = Err ShortRead)
            /\ ((knots_start (__init__ p s i) g j <= K < knots_end (__init__ p s i) g j)%nat ->
                read host (__init__ p s i) fs2 name = Err SizeMismatch))
      /\ (geometry = true ->
          ((axes_end (__init__ p s i) g <= K
            < axes_end (__init__ p s i) g + 3 * itemsize (Itype (__init__ p s i)))%nat ->
           read host (__init__ p s i) fs2 name = Err ShortRead)
          /\ ((axes_end (__init__ p s i) g + 3 * itemsize (Itype (__init__ p s i)) <= K)%nat ->
              read host (__init__ p s i) fs2 name = Err SizeMismatch)).
Proof.
  intros host p s i fs filename g c geometry nsd fs1 F Hv [Hfk Hfc] Hw HF fs2 name K HK Hfs2.
  assert (Hv' := Hv).
  destruct Hv' as [Hc Hwf Hdim Hs Hrank H1d Hdeg Hsz Hrk Hrc].
  assert (Hdegrees : NURBS_degree g = degrees (knots g) (NURBS_shape g)) by reflexivity.
  rewrite Hdegrees in Hdeg.
  destruct (@axes_facts host p s i (knots g) (NURBS_shape g) Hrank Hdeg Hsz Hfk Hrk)
    as (Hlen & Hax & _ & _).
  fold (degrees (knots g) (NURBS_shape g)) in Hdegrees.
  set (axes := List.combine (degrees (knots g) (NURBS_shape g)) (knots g)) in *.
  assert (Hdim' : (1 <= length axes <= 3)%nat) by (unfold NURBS_dim in Hdim; lia).
  assert (Hsnd : map snd axes = knots g).
  { apply map_snd_combine. unfold degrees.
    rewrite length_map, length_combine, Hrank. lia. }
  (* the layout of the file *)
  assert (Hlayout : exists descr tail,
             F = geometry_bytes (__init__ p s i) IGA_ID descr (Z.of_nat (length axes))
                   axes tail
             /\ representable (__init__ p s i) descr
             /\ ((geometry = false /\ np_abs (Itype (__init__ p s i)) descr < 1 /\ tail = [])
                 \/ (geometry = true /\ 1 <= np_abs (Itype (__init__ p s i)) descr
                     /\ tail = control_bytes (__init__ p s i) (effective_nsd g nsd)
                                 (data (stored (effective_nsd g nsd) c))
                     /\ Z.of_nat (length axes) <= effective_nsd g nsd <= 3
                     /\ representable (__init__ p s i)
                          (Z.of_nat (length (data (stored (effective_nsd g nsd) c))))))).
  { destruct geometry.
    - destruct (Z_le_dec (NURBS_dim g) (effective_nsd g nsd)) as [H1|H1];
        [destruct (Z_le_dec (effective_nsd g nsd) 3) as [H2|H2]|];
        try (rewrite write_nsd_out_of_range in Hw by lia; discriminate).
      assert (HFeq : F = geometry_bytes (__init__ p s i) IGA_ID 1 (NURBS_dim g)
                           (List.combine (NURBS_degree g) (knots g))
                           (control_bytes (__init__ p s i) (effective_nsd g nsd)
                              (data (stored (effective_nsd g nsd) c)))).
      { rewrite (@write_geometry host p s i fs filename g c (NURBS_shape g) nsd
                   (effective_nsd g nsd) Hc Hs eq_refl (conj H1 H2)) in Hw.
        injection Hw as <-. unfold fs_put in HF. rewrite String.eqb_refl in HF.
        injection HF as <-. reflexivity. }
      rewrite Hdegrees in HFeq. fold axes in HFeq.
      unfold NURBS_dim in HFeq, H1. rewrite <- Hlen in HFeq, H1.
      exists 1. eexists. split; [exact HFeq|]. split; [apply representable_small; lia|].
      right. split; [reflexivity|]. split.
      { rewrite np_abs_small by (apply representable_small; simpl; lia). simpl. lia. }
      split; [reflexivity|]. split; [lia|].
      assert (Hcount : length (data (stored (effective_nsd g nsd) c))
                       = (S (Z.to_nat (effective_nsd g nsd)) * Ix.prod (NURBS_shape g))%nat)
        by (exact (@size_stored _ _ c (NURBS_shape g) (Z.to_nat (effective_nsd g nsd)) Hs)).
      rewrite Hcount.
      replace (Z.of_nat (S (Z.to_nat (effective_nsd g nsd)) * Ix.prod (NURBS_shape g)))
        with ((effective_nsd g nsd + 1) * Z.of_nat (Ix.prod (NURBS_shape g))) by lia.
      exact Hfc.
    - destruct nsd as [n|]; [discriminate|].
      assert (HFeq : F = geometry_bytes (__init__ p s i) IGA_ID 0 (NURBS_dim g)
                           (List.combine (NURBS_degree g) (knots g)) []).
      { rewrite write_topology in Hw. injection Hw as <-.
        unfold fs_put in HF. rewrite String.eqb_refl in HF. injection HF as <-. reflexivity. }
      rewrite Hdegrees in HFeq. fold axes in HFeq.
      unfold NURBS_dim in HFeq. rewrite <- Hlen in HFeq.
      exists 0. eexists. split; [exact HFeq|]. split; [apply representable_small; lia|].
      left. split; [reflexivity|]. split; [|reflexivity].
      rewrite np_abs_small by (apply representable_small; simpl; lia). simpl. lia. }
  destruct Hlayout as (descr & tail & HFeq & Hdescr & Htail). subst F.
  destruct (@read_cut_layout host p s i fs2 name descr axes tail K Hdim' Hax Hdescr Hfs2)
    as (Hhead & Haxis & Hcontrol).
  split; [|split; [exact Hhead | split]].
  - eapply (@read_truncated_layout host p s i fs2 name descr axes
              (effective_nsd g nsd) (data (stored (effective_nsd g nsd) c)) tail K);
      try eassumption.
    destruct Htail as [(_ & Habs & ->) | (_ & Habs & -> & Hnsd & Hrep)].
    + left. now split.
    + right. split; [exact Habs|]. split; [reflexivity|]. split; [exact Hnsd | exact Hrep].
  - intros j Hj. rewrite <- Hlen in Hj. split.
    + unfold axis_start, knots_start. intros [Hlo Hhi].
      apply (Haxis j Hj); rewrite <- firstn_map, Hsnd; lia.
    + intros [Hlo Hhi].
      apply (proj2 (@corrupted_layout_rejected host p s i fs2 name descr axes tail _
                      Hdescr Hdim' Hax eq_refl) j K
               (0, mk_ndarray (Rtype (__init__ p s i)) [] []) Hj).
      * rewrite <- firstn_map, Hsnd. exact Hlo.
      * rewrite <- firstn_map, Hsnd. rewrite <- (map_nth snd), Hsnd. exact Hhi.
      * exact Hfs2.
  - intros ->. destruct Htail as [(Hg & _) | (_ & Habs & -> & Hnsd & Hrep)]; [discriminate|].
    unfold axes_end. rewrite <- Hsnd. split.
    + intros [Hlo Hhi]. exact (proj1 (Hcontrol _ _ Habs eq_refl Hnsd Hlo) Hhi).
    + intros Hlo. apply (proj2 (Hcontrol _ _ Habs eq_refl Hnsd ltac:(lia)) Hrep Hlo HK).
Qed.

Lemma truncated_geometry_file_rejected_witness :
  read LittleEndian ex_self (one_file ex_name (firstn 10 ex_line_file)) ex_name
  = Err ShortRead
  /\ read LittleEndian ex_self (one_file ex_name (firstn 14 ex_line_file)) ex_name
     = Err ShortRead
  /\ read LittleEndian ex_self (one_file ex_name (firstn 28 ex_line_file)) ex_name
     = Err SizeMismatch
  /\ read LittleEndian ex_self (one_file ex_name (firstn 60 ex_line_file)) ex_name
     = Err ShortRead
  /\ read LittleEndian ex_self (one_file ex_name (firstn 70 ex_line_file)) ex_name
     = Err SizeMismatch.
Proof.
  remember (write LittleEndian ex_self no_files ex_name ex_line true None) as W eqn:HW.
  assert (Hs : snd W = OK tt) by (rewrite HW; vm_compute; reflexivity).
  assert (HF : fst W ex_name = Some ex_line_file) by (rewrite HW; vm_compute; reflexivity).
  destruct W as [fs1 r]. cbn [fst snd] in Hs, HF. subst r.
  assert (Hv : valid_geometry ex_self ex_line ex_line_control) by valid_by_computation.
  assert (Hfit : fits_index ex_self ex_line (effective_nsd ex_line None))
    by valid_by_computation.
  pose proof (fun K =>
                @truncated_geometry_file_rejected LittleEndian double real bit32 no_files
                  ex_name ex_line ex_line_control true None fs1 ex_line_file Hv Hfit
                  (eq_sym HW) HF (one_file ex_name (firstn K ex_line_file)) ex_name K) as H.
  split; [|split; [|split; [|split]]].
  - destruct (H 10%nat) as (_ & Hh & _); [by_computation | by_computation |].
    apply Hh. by_computation.
  - destruct (H 14%nat) as (_ & _ & Hax & _); [by_computation | by_computation |].
    apply (proj1 (Hax 0%nat ltac:(by_computation))). by_computation.
  - destruct (H 28%nat) as (_ & _ & Hax & _); [by_computation | by_computation |].
    apply (proj2 (Hax 0%nat ltac:(by_computation))). by_computation.
  - destruct (H 60%nat) as (_ & _ & _ & Hc); [by_computation | by_computation |].
    apply (proj1 (Hc eq_refl)). by_computation.
  - destruct (H 70%nat) as (_ & _ & _ & Hc); [by_computation | by_computation |].
    apply (proj2 (Hc eq_refl)). by_computation.
Defined.

Section VectorFiles.
Variable host : endian.
Variables (p : precision_t) (s : scalar_t) (i : indices_t).
Local Abbreviation self := (__init__ p s i).

(** Whatever [write_vec] writes is laid out in the vector format and holds
    as many values as the array. *)
Lemma write_vec_layout fs filename (A : ndarray cfloat) nurbs fs1 :
  write_vec host self fs filename A nurbs = (fs1, OK tt) ->
  exists values,
    fs1 = fs_put (fs_put fs filename []) filename (vector_bytes self values)
    /\ length values = size A.
Proof.
  destruct nurbs as [g|].
  - unfold write_vec, reshape_infer_last.
    destruct (Nat.eqb_spec (Ix.prod (NURBS_shape g)) 0) as [|Hp]; [discriminate|].
    destruct (Nat.eqb_spec (size A mod Ix.prod (NURBS_shape g)) 0) as [Hm|]; [|discriminate].
    cbn [bind]. unfold open_wb, close_wb. rewrite !_write_encode. cbn [py_int data app].
    intros H. injection H as <-.
    exists (data (stored_vec A (NURBS_shape g) (size A / Ix.prod (NURBS_shape g))%nat)).
    split.
    + unfold vector_bytes, stored_vec, size. now rewrite <- !app_assoc.
    + apply Nat.Div0.div_exact in Hm.
      transitivity (size A / Ix.prod (NURBS_shape g) * Ix.prod (NURBS_shape g))%nat; [|lia].
      apply (@size_ravel_rollaxis _ _
               (mk_ndarray (dt A)
                  (NURBS_shape g ++ [(size A / Ix.prod (NURBS_shape g))%nat]) (data A))
               (NURBS_shape g) (size A / Ix.prod (NURBS_shape g))%nat eq_refl).
  - rewrite write_vec_flat. intros H. injection H as <-. eexists. split; reflexivity.
Qed.

(** [read_vec] on a proper prefix of a file laid out in the vector format:
    where the file is cut decides how the call fails. *)
Lemma read_vec_cut_layout fs filename values nurbs K :
  representable self (Z.of_nat (length values)) ->
  (K < length (vector_bytes self values))%nat ->
  fs filename = Some (firstn K (vector_bytes self values)) ->
  ((K < 2 * itemsize (Itype self))%nat ->
   read_vec host self fs filename nurbs = Err ShortRead)
  /\ ((2 * itemsize (Itype self) <= K)%nat ->
      read_vec host self fs filename nurbs = Err SizeMismatch).
Proof.
  intros Hlen HK Hfs.
  unfold read_vec, open_rb. rewrite Hfs. cbn [bind].
  unfold vector_bytes in *.
  rewrite !length_app, !(length_encode (lawful_I p s i)), (length_encode (lawful_S p s i))
    in HK. cbn [length] in HK.
  split.
  - intros Hhdr.
    destruct (Nat.lt_ge_cases K (itemsize (Itype self))) as [H1|H1].
    { now rewrite (@_read1_cut_short Z _ host _ _ _ _ H1). }
    rewrite (@_read1_cut_word Z _ host _ (lawful_I p s i) _ _ _ H1). cbn [bind].
    rewrite cast_I by (apply representable_small; unfold VEC_ID; lia).
    rewrite Z.eqb_refl.
    rewrite (@_read1_cut_short Z _ host) by lia. reflexivity.
  - intros Hval.
    rewrite (@_read1_cut_word Z _ host _ (lawful_I p s i)) by lia. cbn [bind].
    rewrite cast_I by (apply representable_small; unfold VEC_ID; lia).
    rewrite Z.eqb_refl.
    rewrite (@_read1_cut_word Z _ host _ (lawful_I p s i)) by lia. cbn [bind].
    rewrite (cast_I Hlen).
    pose proof (@_read_cut_values cfloat _ host (Stype self) (lawful_S p s i) values []
                  (K - itemsize (Itype self) - itemsize (Itype self))%nat) as Hne.
    rewrite app_nil_r in Hne. rewrite (length_encode (lawful_S p s i)) in Hne.
    destruct (_read host _ (Stype self) (Z.of_nat (length values))) as [V f].
    cbn [fst] in Hne.
    destruct (Z.eqb_spec (Z.of_nat (size V)) (Z.of_nat (length values))) as [Heq|];
      [|reflexivity].
    exfalso. apply Hne; [lia | exact Heq].
Qed.

End VectorFiles.

(** X4.  Truncation of a vector file is detected: no proper prefix of a
    file written by [write_vec] is decoded by [read_vec], with or without a
    geometry; the call fails with ShortRead when the file ends inside the
    two header words and with SizeMismatch when it ends inside the values. *)
Theorem truncated_vector_file_rejected :
  forall (host : endian) (p : precision_t) (s : scalar_t) (i : indices_t)
         (fs : filesystem) (filename : string) (A : ndarray cfloat) (nurbs : option NURBS)
         (fs1 : filesystem) (F : list byte),
    representable (__init__ p s i) (Z.of_nat (size A)) ->
    write_vec host (__init__ p s i) fs filename A nurbs = (fs1, OK tt) ->
    fs1 filename = Some F ->
    forall (fs2 : filesystem) (name : string) (nurbs' : option NURBS) (K : nat),
      (K < length F)%nat ->
      fs2 name = Some (firstn K F) ->
      ((K < 2 * itemsize (Itype (__init__ p s i)))%nat ->
       read_vec host (__init__ p s i) fs2 name nurbs' = Err ShortRead)
      /\ ((2 * itemsize (Itype (__init__ p s i)) <= K)%nat ->
          read_vec host (__init__ p s i) fs2 name nurbs' = Err SizeMismatch).
Proof.
  intros host p s i fs filename A nurbs fs1 F Hrep Hw HF fs2 name nurbs' K HK Hfs2.
  destruct (@write_vec_layout host p s i fs filename A nurbs fs1 Hw) as (values & -> & Hlen).
  unfold fs_put in HF. rewrite String.eqb_refl in HF.
  assert (HFeq : F = vector_bytes (__init__ p s i) values) by congruence.
  subst F. apply (@read_vec_cut_layout host p s i fs2 name values nurbs' K);
    try assumption.
  now rewrite Hlen.
Qed.

Lemma truncated_vector_file_rejected_witness :
  read_vec LittleEndian ex_self (one_file ex_name (firstn 6 ex_field_file)) ex_name None
  = Err ShortRead
  /\ read_vec LittleEndian ex_self (one_file ex_name (firstn 20 ex_field_file)) ex_name
       (Some ex_square)
     = Err SizeMismatch.
Proof.
  remember (write_vec LittleEndian ex_self no_files ex_name ex_field (Some ex_square))
    as W eqn:HW.
  assert (Hs : snd W = OK tt) by (rewrite HW; vm_compute; reflexivity).
  assert (HF : fst W ex_name = Some ex_field_file) by (rewrite HW; vm_compute; reflexivity).
  destruct W as [fs1 r]. cbn [fst snd] in Hs, HF. subst r.
  assert (Hrep : representable ex_self (Z.of_nat (size ex_field))) by by_computation.
  pose proof (fun nurbs K =>
                @truncated_vector_file_rejected LittleEndian double real bit32 no_files
                  ex_name ex_field (Some ex_square) fs1 ex_field_file Hrep (eq_sym HW) HF
                  (one_file ex_name (firstn K ex_field_file)) ex_name nurbs K) as H.
  split.
  - apply (proj1 (H None 6%nat ltac:(by_computation) ltac:(by_computation))).
    by_computation.
  - apply (proj2 (H (Some ex_square) 20%nat ltac:(by_computation) ltac:(by_computation))).
    by_computation.
Defined.

(** X5.  Vector round trip without a geometry: [write_vec] followed by
    [read_vec], both without a geometry, returns the values of the array in
    C order as a 1-D array of the Scalar type in host byte order; the shape
    of the original array is not stored. *)
Theorem vector_roundtrip_without_geometry :
  forall (host : endian) (p : precision_t) (s : scalar_t) (i : indices_t)
         (fs : filesystem) (filename : string) (A : ndarray cfloat),
    Forall (is_scalar (__init__ p s i)) (data A) ->
    representable (__init__ p s i) (Z.of_nat (size A)) ->
    exists fs' B,
      write_vec host (__init__ p s i) fs filename A None = (fs', OK tt)
      /\ read_vec host (__init__ p s i) fs' filename None = OK B
      /\ data B = data A
      /\ shape B = [size A]
      /\ dt B = newbyteorder (Stype (__init__ p s i)) host.
Proof.
  intros host p s i fs filename A Hscalar Hrep.
  eexists. eexists. split; [apply write_vec_flat|]. split.
  - apply read_vec_flat; [exact Hrep|]. unfold fs_put. now rewrite String.eqb_refl.
  - cbn [data shape dt]. split; [|split; reflexivity].
    now apply map_cast_id.
Qed.

Lemma vector_roundtrip_without_geometry_witness :
  exists fs' B,
    write_vec LittleEndian ex_self no_files ex_name ex_square_control None = (fs', OK tt)
    /\ read_vec LittleEndian ex_self fs' ex_name None = OK B
    /\ data B = data ex_square_control
    /\ shape B = [size ex_square_control]
    /\ dt B = newbyteorder (Stype ex_self) LittleEndian.
Proof.
  apply (@vector_roundtrip_without_geometry LittleEndian double real bit32 no_files ex_name
           ex_square_control); by_computation.
Defined.

(** X6.  [write_vec] with a geometry checks the array against the grid
    before it opens the file: when the number of grid points is zero or
    does not divide the size of the array the call fails with ValueError
    and the file system is left as it was; otherwise the call succeeds, for
    an array whose size fits the Index type. *)
Theorem write_vec_incompatible_geometry :
  forall (host : endian) (self : PetIGA) (fs : filesystem) (filename : string)
         (A : ndarray cfloat) (g : NURBS),
    ((Ix.prod (NURBS_shape g) = 0 \/ size A mod Ix.prod (NURBS_shape g) <> 0)%nat ->
     write_vec host self fs filename A (Some g) = (fs, Err ValueError))
    /\ (~ (Ix.prod (NURBS_shape g) = 0 \/ size A mod Ix.prod (NURBS_shape g) <> 0)%nat ->
        representable self (Z.of_nat (size A)) ->
        snd (write_vec host self fs filename A (Some g)) = OK tt).
Proof.
  intros host self fs filename A g. unfold write_vec, reshape_infer_last. split.
  - intros [H0 | Hm].
    + rewrite H0. reflexivity.
    + destruct (Nat.eqb_spec (Ix.prod (NURBS_shape g)) 0); [reflexivity|].
      destruct (Nat.eqb_spec (size A mod Ix.prod (NURBS_shape g)) 0); [contradiction|].
      reflexivity.
  - intros Hok _.
    destruct (Nat.eqb_spec (Ix.prod (NURBS_shape g)) 0); [tauto|].
    destruct (Nat.eqb_spec (size A mod Ix.prod (NURBS_shape g)) 0); [|tauto].
    reflexivity.
Qed.

Lemma write_vec_incompatible_geometry_witness :
  write_vec LittleEndian ex_self (one_file ex_name [Byte.x2a]) ex_name ex_line_control
    (Some ex_square)
  = (one_file ex_name [Byte.x2a], Err ValueError)
  /\ snd (write_vec LittleEndian ex_self (one_file ex_name [Byte.x2a]) ex_name ex_field
            (Some ex_square)) = OK tt.
Proof.
  split.
  - apply (proj1 (@write_vec_incompatible_geometry LittleEndian ex_self
                    (one_file ex_name [Byte.x2a]) ex_name ex_line_control ex_square)).
    right. vm_compute. discriminate.
  - apply (proj2 (@write_vec_incompatible_geometry LittleEndian ex_self
                    (one_file ex_name [Byte.x2a]) ex_name ex_field ex_square)).
    + vm_compute. intros [H | H]; [discriminate H | now apply H].
    + by_computation.
Defined.

Section VectorValidation.
Variable host : endian.
Variables (p : precision_t) (s : scalar_t) (i : indices_t).
Local Abbreviation self := (__init__ p s i).

Lemma read_vec_bad_magic fs filename nurbs magic tail :
  representable self magic -> magic <> VEC_ID ->
  fs filename = Some (encode (Itype self) [magic] ++ tail)%list ->
  read_vec host self fs filename nurbs = Err BadMagic.
Proof.
  intros Hm Hne Hfs. unfold read_vec, open_rb. rewrite Hfs. cbn [bind].
  rewrite (_read1_encode host (lawful_I p s i)). cbn [bind].
  rewrite (cast_I Hm). destruct (Z.eqb_spec magic VEC_ID); [contradiction | reflexivity].
Qed.

Lemma read_vec_bad_count fs filename nurbs n tail :
  representable self n -> n < 0 ->
  fs filename = Some (encode (Itype self) [VEC_ID] ++ encode (Itype self) [n] ++ tail)%list ->
  read_vec host self fs filename nurbs = Err SizeMismatch.
Proof.
  intros Hn Hshort Hfs. unfold read_vec, open_rb. rewrite Hfs. cbn [bind].
  rewrite (_read1_encode host (lawful_I p s i)). cbn [bind].
  rewrite cast_I by (apply representable_small; unfold VEC_ID; lia).
  rewrite Z.eqb_refl.
  rewrite (_read1_encode host (lawful_I p s i)). cbn [bind].
  rewrite (cast_I Hn).
  assert (Hne : Z.of_nat (size (fst (_read (A:=cfloat) host tail (Stype self) n))) <> n)
    by (now apply _read_negative).
  destruct (_read host tail (Stype self) n) as [V f]. cbn [fst] in Hne.
  destruct (Z.eqb_spec (Z.of_nat (size V)) n); [contradiction | reflexivity].
Qed.

Lemma read_vec_bad_grid fs filename g values :
  representable self (Z.of_nat (length values)) ->
  (Ix.prod (NURBS_shape g) = 0 \/ length values mod Ix.prod (NURBS_shape g) <> 0)%nat ->
  fs filename = Some (vector_bytes self values) ->
  read_vec host self fs filename (Some g) = Err ValueError.
Proof.
  intros Hlen Hbad Hfs. unfold read_vec, open_rb. rewrite Hfs. cbn [bind].
  unfold vector_bytes.
  rewrite (_read1_encode host (lawful_I p s i)). cbn [bind].
  rewrite cast_I by (apply representable_small; unfold VEC_ID; lia).
  rewrite Z.eqb_refl.
  rewrite (_read1_encode host (lawful_I p s i)). cbn [bind].
  rewrite (cast_I Hlen).
  rewrite <- (app_nil_r (encode (Stype self) values)).
  rewrite (_read_encode host (lawful_S p s i)).
  unfold size at 1. cbn [data]. rewrite length_map, Z.eqb_refl.
  unfold reshape_f_infer_first, size. cbn [data]. rewrite length_map.
  destruct Hbad as [H0 | Hm].
  - rewrite H0. reflexivity.
  - destruct (Nat.eqb_spec (Ix.prod (NURBS_shape g)) 0); [reflexivity|].
    destruct (Nat.eqb_spec (length values mod Ix.prod (NURBS_shape g)) 0);
      [contradiction | reflexivity].
Qed.

End VectorValidation.

(** X7.  What [read_vec] checks: it fails with BadMagic when the first word
    is not the vector identifier, with SizeMismatch when the count word is
    negative (every value left is then read, and their number is not the
    count), and, when a geometry is given and the file holds its values,
    with ValueError when the number of grid points is zero or does not
    divide the number of values. *)
Theorem read_vec_validation :
  forall (host : endian) (p : precision_t) (s : scalar_t) (i : indices_t)
         (fs : filesystem) (filename : string),
    (forall nurbs magic tail,
        representable (__init__ p s i) magic -> magic <> VEC_ID ->
        fs filename = Some (encode (Itype (__init__ p s i)) [magic] ++ tail)%list ->
        read_vec host (__init__ p s i) fs filename nurbs = Err BadMagic)
    /\ (forall nurbs n tail,
        representable (__init__ p s i) n -> n < 0 ->
        fs filename = Some (encode (Itype (__init__ p s i)) [VEC_ID]
                            ++ encode (Itype (__init__ p s i)) [n] ++ tail)%list ->
        read_vec host (__init__ p s i) fs filename nurbs = Err SizeMismatch)
    /\ (forall g values,
        representable (__init__ p s i) (Z.of_nat (length values)) ->
        (Ix.prod (NURBS_shape g) = 0
         \/ length values mod Ix.prod (NURBS_shape g) <> 0)%nat ->
        fs filename = Some (vector_bytes (__init__ p s i) values) ->
        read_vec host (__init__ p s i) fs filename (Some g) = Err ValueError).
Proof.
  intros host p s i fs filename. split; [|split].
  - intros nurbs magic tail. apply read_vec_bad_magic.
  - intros nurbs n tail. apply read_vec_bad_count.
  - intros g values. apply read_vec_bad_grid.
Qed.

Lemma read_vec_validation_witness :
  read_vec LittleEndian ex_self
    (one_file ex_name (encode (Itype ex_self) [IGA_ID] ++ [])) ex_name None = Err BadMagic
  /\ read_vec LittleEndian ex_self
       (one_file ex_name (encode (Itype ex_self) [VEC_ID] ++ encode (Itype ex_self) [-1]
                          ++ encode (Stype ex_self) [fl_1])) ex_name None = Err SizeMismatch
  /\ read_vec LittleEndian ex_self
       (one_file ex_name (vector_bytes ex_self [fl_0; fl_half; fl_1; fl_1]))
       ex_name (Some ex_square) = Err ValueError.
Proof.
  split; [|split].
  - apply (proj1 (@read_vec_validation LittleEndian double real bit32
                    (one_file ex_name (encode (Itype ex_self) [IGA_ID] ++ [])) ex_name)
             None IGA_ID []); by_computation.
  - apply (proj1 (proj2 (@read_vec_validation LittleEndian double real bit32
                    (one_file ex_name (encode (Itype ex_self) [VEC_ID]
                                       ++ encode (Itype ex_self) [-1]
                                       ++ encode (Stype ex_self) [fl_1])) ex_name))
             None (-1) (encode (Stype ex_self) [fl_1])); by_computation.
  - apply (proj2 (proj2 (@read_vec_validation LittleEndian double real bit32
                    (one_file ex_name (vector_bytes ex_self [fl_0; fl_half; fl_1; fl_1]))
                    ex_name))
             ex_square [fl_0; fl_half; fl_1; fl_1]); [by_computation | | by_computation].
    right. vm_compute. discriminate.
Defined.

Section ControlBlock.
Variable host : endian.
Variables (p : precision_t) (s : scalar_t) (i : indices_t).
Local Abbreviation self := (__init__ p s i).

Lemma read_bad_nsd fs filename descr axes nsd tail :
  (1 <= length axes <= 3)%nat -> Forall (axis_ok self) axes ->
  representable self descr -> 1 <= np_abs (Itype self) descr ->
  representable self nsd -> ~ (Z.of_nat (length axes) <= nsd <= 3) ->
  fs filename = Some (geometry_bytes self IGA_ID descr (Z.of_nat (length axes)) axes
                        (encode (Itype self) [nsd] ++ tail)) ->
  read host self fs filename = Err DimensionOutOfRange.
Proof.
  intros Hdim Hax Hdescr Habs Hnsd Hout Hfs.
  rewrite (@read_to_control_block host p s i _ _ _ _ _ Hfs Hdim Hax Hdescr Habs).
  rewrite (_read1_encode host (lawful_I p s i)). cbn [bind].
  rewrite (cast_I Hnsd).
  destruct (Z.leb_spec (Z.of_nat (length axes)) nsd); destruct (Z.leb_spec nsd 3);
    cbn [andb bind]; try reflexivity; lia.
Qed.

Lemma read_bad_vector_magic fs filename descr axes nsd magic tail :
  (1 <= length axes <= 3)%nat -> Forall (axis_ok self) axes ->
  representable self descr -> 1 <= np_abs (Itype self) descr ->
  Z.of_nat (length axes) <= nsd <= 3 ->
  representable self magic -> magic <> VEC_ID ->
  fs filename = Some (geometry_bytes self IGA_ID descr (Z.of_nat (length axes)) axes
                        (encode (Itype self) [nsd] ++ encode (Itype self) [magic] ++ tail)) ->
  read host self fs filename = Err BadMagic.
Proof.
  intros Hdim Hax Hdescr Habs Hnsd Hm Hne Hfs.
  rewrite (@read_to_control_block host p s i _ _ _ _ _ Hfs Hdim Hax Hdescr Habs).
  rewrite (_read1_encode host (lawful_I p s i)). cbn [bind].
  rewrite cast_I by (apply representable_small; lia).
  destruct (Z.leb_spec (Z.of_nat (length axes)) nsd); [|lia].
  destruct (Z.leb_spec nsd 3); [|lia]. cbn [andb].
  rewrite (_read1_encode host (lawful_I p s i)). cbn [bind].
  rewrite (cast_I Hm).
  destruct (Z.eqb_spec magic VEC_ID); [contradiction | reflexivity].
Qed.

Lemma read_bad_control_count fs filename descr axes nsd n tail :
  (1 <= length axes <= 3)%nat -> Forall (axis_ok self) axes ->
  representable self descr -> 1 <= np_abs (Itype self) descr ->
  Z.of_nat (length axes) <= nsd <= 3 ->
  representable self n -> n < 0 ->
  fs filename = Some (geometry_bytes self IGA_ID descr (Z.of_nat (length axes)) axes
                        (encode (Itype self) [nsd] ++ encode (Itype self) [VEC_ID]
                         ++ encode (Itype self) [n] ++ tail)) ->
  read host self fs filename = Err SizeMismatch.
Proof.
  intros Hdim Hax Hdescr Habs Hnsd Hn Hshort Hfs.
  rewrite (@read_to_control_block host p s i _ _ _ _ _ Hfs Hdim Hax Hdescr Habs).
  rewrite (_read1_encode host (lawful_I p s i)). cbn [bind].
  rewrite cast_I by (apply representable_small; lia).
  destruct (Z.leb_spec (Z.of_nat (length axes)) nsd); [|lia].
  destruct (Z.leb_spec nsd 3); [|lia]. cbn [andb].
  rewrite (_read1_encode host (lawful_I p s i)). cbn [bind].
  rewrite cast_I by (apply representable_small; unfold VEC_ID; lia).
  rewrite Z.eqb_refl.
  rewrite (_read1_encode host (lawful_I p s i)). cbn [bind].
  rewrite (cast_I Hn).
  assert (Hne : Z.of_nat (size (fst (_read (A:=cfloat) host tail (Stype self) n))) <> n)
    by (now apply _read_negative).
  destruct (_read host tail (Stype self) n) as [V f]. cbn [fst] in Hne.
  destruct (Z.eqb_spec (Z.of_nat (size V)) n); [contradiction | reflexivity].
Qed.

Lemma read_bad_control_size fs filename descr axes nsd values junk :
  (1 <= length axes <= 3)%nat -> Forall (axis_ok self) axes ->
  representable self descr -> 1 <= np_abs (Itype self) descr ->
  Z.of_nat (length axes) <= nsd <= 3 ->
  representable self (Z.of_nat (length values)) ->
  length values <> (Z.to_nat (nsd + 1) * Ix.prod (map Z.to_nat (map size_read axes)))%nat ->
  fs filename = Some (geometry_bytes self IGA_ID descr (Z.of_nat (length axes)) axes
                        (control_bytes self nsd values ++ junk)) ->
  read host self fs filename = Err ValueError.
Proof.
  intros Hdim Hax Hdescr Habs Hnsd Hlen Hbad Hfs.
  rewrite (@read_geometry_bytes host p s i fs filename descr axes nsd values junk Hfs);
    try assumption.
  unfold reconstruct.
  rewrite np_add_small by (apply representable_small; lia).
  unfold reshape_f, size. cbn [data map Ix.prod]. rewrite length_map.
  destruct (Nat.eqb_spec (length values)
              (Z.to_nat (nsd + 1) * Ix.prod (map Z.to_nat (map size_read axes))));
    [contradiction | reflexivity].
Qed.

End ControlBlock.

(** X8.  What [read] checks in the control block of a file whose header and
    axes are valid and whose descriptor announces control data: it fails
    with DimensionOutOfRange unless dimension <= nsd <= 3, with BadMagic
    when the word after [nsd] is not the vector identifier, with
    SizeMismatch when the count word is negative (every value left is then
    read, and their number is not the count), and, after the file is
    closed, with ValueError when the number of values the file holds is not
    [nsd + 1] times the number of grid points. *)
Theorem read_control_block_validation :
  forall (host : endian) (p : precision_t) (s : scalar_t) (i : indices_t)
         (fs : filesystem) (filename : string) (descr : Z)
         (axes : list (Z * ndarray cfloat)),
    (1 <= length axes <= 3)%nat ->
    Forall (axis_ok (__init__ p s i)) axes ->
    representable (__init__ p s i) descr ->
    1 <= np_abs (Itype (__init__ p s i)) descr ->
    (forall nsd tail,
        representable (__init__ p s i) nsd ->
        ~ (Z.of_nat (length axes) <= nsd <= 3) ->
        fs filename
        = Some (geometry_bytes (__init__ p s i) IGA_ID descr (Z.of_nat (length axes)) axes
                  (encode (Itype (__init__ p s i)) [nsd] ++ tail)) ->
        read host (__init__ p s i) fs filename = Err DimensionOutOfRange)
    /\ (forall nsd magic tail,
        Z.of_nat (length axes) <= nsd <= 3 ->
        representable (__init__ p s i) magic -> magic <> VEC_ID ->
        fs filename
        = Some (geometry_bytes (__init__ p s i) IGA_ID descr (Z.of_nat (length axes)) axes
                  (encode (Itype (__init__ p s i)) [nsd]
                   ++ encode (Itype (__init__ p s i)) [magic] ++ tail)) ->
        read host (__init__ p s i) fs filename = Err BadMagic)
    /\ (forall nsd n tail,
        Z.of_nat (length axes) <= nsd <= 3 ->
        representable (__init__ p s i) n -> n < 0 ->
        fs filename
        = Some (geometry_bytes (__init__ p s i) IGA_ID descr (Z.of_nat (length axes)) axes
                  (encode (Itype (__init__ p s i)) [nsd]
                   ++ encode (Itype (__init__ p s i)) [VEC_ID]
                   ++ encode (Itype (__init__ p s i)) [n] ++ tail)) ->
        read host (__init__ p s i) fs filename = Err SizeMismatch)
    /\ (forall nsd values junk,
        Z.of_nat (length axes) <= nsd <= 3 ->
        representable (__init__ p s i) (Z.of_nat (length values)) ->
        length values
        <> (Z.to_nat (nsd + 1) * Ix.prod (map Z.to_nat (map size_read axes)))%nat ->
        fs filename
        = Some (geometry_bytes (__init__ p s i) IGA_ID descr (Z.of_nat (length axes)) axes
                  (control_bytes (__init__ p s i) nsd values ++ junk)) ->
        read host (__init__ p s i) fs filename = Err ValueError).
Proof.
  intros host p s i fs filename descr axes Hdim Hax Hdescr Habs.
  split; [|split; [|split]].
  - intros nsd tail Hnsd Hout Hfs.
    exact (@read_bad_nsd host p s i fs filename descr axes nsd tail
             Hdim Hax Hdescr Habs Hnsd Hout Hfs).
  - intros nsd magic tail Hnsd Hm Hne Hfs.
    exact (@read_bad_vector_magic host p s i fs filename descr axes nsd magic tail
             Hdim Hax Hdescr Habs Hnsd Hm Hne Hfs).
  - intros nsd n tail Hnsd Hn Hshort Hfs.
    exact (@read_bad_control_count host p s i fs filename descr axes nsd n tail
             Hdim Hax Hdescr Habs Hnsd Hn Hshort Hfs).
  - intros nsd values junk Hnsd Hlen Hbad Hfs.
    exact (@read_bad_control_size host p s i fs filename descr axes nsd values junk
             Hdim Hax Hdescr Habs Hnsd Hlen Hbad Hfs).
Qed.

Lemma read_control_block_validation_witness :
  read LittleEndian ex_self
    (one_file ex_name (geometry_bytes ex_self IGA_ID 1 (Z.of_nat (length ex_line_axes))
                         ex_line_axes (encode (Itype ex_self) [0] ++ []))) ex_name
  = Err DimensionOutOfRange
  /\ read LittleEndian ex_self
       (one_file ex_name (geometry_bytes ex_self IGA_ID 1 (Z.of_nat (length ex_line_axes))
                            ex_line_axes
                            (encode (Itype ex_self) [1] ++ encode (Itype ex_self) [MAT_ID]
                             ++ []))) ex_name
     = Err BadMagic
  /\ read LittleEndian ex_self
       (one_file ex_name (geometry_bytes ex_self IGA_ID 1 (Z.of_nat (length ex_line_axes))
                            ex_line_axes
                            (encode (Itype ex_self) [1] ++ encode (Itype ex_self) [VEC_ID]
                             ++ encode (Itype ex_self) [-4]
                             ++ encode (Stype ex_self) [fl_0; fl_1]))) ex_name
     = Err SizeMismatch
  /\ read LittleEndian ex_self
       (one_file ex_name (geometry_bytes ex_self IGA_ID 1 (Z.of_nat (length ex_line_axes))
                            ex_line_axes
                            (control_bytes ex_self 1 [fl_0; fl_1; fl_1] ++ []))) ex_name
     = Err ValueError.
Proof.
  assert (Hdim : (1 <= length ex_line_axes <= 3)%nat) by by_computation.
  assert (Hax : Forall (axis_ok ex_self) ex_line_axes).
  { by_computation. }
  assert (Hdescr : representable ex_self 1) by by_computation.
  assert (Habs : 1 <= np_abs (Itype ex_self) 1) by by_computation.
  split; [|split; [|split]].
  - apply (proj1 (@read_control_block_validation LittleEndian double real bit32
                    _ ex_name 1 ex_line_axes Hdim Hax Hdescr Habs) 0 []); by_computation.
  - apply (proj1 (proj2 (@read_control_block_validation LittleEndian double real bit32
                    _ ex_name 1 ex_line_axes Hdim Hax Hdescr Habs)) 1 MAT_ID []);
      by_computation.
  - apply (proj1 (proj2 (proj2 (@read_control_block_validation LittleEndian double real bit32
                    _ ex_name 1 ex_line_axes Hdim Hax Hdescr Habs))) 1 (-4)
             (encode (Stype ex_self) [fl_0; fl_1])); by_computation.
  - apply (proj2 (proj2 (proj2 (@read_control_block_validation LittleEndian double real bit32
                    _ ex_name 1 ex_line_axes Hdim Hax Hdescr Habs))) 1
             [fl_0; fl_1; fl_1] []); by_computation.
Defined.

Section MatrixFiles.
Variable host : endian.
Variable stale : nat -> Z.
Variables (p : precision_t) (s : scalar_t) (i : indices_t).
Local Abbreviation self := (__init__ p s i).

Lemma map_cast_I (l : list Z) :
  Forall (representable self) l -> map (cast (Itype self)) l = l.
Proof.
  intros H. apply map_cast_id. eapply Forall_impl; [|exact H]. intros x. apply cast_I.
Qed.

(** [read_mat] up to the row counts of a file with a valid header. *)
Lemma read_mat_header fs filename M N nz tail :
  representable self M -> representable self N -> representable self nz ->
  fs filename = Some (encode (Itype self) [MAT_ID] ++ encode (Itype self) [M; N; nz]
                      ++ tail)%list ->
  read_mat host stale self fs filename
  = (let M1 := np_add (Itype self) M 1 in
     ensure 0 <=? M1 orelse ValueError ;;
     let AI := empty stale (newbyteorder (Itype self) host) (Z.to_nat M1) in
     ensure negb (M1 =? 0) orelse IndexError ;;
     let AI := set_first AI 0 in
     let '(rownz, fh) := _read (A:=Z) host tail (Itype self) M in
     AI <- cumsum_into_tail (Itype self) rownz AI ;;
     ensure last (data AI) 0 =? nz orelse SizeMismatch ;;
     let '(AJ, fh) := _read (A:=Z) host fh (Itype self) nz in
     ensure Z.of_nat (size AJ) =? nz orelse SizeMismatch ;;
     let '(AV, fh) := fromfile (A:=cfloat) fh (Stype self) nz in
     ensure Z.of_nat (size AV) =? nz orelse SizeMismatch ;;
     OK ((M, N), (AI, AJ, AV))).
Proof.
  intros HM HN Hnz Hfs. unfold read_mat, open_rb. rewrite Hfs. cbn [bind].
  rewrite (_read1_encode host (lawful_I p s i)). cbn [bind].
  rewrite cast_I by (apply representable_small; unfold MAT_ID; lia).
  rewrite Z.eqb_refl.
  change 3 with (Z.of_nat (length [M; N; nz])).
  rewrite (_read_encode host (lawful_I p s i)). cbn [data map].
  now rewrite (cast_I HM), (cast_I HN), (cast_I Hnz).
Qed.

(** [read_mat] decodes a file laid out in the sparse-matrix format. *)
Lemma read_mat_bytes fs filename N rownz col values junk :
  representable self (Z.of_nat (length rownz) + 1) -> representable self N ->
  Forall (representable self) rownz -> Forall (representable self) col ->
  Forall (is_scalar self) values ->
  representable self (Z.of_nat (length col)) ->
  last (0 :: cumsum (Itype self) 0 rownz) 0 = Z.of_nat (length col) ->
  length values = length col ->
  fs filename = Some (matrix_bytes self (Z.of_nat (length rownz)) N (Z.of_nat (length col))
                        rownz col values junk) ->
  read_mat host stale self fs filename
  = OK ((Z.of_nat (length rownz), N),
        (mk_ndarray (newbyteorder (Itype self) host) [S (length rownz)]
           (0 :: cumsum (Itype self) 0 rownz),
         mk_ndarray (newbyteorder (Itype self) host) [length col] col,
         mk_ndarray (Stype self) [length values] values)).
Proof.
  intros HM1 HN Hrow Hcol Hval Hnz Hsum Hlen Hfs.
  assert (HM : representable self (Z.of_nat (length rownz)))
    by (unfold representable in *; lia).
  unfold matrix_bytes in Hfs.
  rewrite (@read_mat_header fs filename _ N _ _ HM HN Hnz Hfs). cbv zeta.
  rewrite np_add_small by assumption.
  destruct (Z.leb_spec 0 (Z.of_nat (length rownz) + 1)); [|lia].
  destruct (Z.eqb_spec (Z.of_nat (length rownz) + 1) 0); [lia|]. cbn [negb].
  rewrite (_read_encode host (lawful_I p s i)).
  replace (Z.to_nat (Z.of_nat (length rownz) + 1)) with (S (length rownz)) by lia.
  rewrite cumsum_into_tail_full by (unfold size; cbn [data]; now rewrite length_map).
  cbn [bind data].
  rewrite (map_cast_I Hrow), Hsum, Z.eqb_refl.
  rewrite (_read_encode host (lawful_I p s i)).
  unfold size at 1. cbn [data]. rewrite length_map, Z.eqb_refl.
  rewrite (map_cast_I Hcol).
  rewrite <- Hlen. rewrite (fromfile_encode (lawful_S p s i)).
  unfold size at 1. cbn [data]. rewrite length_map, Z.eqb_refl.
  rewrite (map_cast_id (Stype self)) by exact Hval.
  now rewrite Hlen.
Qed.

End MatrixFiles.

(** X9.  [read_mat] decodes every well-formed matrix file: when the file
    holds the matrix identifier, M, N and nz, M row counts whose sum in
    Index arithmetic is nz, nz column indices and nz Scalar values (and
    then anything), the call returns (M, N), the row pointer 0 followed by
    the prefix sums of the row counts, the column indices as stored, both
    in host byte order, and the values as stored, in the byte order of the
    file. *)
Theorem read_mat_decodes_well_formed :
  forall (host : endian) (stale : nat -> Z)
         (p : precision_t) (s : scalar_t) (i : indices_t)
         (fs : filesystem) (filename : string) (N : Z) (rownz col : list Z)
         (values : list cfloat) (junk : list byte),
    representable (__init__ p s i) (Z.of_nat (length rownz) + 1) ->
    representable (__init__ p s i) N ->
    Forall (representable (__init__ p s i)) rownz ->
    Forall (representable (__init__ p s i)) col ->
    Forall (is_scalar (__init__ p s i)) values ->
    representable (__init__ p s i) (Z.of_nat (length col)) ->
    last (0 :: cumsum (Itype (__init__ p s i)) 0 rownz) 0 = Z.of_nat (length col) ->
    length values = length col ->
    fs filename = Some (matrix_bytes (__init__ p s i) (Z.of_nat (length rownz)) N
                          (Z.of_nat (length col)) rownz col values junk) ->
    read_mat host stale (__init__ p s i) fs filename
    = OK ((Z.of_nat (length rownz), N),
          (mk_ndarray (newbyteorder (Itype (__init__ p s i)) host) [S (length rownz)]
             (0 :: cumsum (Itype (__init__ p s i)) 0 rownz),
           mk_ndarray (newbyteorder (Itype (__init__ p s i)) host) [length col] col,
           mk_ndarray (Stype (__init__ p s i)) [length values] values)).
Proof.
  intros host stale p s i fs filename N rownz col values junk
    HM1 HN Hrow Hcol Hval Hnz Hsum Hlen Hfs.
  exact (@read_mat_bytes host stale p s i fs filename N rownz col values junk
           HM1 HN Hrow Hcol Hval Hnz Hsum Hlen Hfs).
Qed.

Lemma read_mat_decodes_well_formed_witness :
  read_mat LittleEndian (fun _ => 0) ex_self
    (one_file ex_name (matrix_bytes ex_self (Z.of_nat (length [2; 0; 1])) 4
                         (Z.of_nat (length [0; 3; 1])) [2; 0; 1] [0; 3; 1]
                         [fl_1; fl_half; fl_1] [Byte.xff])) ex_name
  = OK ((Z.of_nat (length [2; 0; 1]), 4),
        (mk_ndarray (newbyteorder (Itype ex_self) LittleEndian) [S (length [2; 0; 1])]
           (0 :: cumsum (Itype ex_self) 0 [2; 0; 1]),
         mk_ndarray (newbyteorder (Itype ex_self) LittleEndian) [length [0; 3; 1]] [0; 3; 1],
         mk_ndarray (Stype ex_self) [length [fl_1; fl_half; fl_1]] [fl_1; fl_half; fl_1])).
Proof.
  apply (@read_mat_decodes_well_formed LittleEndian (fun _ => 0) double real bit32 _ ex_name 4
           [2; 0; 1] [0; 3; 1] [fl_1; fl_half; fl_1] [Byte.xff]); by_computation.
Defined.

Section MatrixValidation.
Variable host : endian.
Variable stale : nat -> Z.
Variables (p : precision_t) (s : scalar_t) (i : indices_t).
Local Abbreviation self := (__init__ p s i).

Lemma read_mat_bad_magic fs filename magic tail :
  representable self magic -> magic <> MAT_ID ->
  fs filename = Some (encode (Itype self) [magic] ++ tail)%list ->
  read_mat host stale self fs filename = Err BadMagic.
Proof.
  intros Hm Hne Hfs. unfold read_mat, open_rb. rewrite Hfs. cbn [bind].
  rewrite (_read1_encode host (lawful_I p s i)). cbn [bind].
  rewrite (cast_I Hm). destruct (Z.eqb_spec magic MAT_ID); [contradiction | reflexivity].
Qed.

Lemma read_mat_short_header fs filename tail :
  (length tail < 3 * itemsize (Itype self))%nat ->
  fs filename = Some (encode (Itype self) [MAT_ID] ++ tail)%list ->
  read_mat host stale self fs filename = Err ShortRead.
Proof.
  intros Hlen Hfs. unfold read_mat, open_rb. rewrite Hfs. cbn [bind].
  rewrite (_read1_encode host (lawful_I p s i)). cbn [bind].
  rewrite cast_I by (apply representable_small; unfold MAT_ID; lia).
  rewrite Z.eqb_refl.
  assert (Hne : Z.of_nat (size (fst (_read (A:=Z) host tail (Itype self) 3))) <> 3)
    by (apply (_read_short host (lawful_I p s i)); lia).
  destruct (_read host tail (Itype self) 3) as [hdr f]. cbn [fst] in Hne.
  unfold size in Hne.
  destruct (data hdr) as [|M [|N [|nz [|? ?]]]]; try reflexivity.
  now contradiction Hne.
Qed.

Lemma read_mat_negative_rows fs filename M N nz tail :
  representable self M -> representable self N -> representable self nz ->
  M < -1 ->
  fs filename = Some (encode (Itype self) [MAT_ID] ++ encode (Itype self) [M; N; nz]
                      ++ tail)%list ->
  read_mat host stale self fs filename = Err ValueError.
Proof.
  intros HM HN Hnz Hneg Hfs.
  rewrite (@read_mat_header host stale p s i fs filename M N nz tail HM HN Hnz Hfs). cbv zeta.
  rewrite np_add_small by (unfold representable in *; lia).
  destruct (Z.leb_spec 0 (M + 1)); [lia | reflexivity].
Qed.

Lemma read_mat_minus_one_row fs filename N nz tail :
  representable self N -> representable self nz ->
  fs filename = Some (encode (Itype self) [MAT_ID] ++ encode (Itype self) [-1; N; nz]
                      ++ tail)%list ->
  read_mat host stale self fs filename = Err IndexError.
Proof.
  intros HN Hnz Hfs.
  assert (HM : representable self (-1)) by (apply representable_small; lia).
  rewrite (@read_mat_header host stale p s i fs filename (-1) N nz tail HM HN Hnz Hfs). cbv zeta.
  rewrite np_add_small by (apply representable_small; lia). reflexivity.
Qed.

(** [read_mat] on a file whose row counts add up to a negative nz. *)
Lemma read_mat_negative_count fs filename N nz rownz tail :
  representable self (Z.of_nat (length rownz) + 1) -> representable self N ->
  representable self nz -> Forall (representable self) rownz ->
  last (0 :: cumsum (Itype self) 0 rownz) 0 = nz -> nz < 0 ->
  fs filename = Some (encode (Itype self) [MAT_ID]
                      ++ encode (Itype self) [Z.of_nat (length rownz); N; nz]
                      ++ encode (Itype self) rownz ++ tail)%list ->
  read_mat host stale self fs filename = Err SizeMismatch.
Proof.
  intros HM1 HN Hnz Hrow Hsum Hneg Hfs.
  assert (HM : representable self (Z.of_nat (length rownz)))
    by (unfold representable in *; lia).
  rewrite (@read_mat_header host stale p s i fs filename _ N nz _ HM HN Hnz Hfs). cbv zeta.
  rewrite np_add_small by assumption.
  destruct (Z.leb_spec 0 (Z.of_nat (length rownz) + 1)); [|lia].
  destruct (Z.eqb_spec (Z.of_nat (length rownz) + 1) 0); [lia|]. cbn [negb].
  rewrite (_read_encode host (lawful_I p s i)).
  replace (Z.to_nat (Z.of_nat (length rownz) + 1)) with (S (length rownz)) by lia.
  rewrite cumsum_into_tail_full by (unfold size; cbn [data]; now rewrite length_map).
  cbn [bind data].
  rewrite (map_cast_I Hrow), Hsum, Z.eqb_refl.
  assert (Hne : Z.of_nat (size (fst (_read (A:=Z) host tail (Itype self) nz))) <> nz)
    by (now apply _read_negative).
  destruct (_read host tail (Itype self) nz) as [AJ f]. cbn [fst] in Hne.
  destruct (Z.eqb_spec (Z.of_nat (size AJ)) nz); [contradiction | reflexivity].
Qed.

(** What [_read] returns when less than one element is left and at least
    one is asked for. *)
Lemma _read_none (fh : stream) (count : Z) :
  (length fh < itemsize (Itype self))%nat -> 1 <= count ->
  _read (A:=Z) host fh (Itype self) count
  = (mk_ndarray (newbyteorder (Itype self) host) [0%nat] [], []).
Proof.
  intros Hlen Hc. unfold _read, fromfile.
  rewrite Nat.div_small by exact Hlen.
  destruct (Z.ltb_spec count 0); [lia|].
  destruct (Z.leb_spec count (Z.of_nat 0)); [lia|]. reflexivity.
Qed.

(** What [_read] returns when some, but not all, of the elements asked
    for are left. *)
Lemma _read_some (fh : stream) (count : Z) :
  (itemsize (Itype self) <= length fh)%nat ->
  Z.of_nat (length fh) < count * Z.of_nat (itemsize (Itype self)) ->
  exists x l f,
    _read (A:=Z) host fh (Itype self) count
    = (mk_ndarray (newbyteorder (Itype self) host) [S (length l)] (x :: l), f)
    /\ Z.of_nat (S (length l)) < count.
Proof.
  intros Hlo Hhi. pose proof (lawful_pos (lawful_I p s i)) as Hp.
  unfold _read, fromfile.
  set (avail := Nat.div (length fh) (itemsize (Itype self))).
  assert (Havail : (avail * itemsize (Itype self) <= length fh)%nat).
  { unfold avail. rewrite Nat.mul_comm. apply Nat.Div0.mul_div_le. }
  assert (Hpos : (1 <= avail)%nat).
  { unfold avail. apply Nat.div_le_lower_bound; lia. }
  destruct (Z.ltb_spec count 0); [nia|].
  destruct (Z.leb_spec count (Z.of_nat avail)); [nia|].
  unfold astype. cbn [shape data].
  pose proof (length_items (A:=Z) (Itype self) avail fh) as Hlen.
  destruct (items (Itype self) avail fh) as [|x l]; cbn [length] in Hlen; [lia|].
  exists (cast (newbyteorder (Itype self) host) x),
         (map (cast (newbyteorder (Itype self) host)) l), [].
  cbn [map]. rewrite length_map. split; [now rewrite <- Hlen | lia].
Qed.

Lemma last_seq_map (f : nat -> Z) n :
  last (0 :: map f (seq 1 (S n))) 0 = f (S n).
Proof.
  rewrite seq_S, map_app. cbn [map Nat.add].
  replace (0 :: map f (seq 1 n) ++ [f (S n)])%list
    with ((0 :: map f (seq 1 n)) ++ [f (S n)])%list by reflexivity.
  apply last_last.
Qed.

Lemma length_matrix_bytes M N nz rownz col values tail :
  length (matrix_bytes self M N nz rownz col values tail)
  = (4 * itemsize (Itype self) + length rownz * itemsize (Itype self)
     + length col * itemsize (Itype self) + length values * itemsize (Stype self)
     + length tail)%nat.
Proof.
  unfold matrix_bytes.
  rewrite !length_app, !(length_encode (lawful_I p s i)), (length_encode (lawful_S p s i)).
  cbn [length]. lia.
Qed.

(** [read_mat] on a proper prefix of a well-formed matrix file: where the
    file is cut decides what the call does. *)
Lemma read_mat_cut_layout fs filename N rownz col values K :
  representable self (Z.of_nat (length rownz) + 1) -> representable self N ->
  Forall (representable self) rownz -> Forall (representable self) col ->
  representable self (Z.of_nat (length col)) ->
  last (0 :: cumsum (Itype self) 0 rownz) 0 = Z.of_nat (length col) ->
  length values = length col ->
  (K < length (matrix_bytes self (Z.of_nat (length rownz)) N (Z.of_nat (length col))
                 rownz col values []))%nat ->
  fs filename = Some (firstn K (matrix_bytes self (Z.of_nat (length rownz)) N
                                  (Z.of_nat (length col)) rownz col values [])) ->
  ((K < 4 * itemsize (Itype self))%nat ->
   read_mat host stale self fs filename = Err ShortRead)
  /\ ((4 * itemsize (Itype self) <= K < 5 * itemsize (Itype self))%nat ->
      rownz <> [] ->
      read_mat host stale self fs filename
      = if (Z.of_nat (length col) =? 0)
           && (cast (Itype self) (stale (length rownz)) =? 0)
        then OK ((Z.of_nat (length rownz), N),
                 (mk_ndarray (newbyteorder (Itype self) host) [S (length rownz)]
                    (0 :: map (fun k => cast (Itype self) (stale k))
                            (seq 1 (length rownz))),
                  mk_ndarray (newbyteorder (Itype self) host) [0%nat] [],
                  mk_ndarray (Stype self) [0%nat] []))
        else Err SizeMismatch)
  /\ ((5 * itemsize (Itype self) <= K
       < 4 * itemsize (Itype self) + length rownz * itemsize (Itype self))%nat ->
      read_mat host stale self fs filename = Err ValueError)
  /\ ((4 * itemsize (Itype self) + length rownz * itemsize (Itype self) <= K)%nat ->
      read_mat host stale self fs filename = Err SizeMismatch).
Proof.
  intros HM1 HN Hrow Hcol Hnz Hsum Hlen HK Hfs.
  pose proof (lawful_pos (lawful_I p s i)) as Hp.
  pose proof (lawful_pos (lawful_S p s i)) as HpS.
  assert (HM : representable self (Z.of_nat (length rownz)))
    by (unfold representable in *; lia).
  rewrite length_matrix_bytes in HK. cbn [length] in HK.
  set (isz := itemsize (Itype self)) in *.
  assert (Hhdr : length (encode (Itype self)
                           [Z.of_nat (length rownz); N; Z.of_nat (length col)])
                 = (3 * isz)%nat)
    by (rewrite (length_encode (lawful_I p s i)); reflexivity).
  split.
  { (* inside the magic or the header *)
    intros Hcut. unfold read_mat, open_rb. rewrite Hfs. cbn [bind]. unfold matrix_bytes.
    destruct (Nat.lt_ge_cases K isz) as [H1|H1].
    { now rewrite (@_read1_cut_short Z _ host _ _ _ _ H1). }
    rewrite (@_read1_cut_word Z _ host _ (lawful_I p s i) _ _ _ H1). cbn [bind].
    rewrite cast_I by (apply representable_small; unfold MAT_ID; lia).
    rewrite Z.eqb_refl.
    pose proof (@_read_cut_values Z _ host (Itype self) (lawful_I p s i)
                  [Z.of_nat (length rownz); N; Z.of_nat (length col)]
                  (encode (Itype self) rownz ++ encode (Itype self) col
                   ++ encode (Stype self) values ++ []) (K - isz)%nat) as Hne.
    change (Z.of_nat (length [Z.of_nat (length rownz); N; Z.of_nat (length col)])) with 3
      in Hne.
    fold isz. destruct (_read host _ (Itype self) 3) as [hdr f]. cbn [fst] in Hne.
    unfold size in Hne.
    destruct (data hdr) as [|? [|? [|? [|? ?]]]]; try reflexivity.
    exfalso. apply Hne; [rewrite Hhdr; lia | reflexivity]. }
  (* the header is complete *)
  assert (Hread : (4 * isz <= K)%nat ->
    read_mat host stale self fs filename
    = (let '(rows, fh) :=
         _read (A:=Z) host
           (firstn (K - 4 * isz)
              (encode (Itype self) rownz ++ encode (Itype self) col
               ++ encode (Stype self) values ++ [])) (Itype self)
           (Z.of_nat (length rownz)) in
       AI <- cumsum_into_tail (Itype self) rows
               (set_first (empty stale (newbyteorder (Itype self) host)
                             (S (length rownz))) 0) ;;
       ensure last (data AI) 0 =? Z.of_nat (length col) orelse SizeMismatch ;;
       let '(AJ, fh) := _read (A:=Z) host fh (Itype self) (Z.of_nat (length col)) in
       ensure Z.of_nat (size AJ) =? Z.of_nat (length col) orelse SizeMismatch ;;
       let '(AV, fh) := fromfile (A:=cfloat) fh (Stype self) (Z.of_nat (length col)) in
       ensure Z.of_nat (size AV) =? Z.of_nat (length col) orelse SizeMismatch ;;
       OK ((Z.of_nat (length rownz), N), (AI, AJ, AV)))).
  { intros Hcut.
    assert (Hfs' : fs filename
                   = Some (encode (Itype self) [MAT_ID]
                           ++ encode (Itype self)
                                [Z.of_nat (length rownz); N; Z.of_nat (length col)]
                           ++ firstn (K - 4 * isz)
                                (encode (Itype self) rownz ++ encode (Itype self) col
                                 ++ encode (Stype self) values ++ []))%list).
    { rewrite Hfs. f_equal. unfold matrix_bytes.
      rewrite (@firstn_past Z _ (Itype self))
        by (rewrite !(length_encode (lawful_I p s i)); cbn [length]; fold isz; lia).
      f_equal.
      rewrite (@firstn_past Z _ (Itype self))
        by (rewrite !(length_encode (lawful_I p s i)); cbn [length]; fold isz; lia).
      f_equal. f_equal.
      rewrite !(length_encode (lawful_I p s i)). cbn [length]. fold isz. lia. }
    rewrite (@read_mat_header host stale p s i fs filename _ N _ _ HM HN Hnz Hfs').
    cbv zeta. rewrite np_add_small by assumption.
    destruct (Z.leb_spec 0 (Z.of_nat (length rownz) + 1)); [|lia].
    destruct (Z.eqb_spec (Z.of_nat (length rownz) + 1) 0); [lia|]. cbn [negb].
    replace (Z.to_nat (Z.of_nat (length rownz) + 1)) with (S (length rownz)) by lia.
    reflexivity. }
  split; [|split].
  - (* before the first row count is complete *)
    intros [Hlo Hhi] Hne. rewrite (Hread Hlo).
    assert (HMpos : 1 <= Z.of_nat (length rownz))
      by (destruct rownz; [contradiction | cbn [length]; lia]).
    rewrite _read_none by (try rewrite length_firstn; fold isz; lia).
    unfold cumsum_into_tail. cbn [data bind]. rewrite data_row_pointer.
    destruct (length rownz) as [|n] eqn:Hn; [lia|].
    rewrite last_seq_map.
    change (cast (newbyteorder (Itype self) host) (stale (S n)))
      with (cast (Itype self) (stale (S n))).
    rewrite Z.eqb_sym.
    destruct (Z.eqb_spec (Z.of_nat (length col)) (cast (Itype self) (stale (S n))))
      as [Heq|Hneq].
    + rewrite <- Heq.
      destruct (Z.eqb_spec (Z.of_nat (length col)) 0) as [H0|H0].
      * rewrite H0. cbn [andb].
        change (_read (A:=Z) host [] (Itype self) 0)
          with (_read (A:=Z) host (encode (Itype self) (@nil Z) ++ []) (Itype self)
                  (Z.of_nat (length (@nil Z)))).
        rewrite (_read_encode host (lawful_I p s i)). cbn [map length].
        change (fromfile (A:=cfloat) [] (Stype self) 0)
          with (fromfile (A:=cfloat) (encode (Stype self) (@nil cfloat) ++ []) (Stype self)
                  (Z.of_nat (length (@nil cfloat)))).
        rewrite (fromfile_encode (lawful_S p s i)). reflexivity.
      * cbn [andb].
        assert (Hcol1 : 1 <= Z.of_nat (length col)) by lia.
        rewrite _read_none by (cbn [length]; lia || assumption).
        unfold size. cbn [data length].
        destruct (Z.eqb_spec (Z.of_nat 0) (Z.of_nat (length col))); [lia | reflexivity].
    + destruct (Z.eqb_spec (Z.of_nat (length col)) 0) as [H0|H0]; cbn [andb];
        [|reflexivity].
      destruct (Z.eqb_spec (cast (Itype self) (stale (S n))) 0); [lia | reflexivity].
  - (* some row counts, not all *)
    intros [Hlo Hhi]. rewrite (Hread ltac:(lia)).
    destruct (@_read_some
                (firstn (K - 4 * isz)
                   (encode (Itype self) rownz ++ encode (Itype self) col
                    ++ encode (Stype self) values ++ []))
                (Z.of_nat (length rownz))) as (x & l & f & -> & Hfew).
    + rewrite length_firstn, !length_app, !(length_encode (lawful_I p s i)). fold isz. lia.
    + rewrite length_firstn. fold isz. nia.
    + unfold cumsum_into_tail. cbn [data]. rewrite size_row_pointer.
      unfold size. cbn [data length].
      destruct (Nat.eqb_spec (S (length l)) (S (length rownz) - 1)); [lia | reflexivity].
  - (* the row counts are complete *)
    intros Hlo. rewrite (Hread ltac:(lia)).
    rewrite (@firstn_past Z _ (Itype self))
      by (rewrite !(length_encode (lawful_I p s i)); cbn [length]; fold isz; lia).
    rewrite (_read_encode host (lawful_I p s i)).
    rewrite cumsum_into_tail_full by (unfold size; cbn [data]; now rewrite length_map).
    cbn [bind data].
    rewrite (map_cast_I Hrow), Hsum, Z.eqb_refl.
    rewrite (length_encode (lawful_I p s i)). fold isz.
    set (K3 := (K - 4 * isz - length rownz * isz)%nat).
    destruct (Nat.lt_ge_cases K3 (length col * isz)) as [Hc|Hc].
    + (* inside the column indices *)
      pose proof (@_read_cut_values Z _ host (Itype self) (lawful_I p s i) col
                    (encode (Stype self) values ++ []) K3) as Hne.
      destruct (_read host _ (Itype self) (Z.of_nat (length col))) as [AJ f].
      cbn [fst] in Hne.
      destruct (Z.eqb_spec (Z.of_nat (size AJ)) (Z.of_nat (length col))) as [Heq|];
        [|reflexivity].
      exfalso. apply Hne; [|exact Heq].
      rewrite (length_encode (lawful_I p s i)). fold isz. exact Hc.
    + (* inside the values *)
      rewrite (@firstn_past Z _ (Itype self))
        by (rewrite !(length_encode (lawful_I p s i)); cbn [length]; fold isz; lia).
      rewrite (_read_encode host (lawful_I p s i)).
      unfold size at 1. cbn [data]. rewrite length_map, Z.eqb_refl.
      rewrite (length_encode (lawful_I p s i)). fold isz.
      rewrite <- Hlen.
      pose proof (@fromfile_cut_values cfloat _ host (Stype self) (lawful_S p s i) values []
                    (K3 - length values * isz)%nat) as Hne.
      destruct (fromfile _ (Stype self) (Z.of_nat (length values))) as [AV f].
      cbn [fst] in Hne.
      destruct (Z.eqb_spec (Z.of_nat (size AV)) (Z.of_nat (length values))) as [Heq|];
        [|reflexivity].
      exfalso. apply Hne; [|exact Heq].
      rewrite (length_encode (lawful_S p s i)). unfold K3. lia.
Qed.

End MatrixValidation.

(** X10.  What [read_mat] checks besides the sum of the row counts.  It
    fails with BadMagic when the first word is not the matrix identifier,
    with ShortRead when fewer than three words follow it, with ValueError
    when M is below -1 (an array of negative length), with IndexError when
    M is -1 (the empty row pointer has no element 0), and with SizeMismatch
    when the row counts add up to a negative nz.  On a well-formed file cut
    short it fails with ShortRead when the cut is inside the first four
    words, with ValueError when some but not all row counts are left, and
    with SizeMismatch when the cut is inside the column indices or the
    values.  When the cut is before the end of the first row count nothing
    is stored in the row pointer and nothing is checked: the call fails
    with SizeMismatch unless nz is 0 and the last entry of the
    uninitialised row pointer happens to be 0, and then it returns that row
    pointer with no column indices and no values. *)
Theorem read_mat_validation :
  forall (host : endian) (stale : nat -> Z)
         (p : precision_t) (s : scalar_t) (i : indices_t)
         (fs : filesystem) (filename : string),
    (forall magic tail,
        representable (__init__ p s i) magic -> magic <> MAT_ID ->
        fs filename = Some (encode (Itype (__init__ p s i)) [magic] ++ tail)%list ->
        read_mat host stale (__init__ p s i) fs filename = Err BadMagic)
    /\ (forall tail,
        (length tail < 3 * itemsize (Itype (__init__ p s i)))%nat ->
        fs filename = Some (encode (Itype (__init__ p s i)) [MAT_ID] ++ tail)%list ->
        read_mat host stale (__init__ p s i) fs filename = Err ShortRead)
    /\ (forall M N nz tail,
        representable (__init__ p s i) M -> representable (__init__ p s i) N ->
        representable (__init__ p s i) nz -> M < -1 ->
        fs filename = Some (encode (Itype (__init__ p s i)) [MAT_ID]
                            ++ encode (Itype (__init__ p s i)) [M; N; nz] ++ tail)%list ->
        read_mat host stale (__init__ p s i) fs filename = Err ValueError)
    /\ (forall N nz tail,
        representable (__init__ p s i) N -> representable (__init__ p s i) nz ->
        fs filename = Some (encode (Itype (__init__ p s i)) [MAT_ID]
                            ++ encode (Itype (__init__ p s i)) [-1; N; nz] ++ tail)%list ->
        read_mat host stale (__init__ p s i) fs filename = Err IndexError)
    /\ (forall N nz rownz tail,
        representable (__init__ p s i) (Z.of_nat (length rownz) + 1) ->
        representable (__init__ p s i) N -> representable (__init__ p s i) nz ->
        Forall (representable (__init__ p s i)) rownz ->
        last (0 :: cumsum (Itype (__init__ p s i)) 0 rownz) 0 = nz -> nz < 0 ->
        fs filename = Some (encode (Itype (__init__ p s i)) [MAT_ID]
                            ++ encode (Itype (__init__ p s i)) [Z.of_nat (length rownz); N; nz]
                            ++ encode (Itype (__init__ p s i)) rownz ++ tail)%list ->
        read_mat host stale (__init__ p s i) fs filename = Err SizeMismatch)
    /\ (forall N rownz col values K,
        representable (__init__ p s i) (Z.of_nat (length rownz) + 1) ->
        representable (__init__ p s i) N ->
        Forall (representable (__init__ p s i)) rownz ->
        Forall (representable (__init__ p s i)) col ->
        representable (__init__ p s i) (Z.of_nat (length col)) ->
        last (0 :: cumsum (Itype (__init__ p s i)) 0 rownz) 0 = Z.of_nat (length col) ->
        length values = length col ->
        (K < length (matrix_bytes (__init__ p s i) (Z.of_nat (length rownz)) N
                       (Z.of_nat (length col)) rownz col values []))%nat ->
        fs filename = Some (firstn K (matrix_bytes (__init__ p s i)
                                        (Z.of_nat (length rownz)) N
                                        (Z.of_nat (length col)) rownz col values [])) ->
        ((K < 4 * itemsize (Itype (__init__ p s i)))%nat ->
         read_mat host stale (__init__ p s i) fs filename = Err ShortRead)
        /\ ((4 * itemsize (Itype (__init__ p s i)) <= K
             < 5 * itemsize (Itype (__init__ p s i)))%nat ->
            rownz <> [] ->
            read_mat host stale (__init__ p s i) fs filename
            = if (Z.of_nat (length col) =? 0)
                 && (cast (Itype (__init__ p s i)) (stale (length rownz)) =? 0)
              then OK ((Z.of_nat (length rownz), N),
                       (mk_ndarray (newbyteorder (Itype (__init__ p s i)) host)
                          [S (length rownz)]
                          (0 :: map (fun k => cast (Itype (__init__ p s i)) (stale k))
                                  (seq 1 (length rownz))),
                        mk_ndarray (newbyteorder (Itype (__init__ p s i)) host) [0%nat] [],
                        mk_ndarray (Stype (__init__ p s i)) [0%nat] []))
              else Err SizeMismatch)
        /\ ((5 * itemsize (Itype (__init__ p s i)) <= K
             < 4 * itemsize (Itype (__init__ p s i))
               + length rownz * itemsize (Itype (__init__ p s i)))%nat ->
            read_mat host stale (__init__ p s i) fs filename = Err ValueError)
        /\ ((4 * itemsize (Itype (__init__ p s i))
             + length rownz * itemsize (Itype (__init__ p s i)) <= K)%nat ->
            read_mat host stale (__init__ p s i) fs filename = Err SizeMismatch)).
Proof.
  intros host stale p s i fs filename. repeat apply conj.
  - intros magic tail. apply read_mat_bad_magic.
  - intros tail. apply read_mat_short_header.
  - intros M N nz tail. apply read_mat_negative_rows.
  - intros N nz tail. apply read_mat_minus_one_row.
  - intros N nz rownz tail. apply read_mat_negative_count.
  - intros N rownz col values K. apply read_mat_cut_layout.
Qed.

Lemma read_mat_validation_witness :
  read_mat LittleEndian (fun _ => 0) ex_self
    (one_file ex_name (encode (Itype ex_self) [VEC_ID] ++ [])) ex_name = Err BadMagic
  /\ read_mat LittleEndian (fun _ => 0) ex_self
       (one_file ex_name (encode (Itype ex_self) [MAT_ID] ++ encode (Itype ex_self) [2; 2]))
       ex_name = Err ShortRead
  /\ read_mat LittleEndian (fun _ => 0) ex_self
       (one_file ex_name (encode (Itype ex_self) [MAT_ID] ++ encode (Itype ex_self) [-3; 2; 0]
                          ++ [])) ex_name = Err ValueError
  /\ read_mat LittleEndian (fun _ => 0) ex_self
       (one_file ex_name (encode (Itype ex_self) [MAT_ID] ++ encode (Itype ex_self) [-1; 2; 0]
                          ++ [])) ex_name = Err IndexError
  /\ read_mat LittleEndian (fun _ => 0) ex_self
       (one_file ex_name (encode (Itype ex_self) [MAT_ID]
                          ++ encode (Itype ex_self) [Z.of_nat (length [1; -3]); 2; -2]
                          ++ encode (Itype ex_self) [1; -3] ++ []))
       ex_name = Err SizeMismatch
  /\ read_mat LittleEndian (fun _ => 0) ex_self
       (one_file ex_name (firstn 10 ex_matrix_file)) ex_name = Err ShortRead
  /\ read_mat LittleEndian (fun _ => 0) ex_self
       (one_file ex_name (firstn 22 ex_matrix_file)) ex_name = Err ValueError
  /\ read_mat LittleEndian (fun _ => 0) ex_self
       (one_file ex_name (firstn 30 ex_matrix_file)) ex_name = Err SizeMismatch
  /\ read_mat LittleEndian (fun k => match k with 1%nat => 2 | _ => 0 end) ex_self
       (one_file ex_name
          (firstn 17 (matrix_bytes ex_self (Z.of_nat (length [0; 0])) 2
                        (Z.of_nat (length (@nil Z))) [0; 0] [] [] []))) ex_name
     = OK ((2, 2),
           (mk_ndarray (newbyteorder (Itype ex_self) LittleEndian) [3%nat] [0; 2; 0],
            mk_ndarray (newbyteorder (Itype ex_self) LittleEndian) [0%nat] [],
            mk_ndarray (Stype ex_self) [0%nat] [])).
Proof.
  pose proof (fun stale fs =>
                @read_mat_validation LittleEndian stale double real bit32 fs ex_name) as H.
  repeat apply conj.
  - apply (proj1 (H _ _) VEC_ID []); by_computation.
  - apply (proj1 (proj2 (H _ _)) (encode (Itype ex_self) [2; 2])); by_computation.
  - apply (proj1 (proj2 (proj2 (H _ _))) (-3) 2 0 []); by_computation.
  - apply (proj1 (proj2 (proj2 (proj2 (H _ _)))) 2 0 []); by_computation.
  - apply (proj1 (proj2 (proj2 (proj2 (proj2 (H _ _))))) 2 (-2) [1; -3] []); by_computation.
  - apply (proj2 (proj2 (proj2 (proj2 (proj2 (H _ _))))) 2 [1; 1] [0; 1] [fl_1; fl_1]
             10%nat); by_computation.
  - apply (proj2 (proj2 (proj2 (proj2 (proj2 (H _ _))))) 2 [1; 1] [0; 1] [fl_1; fl_1]
             22%nat); by_computation.
  - apply (proj2 (proj2 (proj2 (proj2 (proj2 (H _ _))))) 2 [1; 1] [0; 1] [fl_1; fl_1]
             30%nat); by_computation.
  - refine (eq_trans
              (proj1 (proj2
                 (proj2 (proj2 (proj2 (proj2 (proj2 (H _ _))))) 2 [0; 0] [] [] 17%nat
                    _ _ _ _ _ _ _ _ _)) _ _) _); by_computation.
Defined.



Section Magic.
Variable host : endian.
Variables (p : precision_t) (s : scalar_t) (i : indices_t).
Local Abbreviation self := (__init__ p s i).

(** Every file [write] makes starts with the geometry identifier. *)
Lemma write_magic fs filename g geometry nsd fs1 :
  write host self fs filename g geometry nsd = (fs1, OK tt) ->
  exists rest, fs1 filename = Some (encode (Itype self) [IGA_ID] ++ rest)%list.
Proof.
  unfold write. cbv zeta.
  match goal with
  | |- context [match ?prep with OK _ => _ | Err _ => _ end] =>
    destruct prep as [[Cw descr]|e]; [|discriminate]
  end.
  unfold open_wb, close_wb. intros H. injection H as <-.
  unfold fs_put. rewrite String.eqb_refl, write_axes_fold.
  destruct Cw as [[n Cw]|]; rewrite !_write_encode; cbn [py_int data app];
    rewrite <- !app_assoc; eexists; reflexivity.
Qed.

End Magic.

(** X12.  The three formats are told apart by their first word: a file made
    by [write] is rejected with BadMagic by [read_vec] and [read_mat], a
    file made by [write_vec] is rejected with BadMagic by [read] and
    [read_mat], and a file that starts with the matrix identifier is
    rejected with BadMagic by [read] and [read_vec]. *)
Theorem formats_are_told_apart :
  forall (host : endian) (stale : nat -> Z)
         (p : precision_t) (s : scalar_t) (i : indices_t)
         (fs : filesystem) (filename : string),
    (forall g geometry nsd fs1,
        write host (__init__ p s i) fs filename g geometry nsd = (fs1, OK tt) ->
        (forall nurbs, read_vec host (__init__ p s i) fs1 filename nurbs = Err BadMagic)
        /\ read_mat host stale (__init__ p s i) fs1 filename = Err BadMagic)
    /\ (forall A nurbs fs1,
        write_vec host (__init__ p s i) fs filename A nurbs = (fs1, OK tt) ->
        read host (__init__ p s i) fs1 filename = Err BadMagic
        /\ read_mat host stale (__init__ p s i) fs1 filename = Err BadMagic)
    /\ (forall rest,
        fs filename = Some (encode (Itype (__init__ p s i)) [MAT_ID] ++ rest)%list ->
        read host (__init__ p s i) fs filename = Err BadMagic
        /\ forall nurbs, read_vec host (__init__ p s i) fs filename nurbs = Err BadMagic).
Proof.
  intros host stale p s i fs filename.
  assert (HI : representable (__init__ p s i) IGA_ID)
    by (apply representable_small; unfold IGA_ID; lia).
  assert (HV : representable (__init__ p s i) VEC_ID)
    by (apply representable_small; unfold VEC_ID; lia).
  assert (HM : representable (__init__ p s i) MAT_ID)
    by (apply representable_small; unfold MAT_ID; lia).
  split; [|split].
  - intros g geometry nsd fs1 Hw.
    destruct (@write_magic host p s i fs filename g geometry nsd fs1 Hw) as (rest & Hfs).
    split.
    + intros nurbs.
      apply (@read_vec_bad_magic host p s i fs1 filename nurbs IGA_ID rest HI);
        [discriminate | exact Hfs].
    + apply (@read_mat_bad_magic host stale p s i fs1 filename IGA_ID rest HI);
        [discriminate | exact Hfs].
  - intros A nurbs fs1 Hw.
    destruct (@write_vec_layout host p s i fs filename A nurbs fs1 Hw) as (values & -> & _).
    assert (Hfs : fs_put (fs_put fs filename []) filename
                    (vector_bytes (__init__ p s i) values) filename
                  = Some (encode (Itype (__init__ p s i)) [VEC_ID]
                          ++ (encode (Itype (__init__ p s i)) [Z.of_nat (length values)]
                              ++ encode (Stype (__init__ p s i)) values))%list)
      by (unfold fs_put; now rewrite String.eqb_refl).
    split.
    + eapply (@read_bad_magic host p s i _ filename VEC_ID); [exact HV | discriminate |].
      exact Hfs.
    + eapply (@read_mat_bad_magic host stale p s i _ filename VEC_ID); [exact HV | discriminate |].
      exact Hfs.
  - intros rest Hfs. split.
    + eapply (@read_bad_magic host p s i _ filename MAT_ID); [exact HM | discriminate |].
      exact Hfs.
    + intros nurbs.
      apply (@read_vec_bad_magic host p s i fs filename nurbs MAT_ID rest HM);
        [discriminate | exact Hfs].
Qed.

Lemma formats_are_told_apart_witness :
  ((forall nurbs,
       read_vec LittleEndian ex_self
         (fst (write LittleEndian ex_self no_files ex_name ex_line true None)) ex_name nurbs
       = Err BadMagic)
   /\ read_mat LittleEndian (fun _ => 0) ex_self
        (fst (write LittleEndian ex_self no_files ex_name ex_line true None)) ex_name
      = Err BadMagic)
  /\ (read LittleEndian ex_self
        (fst (write_vec LittleEndian ex_self no_files ex_name ex_field None)) ex_name
      = Err BadMagic
      /\ read_mat LittleEndian (fun _ => 0) ex_self
           (fst (write_vec LittleEndian ex_self no_files ex_name ex_field None)) ex_name
         = Err BadMagic)
  /\ read LittleEndian ex_self (one_file ex_name ex_matrix_file) ex_name = Err BadMagic.
Proof.
  destruct (@formats_are_told_apart LittleEndian (fun _ => 0) double real bit32 no_files ex_name)
    as (H1 & H2 & _).
  destruct (@formats_are_told_apart LittleEndian (fun _ => 0) double real bit32
              (one_file ex_name ex_matrix_file) ex_name) as (_ & _ & H3).
  split; [|split].
  - apply (H1 ex_line true None). vm_compute. reflexivity.
  - apply (H2 ex_field None). vm_compute. reflexivity.
  - apply (H3 (encode (Itype ex_self) [2; 2; 2] ++ encode (Itype ex_self) [1; 1]
               ++ encode (Itype ex_self) [0; 1] ++ encode (Stype ex_self) [fl_1; fl_1]
               ++ [])%list).
    vm_compute. reflexivity.
Defined.

(** X13.  The writers touch only the file they are given: whether it
    succeeds or fails, [write] and [write_vec] leave every other file as it
    was; and a call that succeeds replaces the content of the file, so what
    it leaves does not depend on what the file held before. *)
Theorem writers_touch_only_the_named_file :
  forall (host : endian) (self : PetIGA) (fs : filesystem) (filename : string)
         (g : NURBS) (geometry : bool) (nsd : option Z)
         (A : ndarray cfloat) (nurbs : option NURBS),
    (forall other : string,
        other <> filename ->
        fst (write host self fs filename g geometry nsd) other = fs other
        /\ fst (write_vec host self fs filename A nurbs) other = fs other)
    /\ (forall old : list byte,
        snd (write host self fs filename g geometry nsd) = OK tt ->
        fst (write host self (fs_put fs filename old) filename g geometry nsd) filename
        = fst (write host self fs filename g geometry nsd) filename)
    /\ (forall old : list byte,
        snd (write_vec host self fs filename A nurbs) = OK tt ->
        fst (write_vec host self (fs_put fs filename old) filename A nurbs) filename
        = fst (write_vec host self fs filename A nurbs) filename).
Proof.
  intros host self fs filename g geometry nsd A nurbs. split; [|split].
  - intros other Hne. apply String.eqb_neq in Hne. split.
    + unfold write. cbv zeta.
      match goal with
      | |- context [match ?prep with OK _ => _ | Err _ => _ end] =>
        destruct prep as [[Cw descr]|e]; [|reflexivity]
      end.
      unfold open_wb, close_wb, fs_put. cbn [fst]. now rewrite Hne.
    + unfold write_vec. cbv zeta.
      match goal with
      | |- context [match ?prep with OK _ => _ | Err _ => _ end] =>
        destruct prep as [B|e]; [|reflexivity]
      end.
      unfold open_wb, close_wb, fs_put. cbn [fst]. now rewrite Hne.
  - intros old. unfold write. cbv zeta.
    match goal with
    | |- context [match ?prep with OK _ => _ | Err _ => _ end] =>
      destruct prep as [[Cw descr]|e]; [|discriminate]
    end.
    intros _. unfold open_wb, close_wb, fs_put. cbn [fst]. now rewrite String.eqb_refl.
  - intros old. unfold write_vec. cbv zeta.
    match goal with
    | |- context [match ?prep with OK _ => _ | Err _ => _ end] =>
      destruct prep as [B|e]; [|discriminate]
    end.
    intros _. unfold open_wb, close_wb, fs_put. cbn [fst]. now rewrite String.eqb_refl.
Qed.

Lemma writers_touch_only_the_named_file_witness :
  (fst (write LittleEndian ex_self (one_file "other.dat" [Byte.x2a]) ex_name
          ex_line true None) "other.dat"%string
   = one_file "other.dat" [Byte.x2a] "other.dat"%string
   /\ fst (write_vec LittleEndian ex_self (one_file "other.dat" [Byte.x2a]) ex_name
             ex_field None) "other.dat"%string
      = one_file "other.dat" [Byte.x2a] "other.dat"%string)
  /\ fst (write LittleEndian ex_self (fs_put no_files ex_name [Byte.x2a; Byte.x2a]) ex_name
            ex_line true None) ex_name
     = fst (write LittleEndian ex_self no_files ex_name ex_line true None) ex_name
  /\ fst (write_vec LittleEndian ex_self (fs_put no_files ex_name [Byte.x2a; Byte.x2a])
            ex_name ex_field None) ex_name
     = fst (write_vec LittleEndian ex_self no_files ex_name ex_field None) ex_name.
Proof.
  split; [|split].
  - apply (proj1 (@writers_touch_only_the_named_file LittleEndian ex_self
                    (one_file "other.dat" [Byte.x2a]) ex_name ex_line true None
                    ex_field None) "other.dat"%string).
    vm_compute. discriminate.
  - apply (proj1 (proj2 (@writers_touch_only_the_named_file LittleEndian ex_self
                    no_files ex_name ex_line true None ex_field None))
             [Byte.x2a; Byte.x2a]).
    vm_compute. reflexivity.
  - apply (proj2 (proj2 (@writers_touch_only_the_named_file LittleEndian ex_self
                    no_files ex_name ex_line true None ex_field None))
             [Byte.x2a; Byte.x2a]).
    vm_compute. reflexivity.
Defined.

Section FileSize.
Variable host : endian.
Variables (p : precision_t) (s : scalar_t) (i : indices_t).
Local Abbreviation self := (__init__ p s i).

Lemma length_control_bytes nsd values :
  length (control_bytes self nsd values)
  = (3 * itemsize (Itype self) + length values * itemsize (Stype self))%nat.
Proof.
  unfold control_bytes.
  rewrite !length_app, !(length_encode (lawful_I p s i)), (length_encode (lawful_S p s i)).
  cbn [length]. lia.
Qed.

Lemma length_vector_bytes values :
  length (vector_bytes self values)
  = (2 * itemsize (Itype self) + length values * itemsize (Stype self))%nat.
Proof.
  unfold vector_bytes.
  rewrite !length_app, !(length_encode (lawful_I p s i)), (length_encode (lawful_S p s i)).
  cbn [length]. lia.
Qed.

End FileSize.

(** X14.  The size of the file [write] makes of a valid geometry whose
    counts fit the Index type: three Index words, then for every axis two
    Index words and its knots as Real values, and, when control data is
    written with [nsd] saved spatial dimensions, three more Index words and
    [nsd + 1] Scalar values for every grid point. *)
Theorem geometry_file_size :
  forall (host : endian) (p : precision_t) (s : scalar_t) (i : indices_t)
         (fs : filesystem) (filename : string) (g : NURBS) (c : ndarray cfloat) (nsd : Z),
    valid_geometry (__init__ p s i) g c ->
    fits_index (__init__ p s i) g nsd ->
    NURBS_dim g <= nsd <= 3 ->
    exists F F0,
      fst (write host (__init__ p s i) fs filename g true (Some nsd)) filename = Some F
      /\ fst (write host (__init__ p s i) fs filename g false None) filename = Some F0
      /\ length F0 = (3 * itemsize (Itype (__init__ p s i))
                      + list_sum (map (axis_length (__init__ p s i)) (knots g)))%nat
      /\ length F = (length F0 + 3 * itemsize (Itype (__init__ p s i))
                     + (Z.to_nat nsd + 1) * Ix.prod (NURBS_shape g)
                       * itemsize (Stype (__init__ p s i)))%nat.
Proof.
  intros host p s i fs filename g c nsd Hv _ Hr.
  destruct Hv as [Hc _ _ Hs Hrank _ _ _ _ _].
  rewrite (@write_geometry host p s i fs filename g c (NURBS_shape g) (Some nsd) nsd
             Hc Hs eq_refl Hr).
  rewrite write_topology. cbn [fst]. unfold fs_put. rewrite String.eqb_refl.
  eexists. eexists. split; [reflexivity|]. split; [reflexivity|].
  rewrite !(length_geometry_bytes p s i).
  assert (Hsnd : map snd (List.combine (NURBS_degree g) (knots g)) = knots g).
  { apply map_snd_combine. unfold NURBS_degree.
    rewrite length_map, length_combine, Hrank. lia. }
  rewrite Hsnd, length_control_bytes. cbn [length].
  assert (Hcount : length (data (stored nsd c))
                   = (S (Z.to_nat nsd) * Ix.prod (NURBS_shape g))%nat)
    by (exact (@size_stored _ _ c (NURBS_shape g) (Z.to_nat nsd) Hs)).
  rewrite Hcount. split; lia.
Qed.

Lemma geometry_file_size_witness :
  exists F F0,
    fst (write LittleEndian ex_self no_files ex_name ex_square true (Some 3)) ex_name = Some F
    /\ fst (write LittleEndian ex_self no_files ex_name ex_square false None) ex_name = Some F0
    /\ length F0 = (3 * itemsize (Itype ex_self)
                    + list_sum (map (axis_length ex_self) (knots ex_square)))%nat
    /\ length F = (length F0 + 3 * itemsize (Itype ex_self)
                   + (Z.to_nat 3 + 1) * Ix.prod (NURBS_shape ex_square)
                     * itemsize (Stype ex_self))%nat.
Proof.
  apply (@geometry_file_size LittleEndian double real bit32 no_files ex_name
           ex_square ex_square_control 3).
  - valid_by_computation.
  - valid_by_computation.
  - by_computation.
Defined.



Section StoredOrder.
Context {A : Type} {E : Element A}.
Local Open Scope nat_scope.

(** Where [ravel('f')] after [rollaxis(-1)] puts the element [idx ++ [k]]:
    the last axis varies fastest, then the first, then the second, ... *)
Lemma nth_ravel_rollaxis (b : ndarray A) s c idx k :
  shape b = s ++ [c] -> Ix.in_range s idx -> k < c ->
  nth (k + c * Ix.ravel_f s idx) (data (ravel_f (rollaxis_last b))) zero
  = get b (idx ++ [k]).
Proof.
  intros Hs Hidx Hk.
  assert (Hki : Ix.in_range (c :: s) (k :: idx)) by (now constructor).
  unfold ravel_f, rollaxis_last. rewrite Hs, last_snoc, removelast_snoc.
  cbn [data shape tabulate].
  change (k + c * Ix.ravel_f s idx) with (Ix.ravel_f (c :: s) (k :: idx)).
  rewrite nth_map_seq by (now apply ravel_f_lt).
  rewrite unravel_f_ravel_f by assumption.
  fold (tabulate (dt b) (c :: s)
          (fun idx => match idx with k :: i => get b (i ++ [k]) | [] => zero end)).
  now rewrite get_tabulate.
Qed.

Lemma ravel_c_snoc s c idx k :
  Ix.in_range s idx -> Ix.ravel_c (s ++ [c]) (idx ++ [k]) = Ix.ravel_c s idx * c + k.
Proof.
  induction 1 as [|n j s idx Hj _ IH]; cbn [app Ix.ravel_c Ix.prod]; [lia|].
  rewrite IH, prod_app. cbn [Ix.prod]. lia.
Qed.

(** Arrays with the same shape and elements are stored the same way. *)
Lemma data_rollaxis_last_same (a b : ndarray A) :
  shape a = shape b -> data a = data b ->
  shape (rollaxis_last a) = shape (rollaxis_last b)
  /\ data (rollaxis_last a) = data (rollaxis_last b).
Proof.
  intros Hs Hd. unfold rollaxis_last. cbn [shape data tabulate]. rewrite Hs.
  split; [reflexivity|]. apply map_ext. intros j.
  destruct (Ix.unravel_c _ j); [reflexivity|]. now apply get_same_data.
Qed.

Lemma data_ravel_f_same (a b : ndarray A) :
  shape a = shape b -> data a = data b -> data (ravel_f a) = data (ravel_f b).
Proof.
  intros Hs Hd. unfold ravel_f. cbn [data]. rewrite Hs.
  apply map_ext. intros j. now apply get_same_data.
Qed.

(** The values stored for a control array do not see its unsaved channels. *)
Lemma stored_pad_channels d (c : ndarray A) sizes n :
  shape c = sizes ++ [4] -> n <= 3 ->
  data (ravel_f (rollaxis_last (take_last (pad_channels d n c) (seq 0 n ++ [3]))))
  = data (ravel_f (rollaxis_last (take_last c (seq 0 n ++ [3])))).
Proof.
  intros Hs Hn.
  assert (Hlen : length (seq 0 n ++ [3]) = S n)
    by (rewrite length_app, length_seq; simpl; lia).
  assert (Htake : take_last (pad_channels d n c) (seq 0 n ++ [3])
                  = mk_ndarray d (sizes ++ [S n]) (data (take_last c (seq 0 n ++ [3])))).
  { unfold take_last. rewrite shape_pad_channels, Hs, removelast_snoc, Hlen.
    unfold tabulate at 1. f_equal. cbn [data tabulate].
    apply map_seq_ext. intros j Hj.
    pose proof (@unravel_c_in_range _ _ Hj) as Hin.
    destruct (@in_range_snoc _ _ _ Hin) as (i0 & k & -> & Hi & Hk).
    rewrite removelast_snoc, last_snoc.
    assert (Hk' : nth k (seq 0 n ++ [3]) 0 < n \/ nth k (seq 0 n ++ [3]) 0 = 3).
    { destruct (Nat.eq_dec k n) as [->|Hne].
      - right. apply nth_idx_weight.
      - left. rewrite nth_idx_spatial by lia. lia. }
    rewrite get_pad_channels.
    - rewrite last_snoc.
      destruct Hk' as [Hlt | Heq].
      + destruct (Nat.ltb_spec (nth k (seq 0 n ++ [3]) 0) n); [reflexivity | lia].
      + rewrite Heq. cbn [Nat.eqb]. now rewrite orb_true_r.
    - rewrite Hs. apply in_range_app; [assumption|].
      apply Forall2_cons; [lia | constructor]. }
  rewrite Htake.
  assert (Hshape : shape (take_last c (seq 0 n ++ [3])) = sizes ++ [S n]).
  { unfold take_last. cbn [shape tabulate]. now rewrite Hs, removelast_snoc, Hlen. }
  destruct (@data_rollaxis_last_same
              (mk_ndarray d (sizes ++ [S n]) (data (take_last c (seq 0 n ++ [3]))))
              (take_last c (seq 0 n ++ [3]))) as [H1 H2];
    [now rewrite Hshape | reflexivity |].
  now apply data_ravel_f_same.
Qed.

End StoredOrder.

(** X16.  Layout of the control block: for a valid geometry whose counts
    fit the Index type, [write] with [nsd] saved spatial dimensions lays the
    file out as header, axes and control block, and the block holds
    [nsd + 1] values for every grid point (its first [nsd] coordinates,
    then its weight), the points in the order in which the first grid index
    varies fastest; the values are those of the control array, unchanged. *)
Theorem control_values_layout :
  forall (host : endian) (p : precision_t) (s : scalar_t) (i : indices_t)
         (fs : filesystem) (filename : string) (g : NURBS) (c : ndarray cfloat) (nsd : Z),
    valid_geometry (__init__ p s i) g c ->
    fits_index (__init__ p s i) g nsd ->
    NURBS_dim g <= nsd <= 3 ->
    exists values : list cfloat,
      fst (write host (__init__ p s i) fs filename g true (Some nsd)) filename
      = Some (geometry_bytes (__init__ p s i) IGA_ID 1 (NURBS_dim g)
                (List.combine (NURBS_degree g) (knots g))
                (control_bytes (__init__ p s i) nsd values))
      /\ length values = ((Z.to_nat nsd + 1) * Ix.prod (NURBS_shape g))%nat
      /\ representable (__init__ p s i) (Z.of_nat (length values))
      /\ Forall (is_scalar (__init__ p s i)) values
      /\ forall (idx : list nat) (k : nat),
           Ix.in_range (NURBS_shape g) idx -> (k <= Z.to_nat nsd)%nat ->
           nth (k + (Z.to_nat nsd + 1) * Ix.ravel_f (NURBS_shape g) idx) values zero
           = get c (idx ++ [if (k <? Z.to_nat nsd)%nat then k else 3%nat]).
Proof.
  intros host p s i fs filename g c nsd Hv [_ Hfc] Hr.
  assert (Hv' := Hv). destruct Hv' as [Hc Hwf Hdim Hs _ _ _ _ _ Hrc].
  exists (data (stored nsd c)).
  rewrite (@write_geometry host p s i fs filename g c (NURBS_shape g) (Some nsd) nsd
             Hc Hs eq_refl Hr).
  cbn [fst]. unfold fs_put. rewrite String.eqb_refl.
  assert (Hcount : length (data (stored nsd c))
                   = ((Z.to_nat nsd + 1) * Ix.prod (NURBS_shape g))%nat).
  { replace (Z.to_nat nsd + 1)%nat with (S (Z.to_nat nsd)) by lia.
    exact (@size_stored _ _ c (NURBS_shape g) (Z.to_nat nsd) Hs). }
  split; [reflexivity|]. split; [exact Hcount|]. split; [|split].
  - rewrite Hcount.
    replace (Z.of_nat ((Z.to_nat nsd + 1) * Ix.prod (NURBS_shape g)))
      with ((nsd + 1) * Z.of_nat (Ix.prod (NURBS_shape g))) by lia.
    exact Hfc.
  - unfold stored.
    apply (@Forall_stored _ _ (is_scalar (__init__ p s i)) c (NURBS_shape g) (Z.to_nat nsd)
             Hwf Hs); [lia|].
    eapply Forall_impl; [|exact Hrc]. intros x Hx. now apply is_real_is_scalar.
  - intros idx k Hidx Hk. unfold stored.
    set (n := Z.to_nat nsd) in *.
    assert (Hlen : length (seq 0 n ++ [3%nat]) = S n)
      by (rewrite length_app, length_seq; simpl; lia).
    replace (n + 1)%nat with (S n) by lia.
    rewrite (@nth_ravel_rollaxis _ _ (take_last c (seq 0 n ++ [3%nat])) (NURBS_shape g) (S n));
      [| unfold take_last; cbn [shape tabulate];
         now rewrite Hs, removelast_snoc, Hlen
       | assumption | lia].
    rewrite (@get_take_last _ _ c (NURBS_shape g) 4 _ idx k Hs Hidx) by (rewrite Hlen; lia).
    f_equal. f_equal. f_equal.
    destruct (Nat.ltb_spec k n) as [Hlt | Hge].
    + now apply nth_idx_spatial.
    + replace k with n by lia. apply nth_idx_weight.
Qed.

Lemma control_values_layout_witness :
  exists values : list cfloat,
    fst (write LittleEndian ex_self no_files ex_name ex_square true (Some 2)) ex_name
    = Some (geometry_bytes ex_self IGA_ID 1 (NURBS_dim ex_square)
              (List.combine (NURBS_degree ex_square) (knots ex_square))
              (control_bytes ex_self 2 values))
    /\ length values = ((Z.to_nat 2 + 1) * Ix.prod (NURBS_shape ex_square))%nat
    /\ representable ex_self (Z.of_nat (length values))
    /\ Forall (is_scalar ex_self) values
    /\ forall (idx : list nat) (k : nat),
         Ix.in_range (NURBS_shape ex_square) idx -> (k <= Z.to_nat 2)%nat ->
         nth (k + (Z.to_nat 2 + 1) * Ix.ravel_f (NURBS_shape ex_square) idx) values zero
         = get ex_square_control (idx ++ [if (k <? Z.to_nat 2)%nat then k else 3%nat]).
Proof.
  apply (@control_values_layout LittleEndian double real bit32 no_files ex_name
           ex_square ex_square_control 2).
  - valid_by_computation.
  - valid_by_computation.
  - by_computation.
Defined.

(** X17.  Layout of a vector file written with a geometry: for an array of
    Scalar values, [dof] per grid point, whose size fits the Index type,
    [write_vec] stores the [dof] values of each grid point together, the
    points in the order in which the first grid index varies fastest; the
    value stored for point [idx] and component [k] is the element of the
    array at C-order position [idx ++ [k]] of the shape grid + (dof,),
    unchanged. *)
Theorem vector_values_layout :
  forall (host : endian) (p : precision_t) (s : scalar_t) (i : indices_t)
         (fs : filesystem) (filename : string) (A : ndarray cfloat) (g : NURBS) (dof : nat),
    (0 < Ix.prod (NURBS_shape g))%nat ->
    size A = (dof * Ix.prod (NURBS_shape g))%nat ->
    Forall (is_scalar (__init__ p s i)) (data A) ->
    representable (__init__ p s i) (Z.of_nat (size A)) ->
    exists values : list cfloat,
      fst (write_vec host (__init__ p s i) fs filename A (Some g)) filename
      = Some (vector_bytes (__init__ p s i) values)
      /\ length values = size A
      /\ representable (__init__ p s i) (Z.of_nat (length values))
      /\ Forall (is_scalar (__init__ p s i)) values
      /\ forall (idx : list nat) (k : nat),
           Ix.in_range (NURBS_shape g) idx -> (k < dof)%nat ->
           nth (k + dof * Ix.ravel_f (NURBS_shape g) idx) values zero
           = nth (Ix.ravel_c (NURBS_shape g) idx * dof + k) (data A) zero.
Proof.
  intros host p s i fs filename A g dof Hp Hsize Hscalar Hrep.
  exists (data (stored_vec A (NURBS_shape g) dof)).
  rewrite (@write_vec_geometry host p s i fs filename A g dof Hp Hsize).
  cbn [fst]. unfold fs_put. rewrite String.eqb_refl.
  set (b := mk_ndarray (dt A) (NURBS_shape g ++ [dof]) (data A)).
  assert (Hcount : length (data (stored_vec A (NURBS_shape g) dof)) = size A).
  { rewrite Hsize. apply (@size_ravel_rollaxis _ _ b (NURBS_shape g) dof eq_refl). }
  assert (Hwf : wf b).
  { unfold wf, b. cbn [data shape]. rewrite prod_app. cbn [Ix.prod].
    unfold size in Hsize. lia. }
  split; [reflexivity|]. split; [exact Hcount|]. split; [|split].
  - now rewrite Hcount.
  - apply (@Forall_ravel_rollaxis _ _ _ b (NURBS_shape g) dof Hwf eq_refl). exact Hscalar.
  - intros idx k Hidx Hk. unfold stored_vec.
    rewrite (@nth_ravel_rollaxis _ _ (mk_ndarray (dt A) (NURBS_shape g ++ [dof]) (data A))
               (NURBS_shape g) dof idx k eq_refl Hidx Hk).
    unfold get. cbn [shape data]. now rewrite ravel_c_snoc.
Qed.

Lemma vector_values_layout_witness :
  exists values : list cfloat,
    fst (write_vec LittleEndian ex_self no_files ex_name ex_field (Some ex_square)) ex_name
    = Some (vector_bytes ex_self values)
    /\ length values = size ex_field
    /\ representable ex_self (Z.of_nat (length values))
    /\ Forall (is_scalar ex_self) values
    /\ forall (idx : list nat) (k : nat),
         Ix.in_range (NURBS_shape ex_square) idx -> (k < 2)%nat ->
         nth (k + 2 * Ix.ravel_f (NURBS_shape ex_square) idx) values zero
         = nth (Ix.ravel_c (NURBS_shape ex_square) idx * 2 + k) (data ex_field) zero.
Proof.
  apply (@vector_values_layout LittleEndian double real bit32 no_files ex_name
           ex_field ex_square 2%nat); by_computation.
Defined.

Section Canonical.
Variable host : endian.
Variables (p : precision_t) (s : scalar_t) (i : indices_t).
Local Abbreviation self := (__init__ p s i).

Lemma axes_bytes_as_read d (ks : list (ndarray cfloat)) :
  forall qs : list Z,
  flat_map (axis_bytes self) (List.combine qs (map (as_read d) ks))
  = flat_map (axis_bytes self) (List.combine qs ks).
Proof.
  induction ks as [|U ks IH]; intros [|q qs]; try reflexivity.
  cbn [map List.combine flat_map]. now rewrite IH.
Qed.

End Canonical.

(** X18.  Reading a file and writing the result back reproduces the file:
    for a valid geometry written with [nsd] saved spatial dimensions, the
    geometry that [read] returns, written again with the same [nsd], gives
    byte for byte the same file. *)
Theorem rewriting_reproduces_the_file :
  forall (host : endian) (p : precision_t) (s : scalar_t) (i : indices_t)
         (fs : filesystem) (filename : string) (g : NURBS) (c : ndarray cfloat) (nsd : Z),
    valid_geometry (__init__ p s i) g c ->
    fits_index (__init__ p s i) g nsd ->
    NURBS_dim g <= nsd <= 3 ->
    exists fs1 g1 fs2,
      write host (__init__ p s i) fs filename g true (Some nsd) = (fs1, OK tt)
      /\ read host (__init__ p s i) fs1 filename = OK g1
      /\ write host (__init__ p s i) fs1 filename g1 true (Some nsd) = (fs2, OK tt)
      /\ fs2 filename = fs1 filename.
Proof.
  intros host p s i fs filename g c nsd Hv Hfit Hr.
  destruct (@read_write_geometry host p s i fs filename g c (Some nsd) nsd
              Hv eq_refl Hfit Hr) as (fs1 & Hw & Hrd).
  assert (Hfile : fs1 filename
                  = Some (geometry_bytes (__init__ p s i) IGA_ID 1 (NURBS_dim g)
                            (List.combine (NURBS_degree g) (knots g))
                            (control_bytes (__init__ p s i) nsd (data (stored nsd c))))).
  { rewrite (@write_geometry host p s i fs filename g c (NURBS_shape g) (Some nsd) nsd)
      in Hw; [| apply Hv | apply Hv | reflexivity | exact Hr].
    injection Hw as <-. unfold fs_put. now rewrite String.eqb_refl. }
  destruct Hv as [Hc Hwf Hdim Hs Hrank H1d Hdeg Hsz Hrk Hrc].
  set (dR := newbyteorder (Rtype (__init__ p s i)) host) in *.
  set (dS := newbyteorder (Stype (__init__ p s i)) host) in *.
  set (c1 := pad_channels dS (Z.to_nat nsd) c) in *.
  set (g1 := mk_NURBS (map (as_read dR) (knots g)) (Some c1)) in *.
  assert (Hshape1 : NURBS_shape g1 = NURBS_shape g).
  { unfold NURBS_shape, g1, c1. cbn [control]. now rewrite Hc, shape_pad_channels. }
  assert (Hdim1 : NURBS_dim g1 = NURBS_dim g).
  { unfold NURBS_dim, g1. cbn [knots]. now rewrite length_map. }
  exists fs1, g1. eexists. split; [exact Hw|]. split; [exact Hrd|]. split.
  - apply (@write_geometry host p s i fs1 filename g1 c1 (NURBS_shape g) (Some nsd) nsd).
    + reflexivity.
    + unfold c1. now rewrite shape_pad_channels.
    + reflexivity.
    + now rewrite Hdim1.
  - unfold fs_put. rewrite String.eqb_refl, Hfile. f_equal.
    rewrite Hdim1. unfold geometry_bytes. do 3 f_equal.
    assert (Hdeg1 : NURBS_degree g1 = NURBS_degree g).
    { unfold NURBS_degree at 1. rewrite Hshape1. unfold g1. cbn [knots].
      apply (degrees_as_read dR). }
    rewrite Hdeg1. unfold g1 at 1. cbn [knots]. rewrite axes_bytes_as_read.
    f_equal. unfold control_bytes. do 2 f_equal.
    assert (Hstored : data (stored nsd c1) = data (stored nsd c)).
    { unfold stored, c1.
      apply (@stored_pad_channels _ _ dS c (NURBS_shape g) (Z.to_nat nsd) Hs). lia. }
    now rewrite Hstored.
Qed.

Lemma rewriting_reproduces_the_file_witness :
  exists fs1 g1 fs2,
    write LittleEndian ex_self no_files ex_name ex_line true (Some 1) = (fs1, OK tt)
    /\ read LittleEndian ex_self fs1 ex_name = OK g1
    /\ write LittleEndian ex_self fs1 ex_name g1 true (Some 1) = (fs2, OK tt)
    /\ fs2 ex_name = fs1 ex_name.
Proof.
  apply (@rewriting_reproduces_the_file LittleEndian double real bit32 no_files ex_name
           ex_line ex_line_control 1).
  - valid_by_computation.
  - valid_by_computation.
  - by_computation.
Defined.

Section Preserved.
Context {A : Type} {E : Element A}.
Variable P : A -> Prop.
Hypothesis Pzero : P zero.

(** A property of the elements of an array and of [zero] holds of whatever
    is taken out of the array, in or out of range. *)
Lemma P_nth (l : list A) j : Forall P l -> P (nth j l zero).
Proof.
  intros H. destruct (nth_in_or_default j l zero) as [Hin | ->]; [|exact Pzero].
  rewrite Forall_forall in H. now apply H.
Qed.

Lemma P_get (a : ndarray A) idx : Forall P (data a) -> P (get a idx).
Proof. intros H. unfold get. now apply P_nth. Qed.

Lemma P_reconstructed (Cw : ndarray A) d s n :
  Forall P (data Cw) ->
  Forall P (data (set_last
                    (set_last_slice (zeros d s) 0 n
                       (slice_last Cw 0 (last (shape Cw) 0%nat - 1)))
                    3 (select_last Cw (last (shape Cw) 0%nat - 1)))).
Proof.
  intros H.
  assert (Hz : Forall P (data (zeros (A:=A) d s))).
  { unfold zeros. cbn [data]. apply Forall_forall. intros x Hx.
    apply repeat_spec in Hx. now subst. }
  assert (Hslice : Forall P (data (slice_last Cw 0 (last (shape Cw) 0%nat - 1)))).
  { unfold slice_last. apply Forall_tabulate. intros idx _. now apply P_get. }
  assert (Hsel : Forall P (data (select_last Cw (last (shape Cw) 0%nat - 1)))).
  { unfold select_last. apply Forall_tabulate. intros idx _. now apply P_get. }
  unfold set_last. apply Forall_tabulate. intros idx _.
  destruct (last idx 0%nat =? 3)%nat; [now apply P_get|].
  apply P_get. unfold set_last_slice. apply Forall_tabulate. intros idx' _. cbv zeta.
  destruct ((0 <=? last idx' 0%nat)%nat && (last idx' 0%nat <? n)%nat); now apply P_get.
Qed.

Lemma P_rollaxis_first_unravel (flat : ndarray A) s :
  Forall P (data flat) -> Forall P (data (rollaxis_first (unravel_f flat s))).
Proof.
  intros H. unfold rollaxis_first. apply Forall_tabulate. intros idx _.
  apply P_get. unfold unravel_f. apply Forall_tabulate. intros idx' _. now apply P_nth.
Qed.

End Preserved.

Section ReadPost.
Variable host : endian.
Variables (p : precision_t) (s : scalar_t) (i : indices_t).
Local Abbreviation self := (__init__ p s i).

Lemma is_scalar_zero : is_scalar self zero.
Proof. destruct p, s; reflexivity. Qed.

(** What the loop of [read] adds to its accumulators. *)
Lemma read_axes_post k : forall ks ss fh ks' ss' rest,
  read_axes host self k ks ss fh = OK (ks', ss', rest) ->
  exists newk news,
    ks' = (ks ++ newk)%list /\ ss' = (ss ++ news)%list /\ length newk = k
    /\ Forall2 (fun U n => shape U = [size U]
                           /\ dt U = newbyteorder (Rtype self) host
                           /\ Forall (is_real self) (data U)
                           /\ 2 <= n /\ 1 <= Z.of_nat (size U) - n - 1) newk news.
Proof.
  induction k as [|k IH]; intros ks ss fh ks' ss' rest H; cbn [read_axes] in H.
  - injection H as <- <- <-. exists [], []. rewrite !app_nil_r. repeat split. constructor.
  - destruct (_read1 host fh (Itype self)) as [[q fh1]|] eqn:Hq; [|discriminate].
    cbn [bind] in H. destruct (Z.leb_spec 1 q) as [Hq1|]; [|discriminate].
    destruct (_read1 host fh1 (Itype self)) as [[m fh2]|] eqn:Hm; [|discriminate].
    cbn [bind] in H.
    destruct (Z.leb_spec 2 (np_sub (Itype self) (np_sub (Itype self) m q) 1)) as [Hn|];
      [|discriminate].
    destruct (_read (A:=cfloat) host fh2 (Rtype self) m) as [U fh3] eqn:HU.
    destruct (Z.eqb_spec (Z.of_nat (size U)) m) as [Hsz|]; [|discriminate].
    destruct (IH _ _ _ _ _ _ H) as (newk & news & -> & -> & Hlen & Hall).
    destruct (@_read1_inv _ _ host _ (lawful_I p s i) _ _ _ Hq) as (_ & Hqr).
    destruct (@_read1_inv _ _ host _ (lawful_I p s i) _ _ _ Hm) as (_ & Hmr).
    destruct (@_read_inv _ _ host _ (lawful_R p s i) _ _ _ _ HU Hsz) as (_ & Hdt & Hsh & Hfix).
    apply representable_cast in Hqr, Hmr.
    assert (Hnval : np_sub (Itype self) (np_sub (Itype self) m q) 1 = m - q - 1).
    { subst m. rewrite (@np_sub_small p s i (Z.of_nat (size U)) q)
        by (unfold representable in *; lia).
      apply np_sub_small. unfold representable in *. lia. }
    rewrite Hnval in *.
    exists (U :: newk), (m - q - 1 :: news). rewrite <- !app_assoc. cbn [app length].
    repeat split; try lia.
    constructor; [|exact Hall]. repeat split; try assumption; lia.
Qed.

Lemma Forall2_degrees (ks : list (ndarray cfloat)) (ns : list Z) :
  Forall2 (fun U n => shape U = [size U]
                      /\ dt U = newbyteorder (Rtype self) host
                      /\ Forall (is_real self) (data U)
                      /\ 2 <= n /\ 1 <= Z.of_nat (size U) - n - 1) ks ns ->
  length (map Z.to_nat ns) = length ks
  /\ Forall (fun n => (2 <= n)%nat) (map Z.to_nat ns)
  /\ Forall (fun q => 1 <= q) (degrees ks (map Z.to_nat ns))
  /\ Forall (fun U => shape U = [size U] /\ dt U = newbyteorder (Rtype self) host) ks
  /\ Forall (fun U => Forall (is_real self) (data U)) ks.
Proof.
  induction 1 as [|U n ks ns (H1 & H2 & H3 & H4 & H5) _ (I1 & I2 & I3 & I4 & I5)].
  - cbn. repeat split; constructor.
  - cbn [map length]. unfold degrees in *. cbn [List.combine map fst snd].
    repeat split; try (constructor; try assumption; try (split; assumption)); try lia.
Qed.

Lemma read_post fs filename g :
  read host self fs filename = OK g ->
  1 <= NURBS_dim g <= 3
  /\ Forall (fun U => shape U = [size U] /\ dt U = newbyteorder (Rtype self) host) (knots g)
  /\ Forall (fun U => Forall (is_real self) (data U)) (knots g)
  /\ forall c, control g = Some c ->
       wf c
       /\ dt c = newbyteorder (Stype self) host
       /\ shape c = (NURBS_shape g ++ [4%nat])%list
       /\ length (NURBS_shape g) = length (knots g)
       /\ Forall (fun n => (2 <= n)%nat) (NURBS_shape g)
       /\ Forall (fun q => 1 <= q) (NURBS_degree g)
       /\ Forall (is_scalar self) (data c).
Proof.
  unfold read, open_rb. destruct (fs filename) as [fh|]; [|discriminate]. cbn [bind].
  destruct (_read1 host fh (Itype self)) as [[magic fh1]|] eqn:H1; [|discriminate].
  cbn [bind]. destruct (magic =? IGA_ID); [|discriminate].
  destruct (_read1 host fh1 (Itype self)) as [[descr fh2]|] eqn:H2; [|discriminate].
  cbn [bind].
  destruct (_read1 host fh2 (Itype self)) as [[dim fh3]|] eqn:H3; [|discriminate].
  cbn [bind].
  destruct (Z.leb_spec 1 dim); [|discriminate].
  destruct (Z.leb_spec dim 3); [|discriminate]. cbn [andb].
  destruct (read_axes host self (Z.to_nat dim) [] [] fh3) as [[[ks ss] fh4]|] eqn:H4;
    [|discriminate].
  cbn [bind].
  destruct (read_axes_post _ _ _ _ H4) as (newk & news & Hks & Hss & Hlen & Hall).
  cbn [app] in Hks, Hss. subst ks ss.
  destruct (Forall2_degrees Hall) as (Hrank & Hsizes & Hdeg & H1d & Hreal).
  assert (Hdim : 1 <= Z.of_nat (length newk) <= 3) by lia.
  destruct (1 <=? np_abs (Itype self) descr).
  - destruct (_read1 host fh4 (Itype self)) as [[nsd fh5]|] eqn:H5; [|discriminate].
    cbn [bind].
    destruct ((dim <=? nsd) && (nsd <=? 3)); [|discriminate].
    destruct (_read1 host fh5 (Itype self)) as [[vec_id fh6]|] eqn:H6; [|discriminate].
    cbn [bind]. destruct (vec_id =? VEC_ID); [|discriminate].
    destruct (_read1 host fh6 (Itype self)) as [[n fh7]|] eqn:H7; [|discriminate].
    cbn [bind].
    destruct (_read (A:=cfloat) host fh7 (Stype self) n) as [Cw fh8] eqn:H8.
    destruct (Z.eqb_spec (Z.of_nat (size Cw)) n) as [Hsz|]; [|discriminate].
    cbn [bind].
    destruct (@_read_inv _ _ host _ (lawful_S p s i) _ _ _ _ H8 Hsz) as (_ & Hdt & _ & Hfix).
    unfold reconstruct, reshape_f.
    destruct (Nat.eqb (size Cw) _); [|discriminate].
    cbn [bind]. intros Hg. injection Hg as <-. cbn [knots control].
    unfold NURBS_dim. cbn [knots].
    split; [exact Hdim|]. split; [exact H1d|]. split; [exact Hreal|].
    intros c Hc. injection Hc as <-.
    match goal with
    | |- context [set_last ?a 3 ?b] => set (ctl := set_last a 3 b)
    end.
    assert (Hshape : shape ctl = (map Z.to_nat news ++ [4%nat])%list).
    { unfold ctl, set_last, set_last_slice, zeros. cbn [shape tabulate].
      now rewrite map_app. }
    assert (Hgrid : NURBS_shape (mk_NURBS newk (Some ctl)) = map Z.to_nat news).
    { unfold NURBS_shape. cbn [control]. now rewrite Hshape, removelast_snoc. }
    rewrite Hgrid.
    split; [apply wf_tabulate|]. split.
    { unfold ctl, set_last, set_last_slice, zeros, rollaxis_first, unravel_f.
      cbn [dt tabulate]. exact Hdt. }
    split; [exact Hshape|]. split; [exact Hrank|]. split; [exact Hsizes|].
    split.
    { unfold NURBS_degree. rewrite Hgrid. exact Hdeg. }
    unfold ctl. apply (@P_reconstructed cfloat _ (is_scalar self) is_scalar_zero).
    apply (@P_rollaxis_first_unravel cfloat _ (is_scalar self) is_scalar_zero).
    exact Hfix.
  - cbn [bind]. intros Hg. injection Hg as <-. cbn [knots control].
    unfold NURBS_dim. cbn [knots].
    split; [exact Hdim|]. split; [exact H1d|]. split; [exact Hreal|].
    intros c Hc. discriminate Hc.
Qed.

End ReadPost.

(** X19.  What [read] returns, for every file it accepts: a geometry with
    one to three knot vectors, each a 1-D array of Real values in host byte
    order; and, when a control array is returned, it is well formed, holds
    Scalar values in host byte order, has the shape (n_1, ..., n_d, 4) with
    one grid size n_i >= 2 per knot vector, and the degrees
    m_i - n_i - 1 it implies are at least 1. *)
Theorem read_postconditions :
  forall (host : endian) (p : precision_t) (s : scalar_t) (i : indices_t)
         (fs : filesystem) (filename : string) (g : NURBS),
    read host (__init__ p s i) fs filename = OK g ->
    1 <= NURBS_dim g <= 3
    /\ Forall (fun U => shape U = [size U]
                        /\ dt U = newbyteorder (Rtype (__init__ p s i)) host) (knots g)
    /\ Forall (fun U => Forall (is_real (__init__ p s i)) (data U)) (knots g)
    /\ forall c, control g = Some c ->
         wf c
         /\ dt c = newbyteorder (Stype (__init__ p s i)) host
         /\ shape c = (NURBS_shape g ++ [4%nat])%list
         /\ length (NURBS_shape g) = length (knots g)
         /\ Forall (fun n => (2 <= n)%nat) (NURBS_shape g)
         /\ Forall (fun q => 1 <= q) (NURBS_degree g)
         /\ Forall (is_scalar (__init__ p s i)) (data c).
Proof.
  intros host p s i fs filename g Hread.
  exact (@read_post host p s i fs filename g Hread).
Qed.

Lemma read_postconditions_witness :
  exists g,
    read LittleEndian ex_self (one_file ex_name ex_line_file) ex_name = OK g
    /\ 1 <= NURBS_dim g <= 3
    /\ Forall (fun U => shape U = [size U]
                        /\ dt U = newbyteorder (Rtype ex_self) LittleEndian) (knots g)
    /\ Forall (fun U => Forall (is_real ex_self) (data U)) (knots g)
    /\ forall c, control g = Some c ->
         wf c
         /\ dt c = newbyteorder (Stype ex_self) LittleEndian
         /\ shape c = (NURBS_shape g ++ [4%nat])%list
         /\ length (NURBS_shape g) = length (knots g)
         /\ Forall (fun n => (2 <= n)%nat) (NURBS_shape g)
         /\ Forall (fun q => 1 <= q) (NURBS_degree g)
         /\ Forall (is_scalar ex_self) (data c).
Proof.
  assert (Hread : exists g,
             read LittleEndian ex_self (one_file ex_name ex_line_file) ex_name = OK g)
    by (eexists; vm_compute; reflexivity).
  destruct Hread as [g Hread]. exists g. split; [exact Hread|].
  exact (@read_postconditions LittleEndian double real bit32
           (one_file ex_name ex_line_file) ex_name g Hread).
Defined.

Section ReadVecPost.
Variable host : endian.
Variables (p : precision_t) (s : scalar_t) (i : indices_t).
Local Abbreviation self := (__init__ p s i).

Lemma read_vec_post fs filename nurbs A :
  read_vec host self fs filename nurbs = OK A ->
  exists values rest,
    fs filename = Some (vector_bytes self values ++ rest)%list
    /\ Forall (is_scalar self) values
    /\ dt A = newbyteorder (Stype self) host
    /\ length (data A) = length values
    /\ match nurbs with
       | None => shape A = [length values] /\ data A = values
       | Some g =>
         exists dof : nat,
           length values = (dof * Ix.prod (NURBS_shape g))%nat
           /\ shape A = filter (fun n => negb (Nat.eqb n 1)) (NURBS_shape g ++ [dof])
           /\ forall idx k,
                Ix.in_range (NURBS_shape g) idx -> (k < dof)%nat ->
                nth (Ix.ravel_c (NURBS_shape g) idx * dof + k) (data A) zero
                = nth (k + dof * Ix.ravel_f (NURBS_shape g) idx) values zero
       end.
Proof.
  unfold read_vec, open_rb. destruct (fs filename) as [fh|]; [|discriminate]. cbn [bind].
  destruct (_read1 host fh (Itype self)) as [[magic fh1]|] eqn:H1; [|discriminate].
  cbn [bind]. destruct (Z.eqb_spec magic VEC_ID) as [->|]; [|discriminate].
  destruct (_read1 host fh1 (Itype self)) as [[n fh2]|] eqn:H2; [|discriminate].
  cbn [bind].
  destruct (_read (A:=cfloat) host fh2 (Stype self) n) as [V fh3] eqn:H3.
  destruct (Z.eqb_spec (Z.of_nat (size V)) n) as [Hsz|]; [|discriminate].
  destruct (@_read1_inv _ _ host _ (lawful_I p s i) _ _ _ H1) as (Hfh & _).
  destruct (@_read1_inv _ _ host _ (lawful_I p s i) _ _ _ H2) as (Hfh1 & _).
  destruct (@_read_inv _ _ host _ (lawful_S p s i) _ _ _ _ H3 Hsz) as (Hfh2 & Hdt & Hsh & Hfix).
  assert (Hfile : Some fh = Some (vector_bytes self (data V) ++ fh3)%list).
  { unfold vector_bytes. rewrite <- !app_assoc.
    change (length (data V)) with (size V). rewrite Hsz, <- Hfh2, <- Hfh1. now rewrite <- Hfh. }
  destruct nurbs as [g|].
  - unfold reshape_f_infer_first.
    destruct (Nat.eqb_spec (Ix.prod (NURBS_shape g)) 0) as [|Hp]; [discriminate|].
    destruct (Nat.eqb_spec (size V mod Ix.prod (NURBS_shape g)) 0) as [Hm|]; [|discriminate].
    cbn [bind]. intros HA. injection HA as <-.
    set (shp := NURBS_shape g) in *. set (dof := (size V / Ix.prod shp)%nat).
    exists (data V), fh3. split; [exact Hfile|]. split; [exact Hfix|].
    split; [exact Hdt|].
    assert (Hcount : size V = (dof * Ix.prod shp)%nat).
    { apply Nat.Div0.div_exact in Hm. unfold dof. lia. }
    split.
    { unfold squeeze, rollaxis_first, unravel_f. cbn [data shape tabulate hd tl].
      rewrite length_map, length_seq, prod_app. cbn [Ix.prod]. unfold size in Hcount. lia. }
    exists dof. split; [exact Hcount|]. split; [reflexivity|].
    intros idx k Hidx Hk.
    unfold squeeze. cbn [data].
    assert (Hin : Ix.in_range (shp ++ [dof]) (idx ++ [k])).
    { apply in_range_app; [assumption|]. apply Forall2_cons; [assumption | constructor]. }
    rewrite <- (ravel_c_snoc dof k Hidx).
    change (nth (Ix.ravel_c (shp ++ [dof]) (idx ++ [k]))
              (data (rollaxis_first (unravel_f V (dof :: shp)))) zero)
      with (get (rollaxis_first (unravel_f V (dof :: shp))) (idx ++ [k])).
    unfold rollaxis_first. cbn [shape unravel_f tabulate hd tl dt].
    fold (tabulate (dt V) (dof :: shp)
            (fun idx0 => nth (Ix.ravel_f (dof :: shp) idx0) (data V) zero)).
    rewrite get_tabulate by assumption.
    rewrite last_snoc, removelast_snoc.
    unfold unravel_f. rewrite get_tabulate by (now constructor).
    reflexivity.
  - intros HA. injection HA as <-.
    exists (data V), fh3. split; [exact Hfile|]. split; [exact Hfix|].
    split; [exact Hdt|]. split; [reflexivity|]. split; [exact Hsh | reflexivity].
Qed.

End ReadVecPost.

(** X20.  What [read_vec] returns, for every file it accepts: the file is
    laid out as vector identifier, count and that many Scalar values (then
    anything); the array returned holds those values in host byte order.
    Without a geometry it is the 1-D array of the values as stored.  With a
    geometry the number of values is [dof] times the number of grid points,
    the shape is grid + (dof,) without its axes of length one, and the
    element at C-order position (idx, k) is the value stored at position
    k + dof * F(idx), F the Fortran-order offset of the grid point. *)
Theorem read_vec_postconditions :
  forall (host : endian) (p : precision_t) (s : scalar_t) (i : indices_t)
         (fs : filesystem) (filename : string) (nurbs : option NURBS) (A : ndarray cfloat),
    read_vec host (__init__ p s i) fs filename nurbs = OK A ->
    exists values rest,
      fs filename = Some (vector_bytes (__init__ p s i) values ++ rest)%list
      /\ Forall (is_scalar (__init__ p s i)) values
      /\ dt A = newbyteorder (Stype (__init__ p s i)) host
      /\ length (data A) = length values
      /\ match nurbs with
         | None => shape A = [length values] /\ data A = values
         | Some g =>
           exists dof : nat,
             length values = (dof * Ix.prod (NURBS_shape g))%nat
             /\ shape A = filter (fun n => negb (Nat.eqb n 1)) (NURBS_shape g ++ [dof])
             /\ forall idx k,
                  Ix.in_range (NURBS_shape g) idx -> (k < dof)%nat ->
                  nth (Ix.ravel_c (NURBS_shape g) idx * dof + k) (data A) zero
                  = nth (k + dof * Ix.ravel_f (NURBS_shape g) idx) values zero
         end.
Proof.
  intros host p s i fs filename nurbs A Hread.
  exact (@read_vec_post host p s i fs filename nurbs A Hread).
Qed.

Lemma read_vec_postconditions_witness :
  exists A values rest,
    read_vec LittleEndian ex_self (one_file ex_name ex_field_file) ex_name (Some ex_square)
    = OK A
    /\ one_file ex_name ex_field_file ex_name = Some (vector_bytes ex_self values ++ rest)%list
    /\ Forall (is_scalar ex_self) values
    /\ dt A = newbyteorder (Stype ex_self) LittleEndian
    /\ length (data A) = length values
    /\ exists dof : nat,
         length values = (dof * Ix.prod (NURBS_shape ex_square))%nat
         /\ shape A = filter (fun n => negb (Nat.eqb n 1)) (NURBS_shape ex_square ++ [dof])
         /\ forall idx k,
              Ix.in_range (NURBS_shape ex_square) idx -> (k < dof)%nat ->
              nth (Ix.ravel_c (NURBS_shape ex_square) idx * dof + k) (data A) zero
              = nth (k + dof * Ix.ravel_f (NURBS_shape ex_square) idx) values zero.
Proof.
  assert (Hread : exists A,
             read_vec LittleEndian ex_self (one_file ex_name ex_field_file) ex_name
               (Some ex_square) = OK A)
    by (eexists; vm_compute; reflexivity).
  destruct Hread as [A Hread].
  destruct (@read_vec_postconditions LittleEndian double real bit32
              (one_file ex_name ex_field_file) ex_name (Some ex_square) A Hread)
    as (values & rest & H).
  exists A, values, rest. split; [exact Hread | exact H].
Defined.

(** X21.  How [read] takes the descriptor, for every value of it: a file
    that holds the axes and the control block of a valid geometry is
    decoded whatever its descriptor word, and the control array is returned
    exactly when the descriptor is neither zero nor the most negative
    integer of the Index type (whose absolute value, computed in Index
    arithmetic, is negative). *)
Theorem descriptor_law :
  forall (host : endian) (p : precision_t) (s : scalar_t) (i : indices_t)
         (fs : filesystem) (filename : string) (g : NURBS) (c : ndarray cfloat)
         (nsd descr : Z),
    valid_geometry (__init__ p s i) g c ->
    fits_index (__init__ p s i) g nsd ->
    NURBS_dim g <= nsd <= 3 ->
    representable (__init__ p s i) descr ->
    fs filename = Some (geometry_bytes (__init__ p s i) IGA_ID descr (NURBS_dim g)
                          (List.combine (NURBS_degree g) (knots g))
                          (control_bytes (__init__ p s i) nsd (data (stored nsd c)))) ->
    exists g',
      read host (__init__ p s i) fs filename = OK g'
      /\ (control g' <> None
          <-> descr <> 0 /\ descr <> - index_bound (__init__ p s i)).
Proof.
  intros host p s i fs filename g c nsd descr Hv Hfit Hr Hd Hfs.
  destruct (@descriptor_interpretation host p s i fs filename g c nsd descr
              Hv Hfit Hr Hd Hfs) as (g' & Hread & Hiff).
  exists g'. split; [exact Hread|].
  rewrite Hiff. now apply np_abs_ge_1.
Qed.

Lemma descriptor_law_witness :
  exists g',
    read LittleEndian ex_self (one_file ex_name (ex_line_file_with_descriptor (-5))) ex_name
    = OK g'
    /\ (control g' <> None <-> -5 <> 0 /\ -5 <> - index_bound ex_self).
Proof.
  apply (@descriptor_law LittleEndian double real bit32
           (one_file ex_name (ex_line_file_with_descriptor (-5))) ex_name
           ex_line ex_line_control 1 (-5)).
  - valid_by_computation.
  - valid_by_computation.
  - by_computation.
  - by_computation.
  - reflexivity.
Defined.

